(** * Conversation analysis engine: a shallow embedding of
      [analyze_conversations.py] and the properties of its passes.

    The archive is the value [json.load] returns, read through the
    accessors the analyzer uses ([dict.get], [dict.items], truthiness).
    Python [str] is a sequence of code points, [int] is unbounded, and an
    exception aborts the pass that raises it. *)

From Stdlib Require Import ZArith QArith Qabs List Bool String Ascii Lia.
From Stdlib Require Import Permutation Sorted.
Import ListNotations.
#[local] Set Warnings "-register-all".
Local Open Scope Z_scope.

(** ** Python strings *)

(** A [str] is a list of Unicode code points; [len] is its length. *)
Definition pystr := list Z.

Definition bytes_of (s : string) : list Z :=
  map (fun a => Z.of_nat (nat_of_ascii a)) (list_ascii_of_string s).

(** UTF-8 decoding, used only to write string constants legibly. *)
Fixpoint utf8_decode (bs : list Z) : pystr :=
  match bs with
  | [] => []
  | b :: r =>
      if b <? 128 then b :: utf8_decode r
      else if b <? 224 then
        match r with
        | c1 :: r1 => (Z.land b 31 * 64 + Z.land c1 63) :: utf8_decode r1
        | _ => [65533]
        end
      else if b <? 240 then
        match r with
        | c1 :: c2 :: r2 =>
            (Z.land b 15 * 4096 + Z.land c1 63 * 64 + Z.land c2 63)
              :: utf8_decode r2
        | _ => [65533]
        end
      else
        match r with
        | c1 :: c2 :: c3 :: r3 =>
            (Z.land b 7 * 262144 + Z.land c1 63 * 4096
             + Z.land c2 63 * 64 + Z.land c3 63) :: utf8_decode r3
        | _ => [65533]
        end
  end.

Definition py (s : string) : pystr := utf8_decode (bytes_of s).
Arguments py : simpl never.

Fixpoint pystr_eqb (a b : pystr) : bool :=
  match a, b with
  | [], [] => true
  | x :: a', y :: b' => (x =? y) && pystr_eqb a' b'
  | _, _ => false
  end.

(** Lexicographic order on code points: [<] on [str]. *)
Fixpoint pystr_ltb (a b : pystr) : bool :=
  match a, b with
  | _, [] => false
  | [], _ :: _ => true
  | x :: a', y :: b' => (x <? y) || ((x =? y) && pystr_ltb a' b')
  end.

Fixpoint startswith (s prefix : pystr) : bool :=
  match prefix, s with
  | [], _ => true
  | p :: prefix', c :: s' => (p =? c) && startswith s' prefix'
  | _ :: _, [] => false
  end.

(** [needle in hay]: substring containment. *)
Fixpoint contains (needle hay : pystr) : bool :=
  startswith hay needle
  || match hay with
     | [] => false
     | _ :: hay' => contains needle hay'
     end.

(** [sep.join(xs)]. *)
Fixpoint join (sep : pystr) (xs : list pystr) : pystr :=
  match xs with
  | [] => []
  | [x] => x
  | x :: rest => x ++ sep ++ join sep rest
  end.

(** Folding of the Basic Latin capitals, the part of [str.lower] that does
    not depend on the Unicode tables of the interpreter. *)
Definition ascii_lower (c : Z) : Z :=
  if (65 <=? c) && (c <=? 90) then c + 32 else c.

(** Code points on which [str.lower] is known without those tables: Basic
    Latin, and the CJK Unified Ideographs, which have no case. *)
Definition basic_or_cjk (c : Z) : Prop :=
  0 <= c < 128 \/ 19968 <= c <= 40959.

(** Decimal digits of a non-negative integer, most significant first. *)
Fixpoint digits_fuel (fuel : nat) (n : Z) (acc : pystr) : pystr :=
  match fuel with
  | O => acc
  | S fuel' =>
      let acc' := (48 + n mod 10) :: acc in
      if n <? 10 then acc' else digits_fuel fuel' (n / 10) acc'
  end.

(** [str(n)] for an [int]. *)
Definition decimal (n : Z) : pystr :=
  if n <? 0 then 45 :: digits_fuel (S (Z.to_nat (Z.log2 (- n)))) (- n) []
  else digits_fuel (S (Z.to_nat (Z.log2 n))) n [].

(** [f"{n:02d}"] and [f"{n:04d}"] for a non-negative [n]. *)
Definition zfill (width : nat) (s : pystr) : pystr :=
  repeat 48 (width - List.length s) ++ s.

(** ** JSON values *)

(** What [json.load] produces; the keys of a dict are distinct. A float is
    kept as the rational it denotes: the analyzer observes its truthiness
    and hands it to [str]. *)
Inductive json : Type :=
| JNull
| JBool (b : bool)
| JInt (z : Z)
| JFloat (q : Q)
| JStr (s : pystr)
| JList (l : list json)
| JDict (d : list (pystr * json)).

(** Truth value of a JSON value in a condition. *)
Definition truthy (v : json) : bool :=
  match v with
  | JNull => false
  | JBool b => b
  | JInt z => negb (z =? 0)
  | JFloat q => negb (Qeq_bool q 0)
  | JStr s => negb (pystr_eqb s [])
  | JList l => match l with [] => false | _ => true end
  | JDict d => match d with [] => false | _ => true end
  end.

(** [d.get(k)] on a dict held as its item list. *)
Fixpoint dict_get {A : Type} (d : list (pystr * A)) (k : pystr) : option A :=
  match d with
  | [] => None
  | (k', v) :: d' => if pystr_eqb k' k then Some v else dict_get d' k
  end.

(** ** Exceptions *)

Inductive exn : Type :=
| TypeError      (* an operation applied to [None] *)
| ValueError     (* [datetime]: year out of range (or [OverflowError]) *)
| KeyError.      (* a report key read before it was written *)

Inductive result (A : Type) : Type :=
| Ok (a : A)
| Raise (e : exn).
Arguments Ok {A} a.
Arguments Raise {A} e.

Definition bind {A B : Type} (m : result A) (k : A -> result B) : result B :=
  match m with
  | Ok a => k a
  | Raise e => Raise e
  end.

Notation "x <- m ;; k" := (bind m (fun x => k))
  (at level 61, m at next level, right associativity).

(** A loop whose body may raise: the first exception ends it. *)
Fixpoint foldM {A S : Type} (body : S -> A -> result S) (s : S) (xs : list A)
  : result S :=
  match xs with
  | [] => Ok s
  | x :: xs' => s' <- body s x ;; foldM body s' xs'
  end.

(** ** Numbers

    A number of the report is an [int] or a [float]; a [float] is kept as
    the rational it denotes, and [round(x, n)] as decimal rounding of that
    rational (the binary rounding of [x] itself is not modelled). *)
Inductive number : Type :=
| PyInt (n : Z)
| PyFloat (q : Q).

Definition number_value (x : number) : Q :=
  match x with
  | PyInt n => inject_Z n
  | PyFloat q => q
  end.

(** [x >= k] for an integer literal [k]. *)
Definition number_geb (x : number) (k : Z) : bool :=
  Qle_bool (inject_Z k) (number_value x).

(** Nearest integer, ties to even. *)
Definition round_half_even (q : Q) : Z :=
  let n := Qnum q in
  let d := Z.pos (Qden q) in
  let f := n / d in
  let r := n mod d in
  if 2 * r <? d then f
  else if d <? 2 * r then f + 1
  else if Z.even f then f else f + 1.

(** [round(q, ndigits)] of a [float]: a decimal with [ndigits] places. *)
Definition py_round (q : Q) (ndigits : nat) : Q :=
  let p := Pos.pow 10 (Pos.of_nat ndigits) in
  match ndigits with
  | O => inject_Z (round_half_even q)
  | S _ => Qmake (round_half_even (q * inject_Z (Z.pos p))) p
  end.

(** [a / b] on two [int] counters, [b] not zero. *)
Definition true_div (a b : nat) : Q :=
  Qmake (Z.of_nat a) (Pos.of_nat b).

(** ** Local time *)

(** A naive [datetime] (microseconds are zero: timestamps are whole
    seconds). *)
Record datetime : Type := {
  year : Z;
  month : Z;
  day : Z;
  hour : Z;
  minute : Z;
  second : Z
}.

(** Day number since 1970-01-01 to proleptic Gregorian (year, month, day). *)
Definition civil_from_days (z : Z) : Z * Z * Z :=
  let z := z + 719468 in
  let era := z / 146097 in
  let doe := z - era * 146097 in
  let yoe := (doe - doe / 1460 + doe / 36524 - doe / 146096) / 365 in
  let y := yoe + era * 400 in
  let doy := doe - (365 * yoe + yoe / 4 - yoe / 100) in
  let mp := (5 * doy + 2) / 153 in
  let d := doy - (153 * mp + 2) / 5 + 1 in
  let m := if mp <? 10 then mp + 3 else mp - 9 in
  (if m <=? 2 then y + 1 else y, m, d).

Definition days_from_civil (y m d : Z) : Z :=
  let y := if m <=? 2 then y - 1 else y in
  let era := y / 400 in
  let yoe := y - era * 400 in
  let doy := (153 * (if 2 <? m then m - 3 else m + 9) + 2) / 5 + d - 1 in
  let doe := yoe * 365 + yoe / 4 - yoe / 100 + doy in
  era * 146097 + doe - 719468.

(** [dt.weekday()]: Monday is 0. *)
Definition weekday (dt : datetime) : Z :=
  (days_from_civil (year dt) (month dt) (day dt) + 3) mod 7.

(** [dt.date()]. *)
Definition date (dt : datetime) : Z * Z * Z :=
  (year dt, month dt, day dt).

(** Seconds of the wall clock since 1970-01-01T00:00:00; [dt1 - dt2] and
    the order on [datetime] go through it. *)
Definition wall_seconds (dt : datetime) : Z :=
  days_from_civil (year dt) (month dt) (day dt) * 86400
  + hour dt * 3600 + minute dt * 60 + second dt.

Definition dt_min (a b : datetime) : datetime :=
  if wall_seconds b <? wall_seconds a then b else a.

Definition dt_max (a b : datetime) : datetime :=
  if wall_seconds a <? wall_seconds b then b else a.

(** [str(d)] of a [date]: ISO format. *)
Definition isoformat (d : Z * Z * Z) : pystr :=
  let '(y, m, dd) := d in
  zfill 4 (decimal y) ++ py "-" ++ zfill 2 (decimal m) ++ py "-"
    ++ zfill 2 (decimal dd).

(** [f"{dt.year}-{dt.month:02d}"]. *)
Definition month_key (dt : datetime) : pystr :=
  decimal (year dt) ++ py "-" ++ zfill 2 (decimal (month dt)).

(** ** The host

    What the analyzer takes from the interpreter and the machine it runs
    on, with the laws the proofs rely on. *)
Class Host : Type := {
  (** Offset of local time from UTC at an instant, in seconds. *)
  utcoffset : Z -> Z;
  utcoffset_bound : forall t, -86400 < utcoffset t < 86400;
  (** [%Y] of the C library; platforms differ on padding below 1000. *)
  strftime_Y : Z -> pystr;
  strftime_Y_spec : forall y, 1000 <= y <= 9999 -> strftime_Y y = decimal y;
  (** [str.lower]. *)
  lower : pystr -> pystr;
  lower_spec :
    forall s, Forall basic_or_cjk s -> lower s = map ascii_lower s;
  (** [str(v)] for a value that is not a [str]. *)
  py_repr : json -> pystr;
  (** [str(x)] for a [float]. *)
  float_repr : Q -> pystr;
  (** Up to three keywords of a month's text (jieba, else the CJK pattern). *)
  month_keywords : pystr -> list pystr
}.

(** [str(v)]. *)
Definition py_str `{Host} (v : json) : pystr :=
  match v with
  | JStr s => s
  | _ => py_repr v
  end.

(** [str(x)] of a number, as an f-string interpolates it. *)
Definition number_str `{Host} (x : number) : pystr :=
  match x with
  | PyInt n => decimal n
  | PyFloat q => float_repr q
  end.

(** [datetime.fromtimestamp(t)]: local wall clock of the instant [t];
    raises when the year leaves [1, 9999]. *)
Definition fromtimestamp `{Host} (t : Z) : result datetime :=
  let l := t + utcoffset t in
  let '(y, m, d) := civil_from_days (l / 86400) in
  let s := l mod 86400 in
  if (1 <=? y) && (y <=? 9999)
  then Ok {| year := y; month := m; day := d;
             hour := s / 3600; minute := s mod 3600 / 60;
             second := s mod 60 |}
  else Raise ValueError.

(** [datetime.fromtimestamp(v)] on what [dict.get] returned. *)
Definition fromtimestamp_value `{Host} (v : option Z) : result datetime :=
  match v with
  | None => Raise TypeError
  | Some t => fromtimestamp t
  end.

(** [dt.strftime("%Y-%m")] and [dt.strftime("%Y-%m-%d")]. *)
Definition strftime_Ym `{Host} (dt : datetime) : pystr :=
  strftime_Y (year dt) ++ py "-" ++ zfill 2 (decimal (month dt)).

Definition strftime_Ymd `{Host} (dt : datetime) : pystr :=
  strftime_Ym dt ++ py "-" ++ zfill 2 (decimal (day dt)).

(** ** Archive *)

(** A key of a conversation: missing, present with [null], or a value. *)
Inductive field (A : Type) : Type :=
| Absent
| Null
| Has (a : A).
Arguments Absent {A}.
Arguments Null {A}.
Arguments Has {A} a.

(** [d.get(k)]: [None] when the key is missing or null. *)
Definition get {A : Type} (f : field A) : option A :=
  match f with
  | Has a => Some a
  | _ => None
  end.

(** [d.get(k, default)]. *)
Definition get_default {A : Type} (f : field A) (default : A) : option A :=
  match f with
  | Absent => Some default
  | Null => None
  | Has a => Some a
  end.

(** A message: [author.role] ([None] when there is no author or no role),
    and the [content] key ([None] when missing). *)
Record message : Type := {
  role : option pystr;
  content : option json
}.

(** A node of the mapping; [None] when [message] is missing, null or
    empty. *)
Record node : Type := {
  node_message : option message
}.

(** A conversation. [create_time] is a Unix timestamp in whole seconds;
    [mapping] is the item list of the node dict, empty when the key is
    missing. *)
Record conversation : Type := {
  conversation_id : field pystr;
  title : field pystr;
  create_time : field Z;
  mapping : list (pystr * node)
}.

(** Truth value of [conv.get("create_time")]. *)
Definition has_timestamp (c : conversation) : bool :=
  match get (create_time c) with
  | Some t => negb (t =? 0)
  | None => false
  end.

(** ** Counters

    A [defaultdict(int)] held as its item list in insertion order. *)
Section Counters.
Context {K : Type} (eqb : K -> K -> bool).

(** [d[k] += n]. *)
Fixpoint counter_add (d : list (K * nat)) (k : K) (n : nat)
  : list (K * nat) :=
  match d with
  | [] => [(k, n)]
  | (k', v) :: d' =>
      if eqb k' k then (k', (v + n)%nat) :: d'
      else (k', v) :: counter_add d' k n
  end.

(** [d[k]] of a [defaultdict(int)]. *)
Fixpoint counter_get (d : list (K * nat)) (k : K) : nat :=
  match d with
  | [] => O
  | (k', v) :: d' => if eqb k' k then v else counter_get d' k
  end.

(** [max(d.items(), key=lambda x: x[1])]: the first item of greatest
    count. *)
Definition max_item (d : list (K * nat)) : option (K * nat) :=
  match d with
  | [] => None
  | x :: r =>
      Some (fold_left (fun best y => if (snd best <? snd y)%nat then y else best)
                      r x)
  end.

End Counters.

(** [sum(xs)]. *)
Definition py_sum (xs : list nat) : nat := fold_left Nat.add xs O.

(** [sum(1 for t in xs if p t)]. *)
Definition count_if (p : nat -> bool) (xs : list nat) : nat :=
  List.length (filter p xs).

(** [round(x, ndigits)]: an [int] is returned as it is. *)
Definition round_number (x : number) (ndigits : nat) : number :=
  match x with
  | PyInt n => PyInt n
  | PyFloat q => PyFloat (py_round q ndigits)
  end.

Definition date_eqb (a b : Z * Z * Z) : bool :=
  let '(y1, m1, d1) := a in
  let '(y2, m2, d2) := b in
  (y1 =? y2) && (m1 =? m2) && (d1 =? d2).

Definition cell_eqb (a b : Z * Z) : bool :=
  (fst a =? fst b) && (snd a =? snd b).

(** ** The report: one record per pass *)

Module SummaryStats.
Record t : Type := {
  total_conversations : nat;
  total_messages : nat;
  total_user_characters : nat;
  total_assistant_characters : nat;
  total_hours_span : number;
  most_active_date : option pystr * nat;
  most_active_hour : option Z * nat;
  books_equivalent : list (pystr * number)
}.
End SummaryStats.

Module Heatmap.
Record t : Type := {
  heatmap_data : list (Z * Z * nat);
  hour_distribution : list (Z * nat);
  weekday_distribution : list (pystr * nat)
}.
End Heatmap.

Module DeepDive.
Record conv_turns : Type := {
  conversation_id : option pystr;
  title : option pystr;
  turns : nat
}.
Record t : Type := {
  total_conversations : nat;
  average_turns : number;
  shallow_1_2_turns : nat;
  medium_3_9_turns : nat;
  deep_10plus_turns : nat;
  max_turns : nat;
  top_deep_conversations : list conv_turns
}.
End DeepDive.

Module Ratio.
Record t : Type := {
  input_chars : nat;
  output_chars : nat;
  ratio : number;
  ratio_display : pystr;
  persona_type : pystr;
  description : pystr
}.
End Ratio.

Module Marathon.
Record t : Type := {
  title : option pystr;
  date : pystr;
  turns : nat;
  conversation_id : option pystr
}.
End Marathon.

Module Monthly.
Record t : Type := {
  month : pystr;
  top_keywords : list pystr;
  conversation_count : nat
}.
End Monthly.

Module Politeness.
Record t : Type := {
  please_count : nat;
  thank_you_count : nat;
  help_count : nat;
  total_polite_usage : nat;
  total_messages : nat;
  politeness_percentage : number;
  evaluation : pystr
}.
End Politeness.

(** [self.summary]: a key is [None] until its pass has written it.
    [marathon_session] may be written as [None] (JSON null). The values of
    the three passes left to [OtherPasses] are kept as JSON. *)
Record report : Type := {
  summary_stats : option SummaryStats.t;
  brain_activity_heatmap : option Heatmap.t;
  keywords : option json;
  deep_dive_index : option DeepDive.t;
  directors_ratio : option Ratio.t;
  linguistic_profile : option json;
  marathon_session : option (option Marathon.t);
  monthly_focus : option (list Monthly.t);
  politeness_score : option Politeness.t;
  persona_badge : option json
}.

Definition empty_report : report :=
  {| summary_stats := None; brain_activity_heatmap := None;
     keywords := None; deep_dive_index := None; directors_ratio := None;
     linguistic_profile := None; marathon_session := None;
     monthly_focus := None; politeness_score := None;
     persona_badge := None |}.

(** The analyzer object: [self.conversations] and [self.summary]. *)
Record analyzer : Type := {
  conversations : list conversation;
  summary : report
}.

(** Passes 3, 6 and 10 ([analyze_keywords], [analyze_linguistic_profile],
    [analyze_persona_badge]) rest on jieba, nltk, langdetect and on binary
    floating-point thresholds. The driver keeps their place in the
    sequence; what they compute is left open. *)
Class OtherPasses : Type := {
  (** From the user texts of the archive, in order. *)
  keywords_of : list pystr -> json;
  linguistic_profile_of : list pystr -> json;
  (** From [heatmap_data], empty when the heatmap key is missing. *)
  persona_badge_of : list (Z * Z * nat) -> json
}.

(** ** The passes *)

Definition set_summary (self : analyzer) (r : report) : analyzer :=
  {| conversations := conversations self; summary := r |}.

Definition root_id : pystr := py "client-created-root".

(** The head of the loop over [mapping.items()] that every pass repeats:
    the synthetic root and the nodes without a message are skipped. *)
Definition visited (conv : conversation) : list message :=
  flat_map (fun item : pystr * node =>
              if pystr_eqb (fst item) root_id then []
              else match node_message (snd item) with
                   | Some m => [m]
                   | None => []
                   end)
           (mapping conv).

(** [role == r]. *)
Definition role_is (m : message) (r : pystr) : bool :=
  match role m with
  | Some r' => pystr_eqb r' r
  | None => false
  end.

Definition is_user (m : message) : bool := role_is m (py "user").

(** [count_characters]. *)
Definition count_characters (text : pystr) : nat := List.length text.

(** The user-message count of one conversation (passes 4 and 7). *)
Definition user_message_count (conv : conversation) : nat :=
  List.length (filter is_user (visited conv)).

Section Analyzer.
Context `{Host} `{OtherPasses}.

(** [extract_text_from_message]. *)
Definition extract_text_from_message (m : message) : pystr :=
  match content m with
  | None => []
  | Some c =>
      match c with
      | JDict d =>
          match dict_get d (py "parts") with
          | Some (JList parts) =>
              join (py " ") (map py_str (filter truthy parts))
          | _ => if truthy c then py_str c else []
          end
      | _ => if truthy c then py_str c else []
      end
  end.

(** *** 1. [analyze_summary_stats] *)

Record stats_loop : Type := {
  total_user_chars : nat;
  total_assistant_chars : nat;
  total_messages : nat;
  timestamps : list datetime;
  date_counts : list (Z * Z * Z * nat);
  hour_counts : list (Z * nat);
  weekday_counts : list (Z * nat)
}.

Definition stats_init : stats_loop :=
  {| total_user_chars := 0; total_assistant_chars := 0; total_messages := 0;
     timestamps := []; date_counts := []; hour_counts := [];
     weekday_counts := [] |}.

Definition stats_time (st : stats_loop) (conv : conversation)
  : result stats_loop :=
  if has_timestamp conv then
    dt <- fromtimestamp_value (get (create_time conv)) ;;
    Ok {| total_user_chars := total_user_chars st;
          total_assistant_chars := total_assistant_chars st;
          total_messages := total_messages st;
          timestamps := timestamps st ++ [dt];
          date_counts := counter_add date_eqb (date_counts st) (date dt) 1;
          hour_counts := counter_add Z.eqb (hour_counts st) (hour dt) 1;
          weekday_counts :=
            counter_add Z.eqb (weekday_counts st) (weekday dt) 1 |}
  else Ok st.

Definition stats_message (st : stats_loop) (m : message) : stats_loop :=
  let text := extract_text_from_message m in
  if role_is m (py "user") then
    {| total_user_chars := total_user_chars st + count_characters text;
       total_assistant_chars := total_assistant_chars st;
       total_messages := total_messages st + 1;
       timestamps := timestamps st; date_counts := date_counts st;
       hour_counts := hour_counts st; weekday_counts := weekday_counts st |}
  else if role_is m (py "assistant") then
    {| total_user_chars := total_user_chars st;
       total_assistant_chars :=
         total_assistant_chars st + count_characters text;
       total_messages := total_messages st;
       timestamps := timestamps st; date_counts := date_counts st;
       hour_counts := hour_counts st; weekday_counts := weekday_counts st |}
  else st.

Definition stats_conversation (st : stats_loop) (conv : conversation)
  : result stats_loop :=
  st' <- stats_time st conv ;;
  Ok (fold_left stats_message (visited conv) st').

Definition BOOK_SIZES : list (pystr * positive) :=
  [(py "三体", 200000%positive); (py "哈利波特", 100000%positive);
   (py "小王子", 20000%positive)].

Definition total_hours_of (ts : list datetime) : number :=
  match ts with
  | [] => PyInt 0
  | t0 :: rest =>
      let earliest := fold_left dt_min rest t0 in
      let latest := fold_left dt_max rest t0 in
      PyFloat (Qmake (wall_seconds latest - wall_seconds earliest) 3600)
  end.

Definition summary_stats_of (convs : list conversation)
  : result SummaryStats.t :=
  let conversation_count := List.length convs in
  st <- foldM stats_conversation stats_init convs ;;
  let total_hours := total_hours_of (timestamps st) in
  let most_active_date := max_item (date_counts st) in
  let most_active_hour := max_item (hour_counts st) in
  let books_equivalent :=
    map (fun book : pystr * positive =>
           (fst book,
            PyFloat (py_round (Qmake (Z.of_nat (total_assistant_chars st))
                                     (snd book)) 1)))
        BOOK_SIZES in
  Ok {| SummaryStats.total_conversations := conversation_count;
        SummaryStats.total_messages := total_messages st;
        SummaryStats.total_user_characters := total_user_chars st;
        SummaryStats.total_assistant_characters := total_assistant_chars st;
        SummaryStats.total_hours_span := round_number total_hours 1;
        SummaryStats.most_active_date :=
          match most_active_date with
          | Some (d, n) => (Some (isoformat d), n)
          | None => (None, O)
          end;
        SummaryStats.most_active_hour :=
          match most_active_hour with
          | Some (h, n) => (Some h, n)
          | None => (None, O)
          end;
        SummaryStats.books_equivalent := books_equivalent |}.

Definition analyze_summary_stats (self : analyzer) : result analyzer :=
  s <- summary_stats_of (conversations self) ;;
  let r := summary self in
  Ok (set_summary self
    {| summary_stats := Some s;
       brain_activity_heatmap := brain_activity_heatmap r;
       keywords := keywords r; deep_dive_index := deep_dive_index r;
       directors_ratio := directors_ratio r;
       linguistic_profile := linguistic_profile r;
       marathon_session := marathon_session r;
       monthly_focus := monthly_focus r;
       politeness_score := politeness_score r;
       persona_badge := persona_badge r |}).

(** *** 2. [analyze_brain_activity_heatmap] *)

Definition heatmap_step (data : list (Z * Z * nat)) (conv : conversation)
  : result (list (Z * Z * nat)) :=
  if negb (has_timestamp conv) then Ok data
  else
    dt <- fromtimestamp_value (get (create_time conv)) ;;
    Ok (counter_add cell_eqb data (hour dt, weekday dt) 1).

Definition weekday_names : list pystr :=
  [py "周一"; py "周二"; py "周三"; py "周四"; py "周五"; py "周六";
   py "周日"].

Definition brain_activity_heatmap_of (convs : list conversation)
  : result Heatmap.t :=
  heatmap_data <- foldM heatmap_step [] convs ;;
  let heatmap_array := heatmap_data in
  let hour_distribution :=
    fold_left (fun d cell => counter_add Z.eqb d (fst (fst cell)) (snd cell))
              heatmap_data [] in
  let weekday_distribution :=
    fold_left (fun d cell => counter_add Z.eqb d (snd (fst cell)) (snd cell))
              heatmap_data [] in
  Ok {| Heatmap.heatmap_data := heatmap_array;
        Heatmap.hour_distribution := hour_distribution;
        Heatmap.weekday_distribution :=
          map (fun i => (nth i weekday_names [],
                         counter_get Z.eqb weekday_distribution (Z.of_nat i)))
              (seq 0 7) |}.

Definition analyze_brain_activity_heatmap (self : analyzer)
  : result analyzer :=
  h <- brain_activity_heatmap_of (conversations self) ;;
  let r := summary self in
  Ok (set_summary self
    {| summary_stats := summary_stats r;
       brain_activity_heatmap := Some h;
       keywords := keywords r; deep_dive_index := deep_dive_index r;
       directors_ratio := directors_ratio r;
       linguistic_profile := linguistic_profile r;
       marathon_session := marathon_session r;
       monthly_focus := monthly_focus r;
       politeness_score := politeness_score r;
       persona_badge := persona_badge r |}).

(** The non-empty texts of the user messages of a conversation (passes 3
    and 8: [if role == "user": ... if text: ...]). *)
Definition user_texts (conv : conversation) : list pystr :=
  filter (fun text => negb (pystr_eqb text []))
         (map extract_text_from_message (filter is_user (visited conv))).

(** *** 3. [analyze_keywords] *)

Definition analyze_keywords (self : analyzer) : analyzer :=
  let all_text := flat_map user_texts (conversations self) in
  let r := summary self in
  set_summary self
    {| summary_stats := summary_stats r;
       brain_activity_heatmap := brain_activity_heatmap r;
       keywords := Some (keywords_of all_text);
       deep_dive_index := deep_dive_index r;
       directors_ratio := directors_ratio r;
       linguistic_profile := linguistic_profile r;
       marathon_session := marathon_session r;
       monthly_focus := monthly_focus r;
       politeness_score := politeness_score r;
       persona_badge := persona_badge r |}.

(** *** 4. [analyze_deep_dive_index] *)

Definition deep_dive_step
  (acc : list nat * list DeepDive.conv_turns) (conv : conversation)
  : list nat * list DeepDive.conv_turns :=
  let n := user_message_count conv in
  if (0 <? n)%nat then
    (fst acc ++ [n],
     snd acc ++ [ {| DeepDive.conversation_id :=
                       get_default (conversation_id conv) [];
                     DeepDive.title := get_default (title conv) [];
                     DeepDive.turns := n |} ])
  else acc.

(** The three conditions of the distribution: [1 <= t <= 2],
    [3 <= t <= 9], [t >= 10]. *)
Definition is_shallow (t : nat) : bool := (1 <=? t)%nat && (t <=? 2)%nat.
Definition is_medium (t : nat) : bool := (3 <=? t)%nat && (t <=? 9)%nat.
Definition is_deep (t : nat) : bool := (10 <=? t)%nat.

(** [sorted(xs, key=lambda x: x["turns"], reverse=True)]: stable. *)
Fixpoint insert_by_turns (x : DeepDive.conv_turns)
  (l : list DeepDive.conv_turns) : list DeepDive.conv_turns :=
  match l with
  | [] => [x]
  | y :: l' =>
      if (DeepDive.turns y <? DeepDive.turns x)%nat then x :: y :: l'
      else y :: insert_by_turns x l'
  end.

Definition sorted_by_turns (l : list DeepDive.conv_turns)
  : list DeepDive.conv_turns :=
  fold_left (fun acc x => insert_by_turns x acc) l [].

Definition deep_dive_index_of (convs : list conversation) : DeepDive.t :=
  let acc := fold_left deep_dive_step convs ([], []) in
  let turn_counts := fst acc in
  let conversation_turns := snd acc in
  let shallow := count_if is_shallow turn_counts in
  let medium := count_if is_medium turn_counts in
  let deep := count_if is_deep turn_counts in
  {| DeepDive.total_conversations := List.length turn_counts;
     DeepDive.average_turns :=
       match turn_counts with
       | [] => PyInt 0
       | _ => PyFloat (py_round (true_div (py_sum turn_counts)
                                          (List.length turn_counts)) 1)
       end;
     DeepDive.shallow_1_2_turns := shallow;
     DeepDive.medium_3_9_turns := medium;
     DeepDive.deep_10plus_turns := deep;
     DeepDive.max_turns := list_max turn_counts;
     DeepDive.top_deep_conversations :=
       firstn 5 (sorted_by_turns conversation_turns) |}.

Definition analyze_deep_dive_index (self : analyzer) : analyzer :=
  let r := summary self in
  set_summary self
    {| summary_stats := summary_stats r;
       brain_activity_heatmap := brain_activity_heatmap r;
       keywords := keywords r;
       deep_dive_index := Some (deep_dive_index_of (conversations self));
       directors_ratio := directors_ratio r;
       linguistic_profile := linguistic_profile r;
       marathon_session := marathon_session r;
       monthly_focus := monthly_focus r;
       politeness_score := politeness_score r;
       persona_badge := persona_badge r |}.

(** *** 5. [analyze_directors_ratio] *)

Definition directors_ratio_of (s : SummaryStats.t) : Ratio.t :=
  let total_user_chars := SummaryStats.total_user_characters s in
  let total_assistant_chars := SummaryStats.total_assistant_characters s in
  let ratio :=
    if (0 <? total_user_chars)%nat
    then PyFloat (py_round (true_div total_assistant_chars total_user_chars) 2)
    else PyInt 0 in
  let persona :=
    if number_geb ratio 8 then
      (py "学习者", py "你在大量吸收信息，是一个积极的学习者")
    else if number_geb ratio 3 then
      (py "平衡型", py "你与 AI 的互动比较平衡")
    else
      (py "创作者", py "你提供了大量上下文，更像是在与 AI 协作创作") in
  {| Ratio.input_chars := total_user_chars;
     Ratio.output_chars := total_assistant_chars;
     Ratio.ratio := ratio;
     Ratio.ratio_display := py "1:" ++ number_str ratio;
     Ratio.persona_type := fst persona;
     Ratio.description := snd persona |}.

(** Reads [self.summary["summary_stats"]]: [KeyError] before pass 1. *)
Definition analyze_directors_ratio (self : analyzer) : result analyzer :=
  let r := summary self in
  match summary_stats r with
  | None => Raise KeyError
  | Some s =>
      Ok (set_summary self
        {| summary_stats := summary_stats r;
           brain_activity_heatmap := brain_activity_heatmap r;
           keywords := keywords r;
           deep_dive_index := deep_dive_index r;
           directors_ratio := Some (directors_ratio_of s);
           linguistic_profile := linguistic_profile r;
           marathon_session := marathon_session r;
           monthly_focus := monthly_focus r;
           politeness_score := politeness_score r;
           persona_badge := persona_badge r |})
  end.

(** *** 6. [analyze_linguistic_profile] *)

Definition analyze_linguistic_profile (self : analyzer) : analyzer :=
  let texts :=
    flat_map (fun conv =>
                map extract_text_from_message (filter is_user (visited conv)))
             (conversations self) in
  let r := summary self in
  set_summary self
    {| summary_stats := summary_stats r;
       brain_activity_heatmap := brain_activity_heatmap r;
       keywords := keywords r;
       deep_dive_index := deep_dive_index r;
       directors_ratio := directors_ratio r;
       linguistic_profile := Some (linguistic_profile_of texts);
       marathon_session := marathon_session r;
       monthly_focus := monthly_focus r;
       politeness_score := politeness_score r;
       persona_badge := persona_badge r |}.

(** *** 7. [analyze_marathon_session] *)

Definition marathon_step (st : nat * option conversation)
  (conv : conversation) : nat * option conversation :=
  let n := user_message_count conv in
  if (fst st <? n)%nat then (n, Some conv) else st.

(** [date_str]: the local date of the conversation, or a placeholder. *)
Definition marathon_date (marathon_conv : conversation) : result pystr :=
  if has_timestamp marathon_conv then
    dt <- fromtimestamp_value (get (create_time marathon_conv)) ;;
    Ok (strftime_Ymd dt)
  else Ok (py "未知").

(** The value written for the conversation kept. *)
Definition marathon_entry (marathon_conv : conversation) (max_turns : nat)
  (date_str : pystr) : Marathon.t :=
  {| Marathon.title := get_default (title marathon_conv) (py "未命名对话");
     Marathon.date := date_str;
     Marathon.turns := max_turns;
     Marathon.conversation_id :=
       get_default (conversation_id marathon_conv) [] |}.

(** The conversation kept has a user message, so its dict is not empty and
    [if marathon_conv:] tests for [None] only. *)
Definition marathon_session_of (convs : list conversation)
  : result (option Marathon.t) :=
  let st := fold_left marathon_step convs (O, None) in
  let max_turns := fst st in
  match snd st with
  | Some marathon_conv =>
      date_str <- marathon_date marathon_conv ;;
      Ok (Some (marathon_entry marathon_conv max_turns date_str))
  | None => Ok None
  end.

Definition analyze_marathon_session (self : analyzer) : result analyzer :=
  m <- marathon_session_of (conversations self) ;;
  let r := summary self in
  Ok (set_summary self
    {| summary_stats := summary_stats r;
       brain_activity_heatmap := brain_activity_heatmap r;
       keywords := keywords r;
       deep_dive_index := deep_dive_index r;
       directors_ratio := directors_ratio r;
       linguistic_profile := linguistic_profile r;
       marathon_session := Some m;
       monthly_focus := monthly_focus r;
       politeness_score := politeness_score r;
       persona_badge := persona_badge r |}).

(** *** 8. [analyze_monthly_focus] *)

(** [d[k].append(v)] on a [defaultdict(list)]. *)
Fixpoint dict_append (d : list (pystr * list pystr)) (k v : pystr)
  : list (pystr * list pystr) :=
  match d with
  | [] => [(k, [v])]
  | (k', vs) :: d' =>
      if pystr_eqb k' k then (k', vs ++ [v]) :: d'
      else (k', vs) :: dict_append d' k v
  end.

Definition monthly_step (monthly_texts : list (pystr * list pystr))
  (conv : conversation) : result (list (pystr * list pystr)) :=
  if negb (has_timestamp conv) then Ok monthly_texts
  else
    dt <- fromtimestamp_value (get (create_time conv)) ;;
    Ok (fold_left (fun d text => dict_append d (month_key dt) text)
                  (user_texts conv) monthly_texts).

(** [sorted(d.items())]: the keys are distinct, so the order is that of
    the keys. *)
Fixpoint insert_by_key (x : pystr * list pystr)
  (l : list (pystr * list pystr)) : list (pystr * list pystr) :=
  match l with
  | [] => [x]
  | y :: l' =>
      if pystr_ltb (fst x) (fst y) then x :: y :: l'
      else y :: insert_by_key x l'
  end.

Definition sorted_items (d : list (pystr * list pystr))
  : list (pystr * list pystr) :=
  fold_left (fun acc x => insert_by_key x acc) d [].

Definition id_eqb (a b : option pystr) : bool :=
  match a, b with
  | None, None => true
  | Some x, Some y => pystr_eqb x y
  | _, _ => false
  end.

(** [len(set(ids))]. *)
Fixpoint distinct (ids : list (option pystr)) : list (option pystr) :=
  match ids with
  | [] => []
  | x :: r => if existsb (id_eqb x) r then distinct r else x :: distinct r
  end.

(** The generator inside [set(...)]: the ids of the conversations whose
    [create_time], 0 when the key is missing, formats to [month]. *)
Definition month_ids (convs : list conversation) (m : pystr)
  : result (list (option pystr)) :=
  foldM (fun ids conv =>
           dt <- fromtimestamp_value (get_default (create_time conv) 0) ;;
           Ok (if pystr_eqb (strftime_Ym dt) m
               then ids ++ [get (conversation_id conv)]
               else ids))
        [] convs.

Definition monthly_topic (convs : list conversation)
  (monthly_topics : list Monthly.t) (item : pystr * list pystr)
  : result (list Monthly.t) :=
  let combined := join (py " ") (snd item) in
  let kws := month_keywords combined in
  ids <- month_ids convs (fst item) ;;
  Ok (monthly_topics ++
      [ {| Monthly.month := fst item;
           Monthly.top_keywords := firstn 3 kws;
           Monthly.conversation_count := List.length (distinct ids) |} ]).

Definition monthly_focus_of (convs : list conversation)
  : result (list Monthly.t) :=
  monthly_texts <- foldM monthly_step [] convs ;;
  foldM (monthly_topic convs) [] (sorted_items monthly_texts).

Definition analyze_monthly_focus (self : analyzer) : result analyzer :=
  monthly_topics <- monthly_focus_of (conversations self) ;;
  let r := summary self in
  Ok (set_summary self
    {| summary_stats := summary_stats r;
       brain_activity_heatmap := brain_activity_heatmap r;
       keywords := keywords r;
       deep_dive_index := deep_dive_index r;
       directors_ratio := directors_ratio r;
       linguistic_profile := linguistic_profile r;
       marathon_session := marathon_session r;
       monthly_focus := Some monthly_topics;
       politeness_score := politeness_score r;
       persona_badge := persona_badge r |}).

(** *** 9. [analyze_politeness_score] *)

Record polite_counts : Type := {
  please : nat;
  thank_you : nat;
  help : nat;
  polite_total_messages : nat
}.

Definition add_please (b : bool) (pc : polite_counts) : polite_counts :=
  if b then {| please := please pc + 1; thank_you := thank_you pc;
               help := help pc;
               polite_total_messages := polite_total_messages pc |}
  else pc.

Definition add_thank_you (b : bool) (pc : polite_counts) : polite_counts :=
  if b then {| please := please pc; thank_you := thank_you pc + 1;
               help := help pc;
               polite_total_messages := polite_total_messages pc |}
  else pc.

Definition add_help (b : bool) (pc : polite_counts) : polite_counts :=
  if b then {| please := please pc; thank_you := thank_you pc;
               help := help pc + 1;
               polite_total_messages := polite_total_messages pc |}
  else pc.

(** The body of the loop for one visited message. *)
Definition polite_message (pc : polite_counts) (m : message)
  : polite_counts :=
  if negb (role_is m (py "user")) then pc
  else
    let text := lower (extract_text_from_message m) in
    let pc := {| please := please pc; thank_you := thank_you pc;
                 help := help pc;
                 polite_total_messages := polite_total_messages pc + 1 |} in
    let pc := add_please (contains (py "please") text) pc in
    let pc := add_thank_you (contains (py "thank you") text
                             || contains (py "thanks") text) pc in
    let pc := add_help (contains (py "help") text) pc in
    let pc := add_please (contains (py "请") text) pc in
    let pc := add_thank_you (contains (py "谢谢") text
                             || contains (py "感谢") text) pc in
    add_help (contains (py "帮忙") text || contains (py "帮") text
              || contains (py "救命") text) pc.

(** The two nested loops. *)
Definition polite_counts_of (convs : list conversation) : polite_counts :=
  fold_left (fun pc conv => fold_left polite_message (visited conv) pc)
            convs
            {| please := 0; thank_you := 0; help := 0;
               polite_total_messages := 0 |}.

Definition politeness_score_of (convs : list conversation) : Politeness.t :=
  let pc := polite_counts_of convs in
  let total_polite := (please pc + thank_you pc + help pc)%nat in
  let politeness_percentage :=
    if (0 <? polite_total_messages pc)%nat
    then PyFloat (py_round (true_div total_polite (polite_total_messages pc)
                            * inject_Z 100) 1)
    else PyInt 0 in
  let evaluation :=
    if number_geb politeness_percentage 50 then
      py "你是个温文尔雅的绅士/淑女，对 AI 非常礼貌"
    else if number_geb politeness_percentage 20 then
      py "你比较有礼貌，偶尔会使用礼貌用语"
    else
      py "你是个雷厉风行的实干家，很少使用礼貌用语" in
  {| Politeness.please_count := please pc;
     Politeness.thank_you_count := thank_you pc;
     Politeness.help_count := help pc;
     Politeness.total_polite_usage := total_polite;
     Politeness.total_messages := polite_total_messages pc;
     Politeness.politeness_percentage := politeness_percentage;
     Politeness.evaluation := evaluation |}.

Definition analyze_politeness_score (self : analyzer) : analyzer :=
  let r := summary self in
  set_summary self
    {| summary_stats := summary_stats r;
       brain_activity_heatmap := brain_activity_heatmap r;
       keywords := keywords r;
       deep_dive_index := deep_dive_index r;
       directors_ratio := directors_ratio r;
       linguistic_profile := linguistic_profile r;
       marathon_session := marathon_session r;
       monthly_focus := monthly_focus r;
       politeness_score := Some (politeness_score_of (conversations self));
       persona_badge := persona_badge r |}.

(** *** 10. [analyze_persona_badge] *)

Definition analyze_persona_badge (self : analyzer) : analyzer :=
  let r := summary self in
  let heatmap_data :=
    match brain_activity_heatmap r with
    | Some h => Heatmap.heatmap_data h
    | None => []
    end in
  set_summary self
    {| summary_stats := summary_stats r;
       brain_activity_heatmap := brain_activity_heatmap r;
       keywords := keywords r;
       deep_dive_index := deep_dive_index r;
       directors_ratio := directors_ratio r;
       linguistic_profile := linguistic_profile r;
       marathon_session := marathon_session r;
       monthly_focus := monthly_focus r;
       politeness_score := politeness_score r;
       persona_badge := Some (persona_badge_of heatmap_data) |}.

(** *** The driver *)

(** [ConversationAnalyzer(conversations)]. *)
Definition new_analyzer (convs : list conversation) : analyzer :=
  {| conversations := convs; summary := empty_report |}.

(** [run_all_analyses]: the ten passes in order; an exception of a pass
    is not caught. *)
Definition run_all_analyses (self : analyzer) : result report :=
  self <- analyze_summary_stats self ;;
  self <- analyze_brain_activity_heatmap self ;;
  let self := analyze_keywords self in
  let self := analyze_deep_dive_index self in
  self <- analyze_directors_ratio self ;;
  let self := analyze_linguistic_profile self in
  self <- analyze_marathon_session self ;;
  self <- analyze_monthly_focus self ;;
  let self := analyze_politeness_score self in
  let self := analyze_persona_badge self in
  Ok (summary self).

End Analyzer.

(** ** A host for evaluation

    UTC, unpadded [%Y], Basic Latin folding; [repr] of ints, booleans and
    [None], which is all the archives below hold besides strings. The
    three passes left open report null. *)

#[local] Instance utc_host : Host :=
  {| utcoffset := fun _ => 0;
     utcoffset_bound := fun _ => conj eq_refl eq_refl;
     strftime_Y := decimal;
     strftime_Y_spec := fun _ _ => eq_refl;
     lower := map ascii_lower;
     lower_spec := fun _ _ => eq_refl;
     py_repr := fun v => match v with
                         | JNull => py "None"
                         | JBool true => py "True"
                         | JBool false => py "False"
                         | JInt z => decimal z
                         | _ => []
                         end;
     float_repr := fun _ => [];
     month_keywords := fun _ => [] |}.

#[local] Instance no_other_passes : OtherPasses :=
  {| keywords_of := fun _ => JNull;
     linguistic_profile_of := fun _ => JNull;
     persona_badge_of := fun _ => JNull |}.

(** ** The specification's wording, for comparison with the code *)



(** A conversation of one node, a user message whose content is the
    string [text]. *)
Definition one_user_message (text : pystr) : conversation :=
  {| conversation_id := Absent; title := Absent; create_time := Absent;
     mapping := [(py "n1",
                  {| node_message :=
                       Some {| role := Some (py "user");
                               content := Some (JStr text) |} |})] |}.

(** A conversation "with a non-null timestamp": the key is present and
    not null. *)
Definition timestamp_not_null (c : conversation) : bool :=
  match get (create_time c) with
  | Some _ => true
  | None => false
  end.

(** The [create_time] key is present with the value [null]. *)
Definition timestamp_null (c : conversation) : bool :=
  match create_time c with
  | Null => true
  | _ => false
  end.

(** The timestamp that a time-based pass converts is one [datetime] can
    hold. *)
Definition timestamp_in_range `{Host} (c : conversation) : bool :=
  negb (has_timestamp c)
  || match get (create_time c) with
     | Some t => match fromtimestamp t with
                 | Ok _ => true
                 | Raise _ => false
                 end
     | None => true
     end.

(** The sum of the counts of a list of (key, count) items. *)
Definition total_count {K : Type} (d : list (K * nat)) : nat :=
  py_sum (map snd d).

(** The same conversation with a [create_time] of exactly 0 taken out:
    the key is missing instead. *)
Definition without_zero_timestamp (c : conversation) : conversation :=
  match create_time c with
  | Has 0 =>
      {| conversation_id := conversation_id c; title := title c;
         create_time := Absent; mapping := mapping c |}
  | _ => c
  end.

(** The messages of the archive a pass counts as the user's and as the
    assistant's, and the characters of their texts. *)
Definition user_messages (convs : list conversation) : list message :=
  filter is_user (flat_map visited convs).

Definition assistant_messages (convs : list conversation) : list message :=
  filter (fun m => negb (is_user m) && role_is m (py "assistant"))
         (flat_map visited convs).

Definition characters `{Host} (ms : list message) : nat :=
  py_sum (map (fun m => count_characters (extract_text_from_message m)) ms).

(** Scenario A: one conversation created at [t], a node [n1] with the
    message [m1] and a node [n2] with the message [m2]. *)
Definition two_message_archive (id ttl : field pystr) (t : Z)
  (n1 n2 : pystr) (m1 m2 : message) : list conversation :=
  [ {| conversation_id := id; title := ttl; create_time := Has t;
       mapping := [(n1, {| node_message := Some m1 |});
                   (n2, {| node_message := Some m2 |})] |} ].

(** An archive of two conversations: one created on 2023-11-14 (UTC) with
    a user message, one whose [create_time] is [null]. *)
Definition null_timestamp_archive : list conversation :=
  [ {| conversation_id := Has (py "a"); title := Has (py "first");
       create_time := Has 1700000000;
       mapping := [(py "n1",
                    {| node_message :=
                         Some {| role := Some (py "user");
                                 content :=
                                   Some (JDict [(py "parts",
                                                 JList [JStr (py "hi")])])
                              |} |})] |};
    {| conversation_id := Has (py "b"); title := Has (py "second");
       create_time := Null; mapping := [] |} ].

(** Concrete archives. [text_message r text] is a message of role [r]
    whose content is the one fragment [text]. *)
Definition text_message (r text : pystr) : message :=
  {| role := Some r;
     content := Some (JDict [(py "content_type", JStr (py "text"));
                             (py "parts", JList [JStr text])]) |}.

(** Scenario A, created 2023-11-14T22:13:20Z. *)
Definition scenario_a_archive : list conversation :=
  two_message_archive (Has (py "a")) (Has (py "A")) 1700000000
    (py "n1") (py "n2")
    (text_message (py "user") (py "请帮忙, thanks"))
    (text_message (py "assistant") (py "你好")).

(** One conversation created at the epoch, without messages. *)
Definition epoch_archive : list conversation :=
  [ {| conversation_id := Has (py "e"); title := Absent;
       create_time := Has 0; mapping := [] |} ].

(** A conversation created at [t] with the user texts [texts]. *)
Definition dated (id : field pystr) (t : Z) (texts : list pystr)
  : conversation :=
  {| conversation_id := id; title := Absent; create_time := Has t;
     mapping := map (fun text =>
                       (py "n", {| node_message :=
                                     Some (text_message (py "user") text) |}))
                    texts |}.

(** Pairs of conversations of 2023-11-14 and 2023-11-15, same time of day:
    without user messages; with a user text and no ids; with a user text
    and two ids. *)
Definition silent_pair : list conversation :=
  [dated (Has (py "a")) 1700000000 []; dated (Has (py "b")) 1700086400 []].

Definition anonymous_pair : list conversation :=
  [dated Absent 1700000000 [py "hello"]; dated Absent 1700086400 []].

Definition named_pair : list conversation :=
  [dated (Has (py "a")) 1700000000 [py "hello"];
   dated (Has (py "b")) 1700086400 []].



(** Two analyzers with the same report, the archive of the second being
    that of the first with every zero timestamp taken out; and two
    outcomes of a pass that agree in this sense. *)
Definition same_report (x y : analyzer) : Prop :=
  summary y = summary x
  /\ conversations y = map without_zero_timestamp (conversations x).

Definition same_outcome (a b : result analyzer) : Prop :=
  match a, b with
  | Ok x, Ok y => same_report x y
  | Raise e, Raise e' => e = e'
  | _, _ => False
  end.


Definition b2n (b : bool) : nat := if b then 1%nat else 0%nat.

(** ** Sums of counters *)

(** The counters of the politeness loop before the first message, and the
    sum of two sets of counters. *)
Definition no_polite_counts : polite_counts :=
  {| please := 0; thank_you := 0; help := 0; polite_total_messages := 0 |}.

Definition add_polite_counts (a b : polite_counts) : polite_counts :=
  {| please := please a + please b;
     thank_you := thank_you a + thank_you b;
     help := help a + help b;
     polite_total_messages :=
       polite_total_messages a + polite_total_messages b |}.

(** ** Entries of the engagement-depth ranking *)

(** The entry the engagement-depth pass records for a conversation. *)
Definition conv_turns_of (conv : conversation) : DeepDive.conv_turns :=
  {| DeepDive.conversation_id := get_default (conversation_id conv) [];
     DeepDive.title := get_default (title conv) [];
     DeepDive.turns := user_message_count conv |}.

(** The conversations the pass classifies: those with a user turn. *)
Definition classified (convs : list conversation) : list conversation :=
  filter (fun c => (0 <? user_message_count c)%nat) convs.

(** [a] ranks no lower than [b]. *)
Definition ranks_before (a b : DeepDive.conv_turns) : Prop :=
  (DeepDive.turns b <= DeepDive.turns a)%nat.

(** ** Histograms *)

(** The local times of the conversations that have a timestamp, in archive
    order, when all of them convert. *)
Fixpoint local_times `{Host} (convs : list conversation)
  : result (list datetime) :=
  match convs with
  | [] => Ok []
  | c :: rest =>
      if has_timestamp c then
        dt <- fromtimestamp_value (get (create_time c)) ;;
        dts <- local_times rest ;;
        Ok (dt :: dts)
      else local_times rest
  end.

(** How often the key [k] occurs in [ks]. *)
Definition occurrences {K : Type} (eqb : K -> K -> bool) (k : K)
  (ks : list K) : nat :=
  List.length (filter (fun k' => eqb k' k) ks).

(** The total of the counts filed under keys that [p] selects. *)
Definition marginal {K : Type} (p : K -> bool) (d : list (K * nat)) : nat :=
  py_sum (map snd (filter (fun kn => p (fst kn)) d)).

(** The cell of the heatmap of a local time. *)
Definition cell_of (dt : datetime) : Z * Z := (hour dt, weekday dt).

(** ** Months *)

(** A month that the loop files a text under. *)
Definition month_with_text `{Host} (convs : list conversation) (m : pystr)
  : Prop :=
  exists (c : conversation) (dt : datetime),
    In c convs /\ has_timestamp c = true
    /\ fromtimestamp_value (get (create_time c)) = Ok dt
    /\ month_key dt = m /\ user_texts c <> [].

(** The order of [sorted] on items of distinct keys. *)
Definition by_month (a b : pystr * list pystr) : Prop :=
  pystr_ltb (fst a) (fst b) = true.

(** ** Pass 10 in full: the persona badge

    [analyze_persona_badge] as a function of the heatmap cells it reads.
    Each threshold compares an [int] with the product of an [int] and a
    [float] literal; the product is taken exactly, which decides the
    comparison as the doubles do for an archive of fewer than 2^50
    conversations. *)

Module Badge.
Record t : Type := {
  name : pystr;
  description : pystr
}.
End Badge.

Module Moment.
Record t : Type := {
  hour : Z;
  weekday : pystr;
  count : nat
}.
End Moment.

Module PersonaBadge.
Record t : Type := {
  badges : list Badge.t;
  late_night_count : nat;
  early_morning_count : nat;
  weekend_count : nat;
  memorable_moment : option Moment.t
}.
End PersonaBadge.

(** [x > n * c] for two [int] counters and a [float] literal [c]. *)
Definition gt_share (x n : nat) (c : Q) : bool :=
  negb (Qle_bool (inject_Z (Z.of_nat x)) (inject_Z (Z.of_nat n) * c)).

(** [xs[i]]: a negative index counts from the end; [None] stands for
    [IndexError]. *)
Definition py_index {A : Type} (xs : list A) (i : Z) : option A :=
  let n := Z.of_nat (List.length xs) in
  if (0 <=? i) && (i <? n) then nth_error xs (Z.to_nat i)
  else if (- n <=? i) && (i <? 0) then nth_error xs (Z.to_nat (i + n))
  else None.

(** [1 <= h <= 5], [5 <= h < 8] and [w >= 5] on a cell [(h, w, count)]. *)
Definition is_late_night (cell : Z * Z * nat) : bool :=
  (1 <=? fst (fst cell)) && (fst (fst cell) <=? 5).

Definition is_early_morning (cell : Z * Z * nat) : bool :=
  (5 <=? fst (fst cell)) && (fst (fst cell) <? 8).

Definition is_weekend (cell : Z * Z * nat) : bool :=
  5 <=? snd (fst cell).

Definition late_night_badge (late_night_count : nat) : Badge.t :=
  {| Badge.name := py "深夜哲学家";
     Badge.description :=
       py "你在凌晨 1-5 点有 " ++ decimal (Z.of_nat late_night_count)
         ++ py " 次对话，是个深夜思考者" |}.

Definition early_morning_badge (early_morning_count : nat) : Badge.t :=
  {| Badge.name := py "晨间实干家";
     Badge.description :=
       py "你在清晨 5-8 点有 " ++ decimal (Z.of_nat early_morning_count)
         ++ py " 次对话，是个早起的人" |}.

Definition weekend_badge (weekend_count : nat) : Badge.t :=
  {| Badge.name := py "全勤卷王";
     Badge.description :=
       py "你在周末有 " ++ decimal (Z.of_nat weekend_count)
         ++ py " 次对话，周末也在工作学习" |}.

Definition default_badge : Badge.t :=
  {| Badge.name := py "规律型用户";
     Badge.description := py "你的使用时间比较规律" |}.

(** The list [badges] after the four conditionals. *)
Definition badges_of (late_night_count early_morning_count weekend_count
                      total_count : nat) : list Badge.t :=
  let badges := [] in
  let badges :=
    if gt_share late_night_count total_count 0.2
    then badges ++ [late_night_badge late_night_count] else badges in
  let badges :=
    if gt_share early_morning_count total_count 0.15
    then badges ++ [early_morning_badge early_morning_count] else badges in
  let badges :=
    if gt_share weekend_count total_count 0.3
    then badges ++ [weekend_badge weekend_count] else badges in
  match badges with
  | [] => [default_badge]
  | _ :: _ => badges
  end.

(** [memorable_moment]: the first late-night cell of greatest count, its
    weekday by name; the outer [None] stands for the [IndexError] of the
    weekday lookup. *)
Definition memorable_moment_of (heatmap_data : list (Z * Z * nat))
  : option (option Moment.t) :=
  let late_night_sessions := filter is_late_night heatmap_data in
  match max_item late_night_sessions with
  | Some max_session =>
      match py_index weekday_names (snd (fst max_session)) with
      | Some weekday_name =>
          Some (Some {| Moment.hour := fst (fst max_session);
                        Moment.weekday := weekday_name;
                        Moment.count := snd max_session |})
      | None => None
      end
  | None => Some None
  end.

Definition persona_badge_from_heatmap (heatmap_data : list (Z * Z * nat))
  : option PersonaBadge.t :=
  let late_night_count :=
    py_sum (map snd (filter is_late_night heatmap_data)) in
  let early_morning_count :=
    py_sum (map snd (filter is_early_morning heatmap_data)) in
  let weekend_count := py_sum (map snd (filter is_weekend heatmap_data)) in
  let total_count := py_sum (map snd heatmap_data) in
  let badges :=
    badges_of late_night_count early_morning_count weekend_count
              total_count in
  match memorable_moment_of heatmap_data with
  | Some memorable_moment =>
      Some {| PersonaBadge.badges := badges;
              PersonaBadge.late_night_count := late_night_count;
              PersonaBadge.early_morning_count := early_morning_count;
              PersonaBadge.weekend_count := weekend_count;
              PersonaBadge.memorable_moment := memorable_moment |}
  | None => None
  end.

(** ** Pass 6 in full: the linguistic profile

    [analyze_linguistic_profile] over a language detector that the
    environment may or may not provide. [langdetect] draws at random, so
    its answer is taken per call of a run. The heuristic compares a
    [float] quotient with 0.3; the quotient is taken exactly, which decides
    the comparison as the doubles do for a text of fewer than 2^40
    characters. *)

Class LanguageBackend : Type := {
  (** [LANGDETECT_AVAILABLE]. *)
  langdetect_available : bool;
  (** [detect(text)] at the call number [n] of the run; [None] when it
      raises. *)
  detect : nat -> pystr -> option pystr;
  (** [str.isspace] on one code point. *)
  isspace : Z -> bool
}.

Module LinguisticProfile.
Record t : Type := {
  total_messages_analyzed : nat;
  language_counts : list (pystr * nat);
  language_percentages : list (pystr * number);
  primary_language : pystr;
  language_display : list (pystr * number)
}.
End LinguisticProfile.

(** [d[k] = v] on a dict held as its item list. *)
Fixpoint dict_set {V : Type} (d : list (pystr * V)) (k : pystr) (v : V)
  : list (pystr * V) :=
  match d with
  | [] => [(k, v)]
  | (k', v') :: d' =>
      if pystr_eqb k' k then (k', v) :: d'
      else (k', v') :: dict_set d' k v
  end.

(** A code point of the class [\u4e00-\u9fff] of [re]. *)
Definition is_cjk (c : Z) : bool := (19968 <=? c) && (c <=? 40959).

Section LinguisticProfile.
Context `{Host} `{LanguageBackend}.

Fixpoint lstrip (s : pystr) : pystr :=
  match s with
  | [] => []
  | c :: s' => if isspace c then lstrip s' else s
  end.

(** [text.strip()]. *)
Definition strip (s : pystr) : pystr := rev (lstrip (rev (lstrip s))).

(** The heuristic of both fallback branches. *)
Definition heuristic_language (text : pystr) : pystr :=
  let chinese_chars := List.length (filter is_cjk text) in
  if negb (Qle_bool (true_div chinese_chars (List.length text)) 0.3)
  then py "zh" else py "en".

(** The language one analyzed text is counted under; [calls] detections
    were asked for before. *)
Definition language_of (calls : nat) (text : pystr) : pystr :=
  if langdetect_available then
    match detect calls text with
    | Some lang => lang
    | None => heuristic_language text
    end
  else heuristic_language text.

(** The body of the loop for one visited message, on
    [(language_counts, total_messages)]. *)
Definition profile_message (st : list (pystr * nat) * nat) (m : message)
  : list (pystr * nat) * nat :=
  if negb (role_is m (py "user")) then st
  else
    let text := extract_text_from_message m in
    if pystr_eqb text [] || (List.length (strip text) <? 5)%nat then st
    else
      let total_messages := (snd st + 1)%nat in
      (counter_add pystr_eqb (fst st) (language_of (snd st) text) 1,
       total_messages).

(** [language_names.get(k, k)]. *)
Definition language_name (k : pystr) : pystr :=
  if pystr_eqb k (py "zh") then py "中文"
  else if pystr_eqb k (py "en") then py "英文"
  else k.

Definition linguistic_profile_from (convs : list conversation)
  : LinguisticProfile.t :=
  let st :=
    fold_left (fun st conv => fold_left profile_message (visited conv) st)
              convs ([], O) in
  let language_counts := fst st in
  let total_messages := snd st in
  let language_percentages :=
    map (fun item : pystr * nat =>
           (fst item,
            if (0 <? total_messages)%nat
            then PyFloat (py_round (true_div (snd item) total_messages
                                    * inject_Z 100) 1)
            else PyInt 0))
        language_counts in
  {| LinguisticProfile.total_messages_analyzed := total_messages;
     LinguisticProfile.language_counts := language_counts;
     LinguisticProfile.language_percentages := language_percentages;
     LinguisticProfile.primary_language :=
       match max_item language_counts with
       | Some item => fst item
       | None => py "unknown"
       end;
     LinguisticProfile.language_display :=
       fold_left (fun d item => dict_set d (language_name (fst item))
                                         (snd item))
                 language_percentages [] |}.

(** The messages the pass analyzes: user messages whose text is not empty
    and keeps five characters or more when stripped. *)
Definition analyzed (m : message) : bool :=
  is_user m
  && negb (pystr_eqb (extract_text_from_message m) []
           || (List.length (strip (extract_text_from_message m)) <? 5)%nat).

Definition analyzed_texts (convs : list conversation) : list pystr :=
  map extract_text_from_message (filter analyzed (flat_map visited convs)).

(** More than three tenths of the characters are CJK ideographs. *)
Definition mostly_cjk (text : pystr) : bool :=
  (3 * List.length text <? 10 * List.length (filter is_cjk text))%nat.

End LinguisticProfile.

(** No detector; the whitespace of Basic Latin. *)
#[local] Instance no_langdetect : LanguageBackend :=
  {| langdetect_available := false;
     detect := fun _ _ => None;
     isspace := fun c => (c =? 32) || ((9 <=? c) && (c <=? 13)) |}.

(** ** Pass 3 in full: the keywords

    [analyze_keywords] over the segmenters that the environment may or may
    not provide. *)

(** A code point of the class [a-zA-Z] of [re]. *)
Definition is_ascii_letter (c : Z) : bool :=
  ((97 <=? c) && (c <=? 122)) || ((65 <=? c) && (c <=? 90)).

Class KeywordBackend : Type := {
  (** [JIEBA_AVAILABLE]. *)
  jieba_available : bool;
  (** [jieba.analyse.extract_tags(text, topK=30, withWeight=True)], each
      weight taken through [int(weight * 1000)] by the interpreter. *)
  extract_tags : pystr -> list (pystr * Z);
  (** [NLTK_AVAILABLE]. *)
  nltk_available : bool;
  (** [word_tokenize(text)]; [None] when it raises. *)
  word_tokenize : pystr -> option (list pystr);
  (** [stopwords.words('english')]; [None] when it raises. *)
  stop_words : option (list pystr);
  (** [str.isalpha]. *)
  isalpha : pystr -> bool;
  (** A word character of [re] on a [str]: what [\w] matches. *)
  isword : Z -> bool;
  isword_letter : forall c, is_ascii_letter c = true -> isword c = true
}.

Module Keyword.
Record t : Type := {
  word : pystr;
  frequency : Z;
  language : pystr
}.
End Keyword.

Module Keywords.
Record t : Type := {
  top_keywords : list Keyword.t;
  total_unique_keywords : nat
}.
End Keywords.

(** [sorted(xs, key=key, reverse=True)] and [xs.sort(key=key,
    reverse=True)]: stable. *)
Fixpoint insert_desc {A : Type} (key : A -> Z) (x : A) (l : list A)
  : list A :=
  match l with
  | [] => [x]
  | y :: l' =>
      if key y <? key x then x :: y :: l' else y :: insert_desc key x l'
  end.

Definition sorted_desc {A : Type} (key : A -> Z) (l : list A) : list A :=
  fold_left (fun acc x => insert_desc key x acc) l [].

(** [Counter(xs)], as its item list in insertion order. *)
Definition Counter (xs : list pystr) : list (pystr * nat) :=
  fold_left (fun d x => counter_add pystr_eqb d x 1) xs [].

(** [c.most_common(n)]: the first [n] items by decreasing count, items of
    equal count in insertion order. *)
Definition most_common (n : nat) (c : list (pystr * nat))
  : list (pystr * nat) :=
  firstn n (sorted_desc (fun item => Z.of_nat (snd item)) c).

(** [len(set(ws))]. *)
Fixpoint distinct_words (ws : list pystr) : list pystr :=
  match ws with
  | [] => []
  | w :: r =>
      if existsb (pystr_eqb w) r then distinct_words r
      else w :: distinct_words r
  end.

(** The match that ends where the scan stands, if it is long enough. *)
Definition cjk_word_of (cur : pystr) : list pystr :=
  if (2 <=? List.length cur)%nat then [cur] else [].

(** [re.findall(r'[\u4e00-\u9fff]{2,4}', s)], left to right: [cur] is the
    run of ideographs read since the last match or gap; a run is cut at
    four, and a rest of one ideograph is no match. *)
Fixpoint cjk_words (cur s : pystr) : list pystr :=
  match s with
  | [] => cjk_word_of cur
  | c :: s' =>
      if is_cjk c then
        if (List.length (cur ++ [c]) =? 4)%nat
        then (cur ++ [c]) :: cjk_words [] s'
        else cjk_words (cur ++ [c]) s'
      else cjk_word_of cur ++ cjk_words [] s'
  end.

Section Keywords.
Context `{Host} `{KeywordBackend}.

(** The maximal runs of word characters of [s], left to right. *)
Fixpoint word_runs (cur s : pystr) : list pystr :=
  match s with
  | [] => match cur with [] => [] | _ :: _ => [cur] end
  | c :: s' =>
      if isword c then word_runs (cur ++ [c]) s'
      else match cur with [] => [] | _ :: _ => [cur] end ++ word_runs [] s'
  end.

(** [re.findall(r'\b[a-zA-Z]{3,}\b', s)]: a match starts and ends at a
    word boundary, so it is a whole run of word characters, made of three
    or more Basic Latin letters. *)
Definition latin_words (s : pystr) : list pystr :=
  filter (fun run => forallb is_ascii_letter run
                     && (3 <=? List.length run)%nat)
         (word_runs [] s).

Definition keyword_of (lang : pystr) (item : pystr * nat) : Keyword.t :=
  {| Keyword.word := fst item;
     Keyword.frequency := Z.of_nat (snd item);
     Keyword.language := lang |}.

(** The keywords of the segmenter for Chinese. *)
Definition jieba_keywords (combined_text : pystr) : list Keyword.t :=
  map (fun tag : pystr * Z =>
         {| Keyword.word := fst tag;
            Keyword.frequency := snd tag;
            Keyword.language := py "zh" |})
      (filter (fun tag : pystr * Z => (1 <? List.length (fst tag))%nat)
              (extract_tags combined_text)).

(** The keywords of the tokenizer for English; none when it raises. *)
Definition nltk_keywords (combined_text : pystr) : list Keyword.t :=
  match word_tokenize (lower combined_text), stop_words with
  | Some tokens, Some stop =>
      let filtered_tokens :=
        filter (fun t => isalpha t && (2 <? List.length t)%nat
                         && negb (existsb (pystr_eqb t) stop))
               tokens in
      map (keyword_of (py "en")) (most_common 20 (Counter filtered_tokens))
  | _, _ => []
  end.

(** The keywords of the two patterns. *)
Definition regex_keywords (combined_text : pystr) : list Keyword.t :=
  map (keyword_of (py "zh"))
      (most_common 20 (Counter (cjk_words [] combined_text)))
  ++ map (keyword_of (py "en"))
         (most_common 20 (Counter (latin_words (lower combined_text)))).

(** The list [keywords] before it is sorted. *)
Definition keyword_candidates (all_text : list pystr) : list Keyword.t :=
  let combined_text := join (py " ") all_text in
  let keywords := [] in
  let keywords :=
    if jieba_available then keywords ++ jieba_keywords combined_text
    else keywords in
  let keywords :=
    if nltk_available then keywords ++ nltk_keywords combined_text
    else keywords in
  match keywords with
  | [] => regex_keywords combined_text
  | _ :: _ => keywords
  end.

Definition keywords_from (all_text : list pystr) : Keywords.t :=
  let keywords :=
    sorted_desc Keyword.frequency (keyword_candidates all_text) in
  {| Keywords.top_keywords := firstn 30 keywords;
     Keywords.total_unique_keywords :=
       List.length (distinct_words (map Keyword.word keywords)) |}.

End Keywords.

(** No segmenter; the word characters of Basic Latin and the ideographs. *)
#[local] Instance no_segmenter : KeywordBackend :=
  {| jieba_available := false;
     extract_tags := fun _ => [];
     nltk_available := false;
     word_tokenize := fun _ => None;
     stop_words := None;
     isalpha := fun _ => false;
     isword := fun c => is_ascii_letter c || ((48 <=? c) && (c <=? 57))
                        || (c =? 95) || is_cjk c;
     isword_letter := fun c Hc =>
       eq_trans (f_equal (fun b => b || ((48 <=? c) && (c <=? 57))
                                    || (c =? 95) || is_cjk c) Hc)
                eq_refl |}.

(** * Properties *)

(** ** Text extraction *)


(** ** Engagement depth *)

Lemma deep_dive_turn_counts (convs : list conversation) :
  forall acc,
    fst (fold_left deep_dive_step convs acc)
    = fst acc ++ filter (fun t => (0 <? t)%nat) (map user_message_count convs).
Proof.
  induction convs as [|c convs IH]; intros acc; cbn [fold_left map filter].
  - now rewrite app_nil_r.
  - rewrite IH. unfold deep_dive_step.
    destruct (0 <? user_message_count c)%nat; cbn [fst].
    + now rewrite <- app_assoc.
    + reflexivity.
Qed.





(** ** Input/output ratio *)

Lemma number_geb_spec (x : number) (k : Z) :
  number_geb x k = true <-> (inject_Z k <= number_value x)%Q.
Proof. unfold number_geb. apply Qle_bool_iff. Qed.

Lemma number_geb_false (x : number) (k : Z) :
  number_geb x k = false -> (number_value x < inject_Z k)%Q.
Proof.
  intros E. apply Qnot_le_lt. intros Hle.
  apply number_geb_spec in Hle. congruence.
Qed.




(** ** Politeness *)

Lemma basic_or_cjk_dec (s : pystr) :
  forallb (fun c => ((0 <=? c) && (c <? 128))
                    || ((19968 <=? c) && (c <=? 40959))) s = true ->
  Forall basic_or_cjk s.
Proof.
  intros Hs. apply Forall_forall. intros c Hc.
  rewrite forallb_forall in Hs. specialize (Hs c Hc).
  unfold basic_or_cjk. lia.
Qed.

(** On Basic Latin and CJK text without capitals [str.lower] changes
    nothing. *)
Lemma lower_fixed `{Host} (s : pystr) :
  forallb (fun c => ((0 <=? c) && (c <? 65)) || ((91 <=? c) && (c <? 128))
                    || ((19968 <=? c) && (c <=? 40959))) s = true ->
  lower s = s.
Proof.
  intros Hs. rewrite lower_spec.
  - induction s as [|c s IH]; [reflexivity|].
    cbn [forallb] in Hs. apply andb_prop in Hs as [Hc Hs].
    cbn [map]. rewrite (IH Hs). f_equal. unfold ascii_lower.
    destruct (Z.leb_spec 65 c), (Z.leb_spec c 90); cbn [andb]; lia.
  - apply basic_or_cjk_dec. rewrite forallb_forall in *.
    intros c Hc. specialize (Hs c Hc). lia.
Qed.

(** One user message: the message counter grows by one, and each of the
    six checks adds one to its category. *)
Lemma polite_message_user `{Host} (pc : polite_counts) (m : message) :
  role_is m (py "user") = true ->
  let text := lower (extract_text_from_message m) in
  let pc' := polite_message pc m in
  (please pc'
   = please pc + b2n (contains (py "please") text)
     + b2n (contains (py "请") text))%nat
  /\ (thank_you pc'
      = thank_you pc
        + b2n (contains (py "thank you") text || contains (py "thanks") text)
        + b2n (contains (py "谢谢") text || contains (py "感谢") text))%nat
  /\ (help pc'
      = help pc + b2n (contains (py "help") text)
        + b2n (contains (py "帮忙") text || contains (py "帮") text
               || contains (py "救命") text))%nat
  /\ polite_total_messages pc' = (polite_total_messages pc + 1)%nat.
Proof.
  intros Hu text pc'. subst pc'. unfold polite_message.
  rewrite Hu. cbn [negb]. fold text.
  destruct (contains (py "please") text), (contains (py "请") text),
    (contains (py "thank you") text || contains (py "thanks") text),
    (contains (py "谢谢") text || contains (py "感谢") text),
    (contains (py "help") text),
    (contains (py "帮忙") text || contains (py "帮") text
     || contains (py "救命") text);
    cbn [add_please add_thank_you add_help please thank_you help
         polite_total_messages b2n];
    repeat split; lia.
Qed.

(** C9. For a user message the six keyword checks are independent: each
    category's counter grows by one for its English check and by one more
    for its Chinese check, so a text holding both "please" and its Chinese
    counterpart adds 2 to the please counter. On the archive of the single
    user message "please 请", the polite usage (2) exceeds the message
    count (1) and the percentage (200.0) exceeds 100. *)
Theorem politeness_checks_are_independent `{Host} :
  forall (pc : polite_counts) (m : message),
    role_is m (py "user") = true ->
    let text := lower (extract_text_from_message m) in
    let pc' := polite_message pc m in
    (please pc'
     = please pc + b2n (contains (py "please") text)
       + b2n (contains (py "请") text))%nat
    /\ (thank_you pc'
        = thank_you pc
          + b2n (contains (py "thank you") text || contains (py "thanks") text)
          + b2n (contains (py "谢谢") text || contains (py "感谢") text))%nat
    /\ (help pc'
        = help pc + b2n (contains (py "help") text)
          + b2n (contains (py "帮忙") text || contains (py "帮") text
                 || contains (py "救命") text))%nat
    /\ polite_total_messages pc' = (polite_total_messages pc + 1)%nat
    /\ (contains (py "please") text = true ->
        contains (py "请") text = true ->
        please pc' = (please pc + 2)%nat)
    /\ let r := politeness_score_of [one_user_message (py "please 请")] in
       Politeness.please_count r = 2%nat
       /\ (Politeness.total_messages r < Politeness.total_polite_usage r)%nat
       /\ (100 < number_value (Politeness.politeness_percentage r))%Q.
Proof.
  intros pc m Hu text pc'.
  destruct (polite_message_user pc m Hu) as (Hp & Ht & Hh & Hn).
  fold text pc' in Hp, Ht, Hh, Hn.
  repeat (split; [assumption|]).
  split.
  - intros He Hz. rewrite Hp, He, Hz. cbn [b2n]. lia.
  - clear pc m Hu text pc' Hp Ht Hh Hn.
    set (m := {| role := Some (py "user");
                 content := Some (JStr (py "please 请")) |}).
    assert (Hm : role_is m (py "user") = true) by (vm_compute; reflexivity).
    destruct (polite_message_user
                {| please := 0; thank_you := 0; help := 0;
                   polite_total_messages := 0 |} m Hm)
      as (Hp & Ht & Hh & Hn).
    change (extract_text_from_message m) with (py "please 请") in Hp, Ht, Hh.
    rewrite lower_fixed in Hp, Ht, Hh by (vm_compute; reflexivity).
    unfold politeness_score_of.
    change (polite_counts_of [one_user_message (py "please 请")])
      with (polite_message {| please := 0; thank_you := 0; help := 0;
                              polite_total_messages := 0 |} m).
    cbv zeta.
    cbn [Politeness.please_count Politeness.total_messages
         Politeness.total_polite_usage Politeness.politeness_percentage].
    rewrite Hp, Ht, Hh, Hn. vm_compute. repeat split. constructor.
Qed.

(** ** Activity heatmap *)

Lemma py_sum_cons (x : nat) (l : list nat) :
  py_sum (x :: l) = (x + py_sum l)%nat.
Proof.
  unfold py_sum. cbn [fold_left].
  assert (Hacc : forall l a, fold_left Nat.add l a
                             = (a + fold_left Nat.add l O)%nat).
  { clear. induction l as [|y l IH]; intros a; cbn [fold_left]; [lia|].
    rewrite (IH (a + y)%nat), (IH (0 + y)%nat). lia. }
  rewrite Hacc. reflexivity.
Qed.

Lemma total_count_cons {K : Type} (k : K) (n : nat) (d : list (K * nat)) :
  total_count ((k, n) :: d) = (n + total_count d)%nat.
Proof. unfold total_count. cbn [map snd]. apply py_sum_cons. Qed.

Lemma counter_add_total {K : Type} (eqb : K -> K -> bool)
  (d : list (K * nat)) (k : K) (n : nat) :
  total_count (counter_add eqb d k n) = (total_count d + n)%nat.
Proof.
  induction d as [|[k' v] d IH]; cbn [counter_add].
  - rewrite total_count_cons. unfold total_count, py_sum. cbn. lia.
  - destruct (eqb k' k); rewrite !total_count_cons; [lia|].
    rewrite IH. lia.
Qed.

(** Regrouping the cells under another key keeps the total. *)
Lemma regroup_total {K K' : Type} (eqb : K' -> K' -> bool) (key : K -> K')
  (cells : list (K * nat)) :
  forall d0,
    total_count (fold_left (fun d cell => counter_add eqb d (key (fst cell))
                                                      (snd cell)) cells d0)
    = (total_count d0 + total_count cells)%nat.
Proof.
  induction cells as [|[k n] cells IH]; intros d0; cbn [fold_left].
  - unfold total_count at 3. cbn. lia.
  - rewrite IH, counter_add_total, total_count_cons. cbn [fst snd]. lia.
Qed.

Lemma counter_get_add (d : list (Z * nat)) (k k' : Z) (n : nat) :
  counter_get Z.eqb (counter_add Z.eqb d k n) k'
  = (counter_get Z.eqb d k' + (if Z.eqb k k' then n else 0))%nat.
Proof.
  induction d as [|[j v] d IH]; cbn [counter_add counter_get].
  - destruct (Z.eqb_spec k k'); lia.
  - destruct (Z.eqb_spec j k) as [->|Hjk]; cbn [counter_get].
    + destruct (Z.eqb_spec k k'); lia.
    + destruct (Z.eqb_spec j k') as [->|Hjk'].
      * destruct (Z.eqb_spec k k'); [congruence | lia].
      * exact IH.
Qed.

(** The seven weekday slots of a counter. *)
Lemma week_slots_add (d : list (Z * nat)) (k : Z) (n : nat) :
  0 <= k < 7 ->
  py_sum (map (fun i => counter_get Z.eqb (counter_add Z.eqb d k n)
                                     (Z.of_nat i)) (seq 0 7))
  = (py_sum (map (fun i => counter_get Z.eqb d (Z.of_nat i)) (seq 0 7))
     + n)%nat.
Proof.
  intros Hk. cbn [seq map]. rewrite !py_sum_cons, !counter_get_add.
  assert (Hc : k = 0 \/ k = 1 \/ k = 2 \/ k = 3 \/ k = 4 \/ k = 5 \/ k = 6)
    by lia.
  unfold py_sum. cbn [fold_left].
  destruct Hc as [->|[->|[->|[->|[->|[->| ->]]]]]]; cbn; lia.
Qed.

Lemma week_slots_regroup (cells : list (Z * Z * nat)) :
  Forall (fun cell => 0 <= snd (fst cell) < 7) cells ->
  forall d0,
    py_sum (map (fun i =>
                   counter_get Z.eqb
                     (fold_left (fun d cell =>
                                   counter_add Z.eqb d (snd (fst cell))
                                               (snd cell)) cells d0)
                     (Z.of_nat i)) (seq 0 7))
    = (py_sum (map (fun i => counter_get Z.eqb d0 (Z.of_nat i)) (seq 0 7))
       + total_count cells)%nat.
Proof.
  induction 1 as [|[[h w] n] cells Hw _ IH]; intros d0; cbn [fold_left].
  - unfold total_count, py_sum. cbn. lia.
  - rewrite IH, week_slots_add by exact Hw.
    rewrite total_count_cons. cbn [fst snd]. lia.
Qed.

Lemma weekday_range (dt : datetime) : 0 <= weekday dt < 7.
Proof. unfold weekday. apply Z.mod_pos_bound. lia. Qed.

(** The loop of the heatmap pass: one more count per visited timestamp,
    every weekday key within the week. *)
Lemma heatmap_loop `{Host} (convs : list conversation) :
  forallb timestamp_in_range convs = true ->
  forall data,
    Forall (fun cell => 0 <= snd (fst cell) < 7) data ->
    exists data',
      foldM heatmap_step data convs = Ok data'
      /\ total_count data'
         = (total_count data + List.length (filter has_timestamp convs))%nat
      /\ Forall (fun cell => 0 <= snd (fst cell) < 7) data'.
Proof.
  induction convs as [|c convs IH]; intros Hr data Hd; cbn [foldM].
  - exists data. cbn. repeat split; [lia | exact Hd].
  - cbn [forallb] in Hr. apply andb_prop in Hr as [Hc Hr].
    unfold heatmap_step at 1. unfold timestamp_in_range in Hc.
    cbn [filter]. destruct (has_timestamp c) eqn:Ets; cbn [negb] in *.
    + unfold has_timestamp in Ets.
      destruct (get (create_time c)) as [t|]; [|discriminate].
      cbn [fromtimestamp_value orb] in *.
      destruct (fromtimestamp t) as [dt|]; [|discriminate].
      cbn [bind].
      destruct (IH Hr (counter_add cell_eqb data (hour dt, weekday dt) 1))
        as (data' & Hf & Ht & Hw).
      { clear - Hd. induction Hd as [|[[h w] n] data Hx Hd IHd];
          cbn [counter_add].
        - constructor; [|constructor]. cbn. apply weekday_range.
        - destruct (cell_eqb (h, w) (hour dt, weekday dt));
            constructor; assumption. }
      exists data'. rewrite counter_add_total in Ht.
      repeat split; [exact Hf | cbn [List.length]; lia | exact Hw].
    + cbn [bind]. apply IH; assumption.
Qed.

(** C4, as the code has it. When every timestamp the pass converts fits a
    [datetime], the pass returns, and the counts of the sparse cells, of
    the per-hour distribution and of the seven weekday slots each add up
    to the number of conversations whose timestamp is truthy: present,
    not null and not 0. *)
Theorem heatmap_conserves_counts `{Host} :
  forall convs : list conversation,
    forallb timestamp_in_range convs = true ->
    exists h : Heatmap.t,
      brain_activity_heatmap_of convs = Ok h
      /\ total_count (Heatmap.heatmap_data h)
         = List.length (filter has_timestamp convs)
      /\ total_count (Heatmap.hour_distribution h)
         = List.length (filter has_timestamp convs)
      /\ total_count (Heatmap.weekday_distribution h)
         = List.length (filter has_timestamp convs).
Proof.
  intros convs Hr.
  destruct (heatmap_loop convs Hr [] (Forall_nil _)) as (data & Hf & Ht & Hw).
  unfold brain_activity_heatmap_of. rewrite Hf. cbn [bind].
  eexists. split; [reflexivity|].
  cbn [Heatmap.heatmap_data Heatmap.hour_distribution
       Heatmap.weekday_distribution].
  change (total_count (@nil (Z * Z * nat))) with O in Ht. cbn [Nat.add] in Ht.
  split; [exact Ht|]. split.
  - rewrite (regroup_total Z.eqb (fun k : Z * Z => fst k)). rewrite Ht.
    reflexivity.
  - unfold total_count at 1. rewrite map_map. cbn [snd].
    rewrite (week_slots_regroup data Hw []). rewrite Ht.
    reflexivity.
Qed.

(** ** Marathon session *)

(** What the loop of the marathon pass holds after a prefix of the
    archive: nothing while no conversation had a user turn, else the first
    conversation of greatest count. *)
Lemma marathon_loop (convs : list conversation) :
  let st := fold_left marathon_step convs (O, None) in
  (snd st = None /\ fst st = O
   /\ Forall (fun c => user_message_count c = O) convs)
  \/ exists (i : nat) (c : conversation),
       nth_error convs i = Some c
       /\ snd st = Some c /\ fst st = user_message_count c
       /\ (0 < user_message_count c)%nat
       /\ Forall (fun c' => (user_message_count c' < user_message_count c)%nat)
                 (firstn i convs)
       /\ Forall (fun c' => (user_message_count c' <= user_message_count c)%nat)
                 convs.
Proof.
  induction convs as [|x l IH] using rev_ind; cbn zeta.
  - left. cbn. repeat split. constructor.
  - rewrite fold_left_app. cbn [fold_left]. cbn zeta in IH.
    set (st := fold_left marathon_step l (O, None)) in *.
    unfold marathon_step.
    destruct IH as [(Hn & H0 & Hall) | (i & c & Hi & Hs & Hm & Hpos & Hbefore & Hle)].
    + rewrite H0.
      destruct (Nat.ltb_spec 0 (user_message_count x)) as [Hx|Hx].
      * right. exists (List.length l), x. cbn [fst snd].
        rewrite nth_error_app2, Nat.sub_diag by lia.
        rewrite firstn_app, firstn_all, Nat.sub_diag, app_nil_r.
        repeat split; try assumption.
        -- eapply Forall_impl; [|exact Hall]. cbn. intros c' Hc'. lia.
        -- apply Forall_app. split; [|repeat constructor].
           eapply Forall_impl; [|exact Hall]. cbn. intros c' Hc'. lia.
      * left. repeat split; try assumption.
        apply Forall_app. split; [exact Hall|]. repeat constructor. lia.
    + rewrite Hm.
      assert (Hlen : (i < List.length l)%nat)
        by (apply nth_error_Some; congruence).
      destruct (Nat.ltb_spec (user_message_count c) (user_message_count x))
        as [Hx|Hx].
      * right. exists (List.length l), x. cbn [fst snd].
        rewrite nth_error_app2, Nat.sub_diag by lia.
        rewrite firstn_app, firstn_all, Nat.sub_diag, app_nil_r.
        repeat split; try lia.
        -- eapply Forall_impl; [|exact Hle]. cbn. intros c' Hc'. lia.
        -- apply Forall_app. split; [|repeat constructor].
           eapply Forall_impl; [|exact Hle]. cbn. intros c' Hc'. lia.
      * right. exists i, c.
        rewrite nth_error_app1 by exact Hlen.
        rewrite firstn_app.
        replace (i - List.length l)%nat with O by lia.
        cbn [firstn]. rewrite app_nil_r.
        repeat split; try assumption.
        apply Forall_app. split; [exact Hle|]. repeat constructor. exact Hx.
Qed.

Lemma list_max_attained (l : list nat) (n : nat) :
  In n l -> Forall (fun k => (k <= n)%nat) l -> list_max l = n.
Proof.
  intros Hin Hle. apply Nat.le_antisymm.
  - apply list_max_le. exact Hle.
  - pose proof (proj1 (list_max_le l (list_max l)) (Nat.le_refl _)) as Hall.
    rewrite Forall_forall in Hall. apply Hall. exact Hin.
Qed.


(** ** The epoch as a timestamp *)

Section ZeroTimestamp.
Context `{Host} `{OtherPasses}.

Abbreviation norm := without_zero_timestamp.

Lemma norm_cases (c : conversation) :
  norm c = c
  \/ (create_time c = Has 0
      /\ norm c = {| conversation_id := conversation_id c; title := title c;
                     create_time := Absent; mapping := mapping c |}).
Proof.
  unfold without_zero_timestamp.
  destruct (create_time c) as [ | | [ | p | p]] eqn:E; auto.
Qed.

Ltac norm_case c :=
  let E := fresh "E" in
  let Hn := fresh "Hn" in
  destruct (norm_cases c) as [Hn | [E Hn]]; rewrite Hn;
  [ reflexivity | ].

Lemma norm_visited (c : conversation) : visited (norm c) = visited c.
Proof. norm_case c. reflexivity. Qed.

Lemma norm_user_message_count (c : conversation) :
  user_message_count (norm c) = user_message_count c.
Proof. unfold user_message_count. now rewrite norm_visited. Qed.

Lemma norm_user_texts (c : conversation) :
  user_texts (norm c) = user_texts c.
Proof. unfold user_texts. now rewrite norm_visited. Qed.

Lemma norm_has_timestamp (c : conversation) :
  has_timestamp (norm c) = has_timestamp c.
Proof. norm_case c. unfold has_timestamp. cbn. now rewrite E. Qed.

Lemma norm_conversation_id (c : conversation) :
  conversation_id (norm c) = conversation_id c.
Proof. norm_case c. reflexivity. Qed.

Lemma norm_title (c : conversation) : title (norm c) = title c.
Proof. norm_case c. reflexivity. Qed.

Lemma norm_create_time_default (c : conversation) :
  get_default (create_time (norm c)) 0 = get_default (create_time c) 0.
Proof. norm_case c. cbn. now rewrite E. Qed.

(** Where the timestamp is read after the truthiness test. *)
Lemma norm_guarded {A : Type} (c : conversation)
  (k : option Z -> result A) (otherwise : result A) :
  (if has_timestamp (norm c) then k (get (create_time (norm c)))
   else otherwise)
  = (if has_timestamp c then k (get (create_time c)) else otherwise).
Proof. norm_case c. unfold has_timestamp. cbn. now rewrite E. Qed.

Lemma foldM_norm {S : Type} (f : S -> conversation -> result S) :
  (forall s c, f s (norm c) = f s c) ->
  forall l s, foldM f s (map norm l) = foldM f s l.
Proof.
  intros Hf. induction l as [|c l IH]; intros s; cbn [map foldM];
    [reflexivity|].
  rewrite Hf. destruct (f s c); cbn [bind]; [apply IH | reflexivity].
Qed.

Lemma fold_left_norm {S : Type} (f : S -> conversation -> S) :
  (forall s c, f s (norm c) = f s c) ->
  forall l s, fold_left f (map norm l) s = fold_left f l s.
Proof.
  intros Hf. induction l as [|c l IH]; intros s; cbn [map fold_left];
    [reflexivity|].
  rewrite Hf. apply IH.
Qed.

Lemma flat_map_norm {B : Type} (f : conversation -> list B) :
  (forall c, f (norm c) = f c) ->
  forall l, flat_map f (map norm l) = flat_map f l.
Proof.
  intros Hf. induction l as [|c l IH]; cbn [map flat_map]; [reflexivity|].
  now rewrite Hf, IH.
Qed.

Lemma norm_summary_stats (convs : list conversation) :
  summary_stats_of (map norm convs) = summary_stats_of convs.
Proof.
  unfold summary_stats_of. rewrite length_map.
  rewrite foldM_norm; [reflexivity|].
  intros st c. unfold stats_conversation, stats_time.
  rewrite norm_visited.
  rewrite (norm_guarded c
             (fun v => dt <- fromtimestamp_value v ;; Ok _) (Ok st)).
  reflexivity.
Qed.

Lemma norm_heatmap (convs : list conversation) :
  brain_activity_heatmap_of (map norm convs) = brain_activity_heatmap_of convs.
Proof.
  unfold brain_activity_heatmap_of.
  rewrite foldM_norm; [reflexivity|].
  intros data c. unfold heatmap_step.
  pose proof (norm_guarded c
                (fun v => dt <- fromtimestamp_value v ;;
                          Ok (counter_add cell_eqb data (hour dt, weekday dt) 1))
                (Ok data)) as Hg.
  destruct (has_timestamp (norm c)), (has_timestamp c); cbn [negb];
    congruence.
Qed.

Lemma norm_deep_dive (convs : list conversation) :
  deep_dive_index_of (map norm convs) = deep_dive_index_of convs.
Proof.
  unfold deep_dive_index_of.
  rewrite fold_left_norm; [reflexivity|].
  intros acc c. unfold deep_dive_step.
  now rewrite norm_user_message_count, norm_conversation_id, norm_title.
Qed.

Lemma norm_marathon_date (c : conversation) :
  marathon_date (norm c) = marathon_date c.
Proof.
  unfold marathon_date.
  apply (norm_guarded c (fun v => dt <- fromtimestamp_value v ;;
                                  Ok (strftime_Ymd dt))).
Qed.

Lemma norm_marathon_loop (convs : list conversation) :
  forall (n : nat) (oc : option conversation),
    fold_left marathon_step (map norm convs) (n, option_map norm oc)
    = (fst (fold_left marathon_step convs (n, oc)),
       option_map norm (snd (fold_left marathon_step convs (n, oc)))).
Proof.
  induction convs as [|c l IH]; intros n oc; cbn [map fold_left];
    [reflexivity|].
  unfold marathon_step at 2 4 6. unfold marathon_step at 1. cbn [fst snd].
  rewrite norm_user_message_count.
  destruct (n <? user_message_count c)%nat.
  - apply (IH _ (Some c)).
  - apply IH.
Qed.

Lemma norm_marathon (convs : list conversation) :
  marathon_session_of (map norm convs) = marathon_session_of convs.
Proof.
  unfold marathon_session_of.
  pose proof (norm_marathon_loop convs O None) as Hl.
  cbn [option_map] in Hl. rewrite Hl. cbn [fst snd].
  destruct (snd (fold_left marathon_step convs (O, None))) as [c|];
    cbn [option_map]; [|reflexivity].
  rewrite norm_marathon_date. unfold marathon_entry.
  now rewrite norm_title, norm_conversation_id.
Qed.

Lemma norm_month_ids (convs : list conversation) (m : pystr) :
  month_ids (map norm convs) m = month_ids convs m.
Proof.
  unfold month_ids. apply foldM_norm. intros ids c.
  now rewrite norm_create_time_default, norm_conversation_id.
Qed.

Lemma norm_monthly_focus (convs : list conversation) :
  monthly_focus_of (map norm convs) = monthly_focus_of convs.
Proof.
  unfold monthly_focus_of.
  rewrite foldM_norm.
  - destruct (foldM monthly_step [] convs) as [mt|]; cbn [bind];
      [|reflexivity].
    generalize (@nil Monthly.t).
    induction (sorted_items mt) as [|item items IH]; intros acc;
      cbn [foldM]; [reflexivity|].
    unfold monthly_topic at 1 3. rewrite norm_month_ids.
    destruct (month_ids convs (fst item)); cbn [bind]; [apply IH|reflexivity].
  - intros mt c. unfold monthly_step. rewrite norm_user_texts.
    pose proof (norm_guarded c
                  (fun v => dt <- fromtimestamp_value v ;;
                            Ok (fold_left (fun d text =>
                                             dict_append d (month_key dt) text)
                                          (user_texts c) mt))
                  (Ok mt)) as Hg.
    destruct (has_timestamp (norm c)), (has_timestamp c); cbn [negb];
      congruence.
Qed.

Lemma norm_politeness (convs : list conversation) :
  politeness_score_of (map norm convs) = politeness_score_of convs.
Proof.
  unfold politeness_score_of, polite_counts_of.
  rewrite fold_left_norm; [reflexivity|].
  intros pc c. now rewrite norm_visited.
Qed.

Ltac open_pair x y Hxy :=
  destruct x as [cs r], y as [cs' r']; destruct Hxy as [Hr Hc];
  cbn [summary conversations] in Hr, Hc; subst r' cs'.

Lemma same_summary_stats (x y : analyzer) :
  same_report x y ->
  same_outcome (analyze_summary_stats x) (analyze_summary_stats y).
Proof.
  intros Hxy. open_pair x y Hxy. unfold analyze_summary_stats.
  cbn [conversations summary]. rewrite norm_summary_stats.
  destruct (summary_stats_of cs); cbn; [split|]; reflexivity.
Qed.

Lemma same_heatmap (x y : analyzer) :
  same_report x y ->
  same_outcome (analyze_brain_activity_heatmap x)
               (analyze_brain_activity_heatmap y).
Proof.
  intros Hxy. open_pair x y Hxy. unfold analyze_brain_activity_heatmap.
  cbn [conversations summary]. rewrite norm_heatmap.
  destruct (brain_activity_heatmap_of cs); cbn; [split|]; reflexivity.
Qed.

Lemma same_keywords (x y : analyzer) :
  same_report x y -> same_report (analyze_keywords x) (analyze_keywords y).
Proof.
  intros Hxy. open_pair x y Hxy. unfold analyze_keywords.
  cbn [conversations summary].
  rewrite (flat_map_norm user_texts norm_user_texts).
  split; reflexivity.
Qed.

Lemma same_deep_dive (x y : analyzer) :
  same_report x y ->
  same_report (analyze_deep_dive_index x) (analyze_deep_dive_index y).
Proof.
  intros Hxy. open_pair x y Hxy. unfold analyze_deep_dive_index.
  cbn [conversations summary]. rewrite norm_deep_dive. split; reflexivity.
Qed.

Lemma same_directors_ratio (x y : analyzer) :
  same_report x y ->
  same_outcome (analyze_directors_ratio x) (analyze_directors_ratio y).
Proof.
  intros Hxy. open_pair x y Hxy. unfold analyze_directors_ratio.
  cbn [conversations summary].
  destruct (summary_stats r); cbn; [split|]; reflexivity.
Qed.

Lemma same_linguistic_profile (x y : analyzer) :
  same_report x y ->
  same_report (analyze_linguistic_profile x) (analyze_linguistic_profile y).
Proof.
  intros Hxy. open_pair x y Hxy. unfold analyze_linguistic_profile.
  cbn [conversations summary].
  rewrite flat_map_norm by (intros c; now rewrite norm_visited).
  split; reflexivity.
Qed.

Lemma same_marathon (x y : analyzer) :
  same_report x y ->
  same_outcome (analyze_marathon_session x) (analyze_marathon_session y).
Proof.
  intros Hxy. open_pair x y Hxy. unfold analyze_marathon_session.
  cbn [conversations summary]. rewrite norm_marathon.
  destruct (marathon_session_of cs); cbn; [split|]; reflexivity.
Qed.

Lemma same_monthly_focus (x y : analyzer) :
  same_report x y ->
  same_outcome (analyze_monthly_focus x) (analyze_monthly_focus y).
Proof.
  intros Hxy. open_pair x y Hxy. unfold analyze_monthly_focus.
  cbn [conversations summary]. rewrite norm_monthly_focus.
  destruct (monthly_focus_of cs); cbn; [split|]; reflexivity.
Qed.

Lemma same_politeness (x y : analyzer) :
  same_report x y ->
  same_report (analyze_politeness_score x) (analyze_politeness_score y).
Proof.
  intros Hxy. open_pair x y Hxy. unfold analyze_politeness_score.
  cbn [conversations summary]. rewrite norm_politeness. split; reflexivity.
Qed.

Lemma same_persona_badge (x y : analyzer) :
  same_report x y ->
  same_report (analyze_persona_badge x) (analyze_persona_badge y).
Proof.
  intros Hxy. open_pair x y Hxy. unfold analyze_persona_badge.
  cbn [conversations summary]. split; reflexivity.
Qed.

Lemma same_bind (a b : result analyzer) (f g : analyzer -> result report) :
  same_outcome a b ->
  (forall x y, same_report x y -> f x = g y) ->
  bind a f = bind b g.
Proof.
  intros Hab Hfg. destruct a as [x|e], b as [y|e']; cbn in *;
    try contradiction; [now apply Hfg | congruence].
Qed.

(** C10. A [create_time] of exactly 0 is treated as a missing one: the
    truthiness test rejects it, so the time statistics of the basic
    statistics, the heatmap and the monthly grouping each leave their
    state as it was, and the report of the whole run is the report of the
    archive in which every such key is missing. *)
Theorem zero_timestamp_is_no_timestamp :
  forall (convs : list conversation)
         (id ttl : field pystr) (nodes : list (pystr * node)),
    let c0 := {| conversation_id := id; title := ttl; create_time := Has 0;
                 mapping := nodes |} in
    has_timestamp c0 = false
    /\ (forall st, stats_time st c0 = Ok st)
    /\ (forall data, heatmap_step data c0 = Ok data)
    /\ (forall monthly_texts, monthly_step monthly_texts c0 = Ok monthly_texts)
    /\ run_all_analyses (new_analyzer (map without_zero_timestamp convs))
       = run_all_analyses (new_analyzer convs).
Proof.
  intros convs id ttl nodes c0.
  repeat (split; [reflexivity|]).
  symmetry. unfold run_all_analyses.
  assert (Hinit : same_report (new_analyzer convs)
                              (new_analyzer (map norm convs)))
    by (split; reflexivity).
  apply same_bind; [now apply same_summary_stats|]. intros x1 y1 H1.
  apply same_bind; [now apply same_heatmap|]. intros x2 y2 H2.
  apply same_keywords, same_deep_dive in H2.
  apply same_bind; [now apply same_directors_ratio|]. intros x3 y3 H3.
  apply same_linguistic_profile in H3.
  apply same_bind; [now apply same_marathon|]. intros x4 y4 H4.
  apply same_bind; [now apply same_monthly_focus|]. intros x5 y5 H5.
  apply same_politeness, same_persona_badge in H5.
  destruct H5 as [H5 _]. now rewrite H5.
Qed.

End ZeroTimestamp.

(** ** Monthly focus *)

Lemma pystr_eqb_refl (s : pystr) : pystr_eqb s s = true.
Proof.
  induction s as [|c s IH]; [reflexivity|].
  cbn [pystr_eqb]. now rewrite Z.eqb_refl, IH.
Qed.

Lemma fromtimestamp_year `{Host} (t : Z) (dt : datetime) :
  fromtimestamp t = Ok dt -> 1 <= year dt <= 9999.
Proof.
  unfold fromtimestamp.
  destruct (civil_from_days ((t + utcoffset t) / 86400)) as [[y m] d].
  destruct ((1 <=? y) && (y <=? 9999)) eqn:E; [|discriminate].
  intros [= <-]. cbn [year]. lia.
Qed.

(** From year 1000 on, [%Y-%m] is the key of the grouping. *)
Lemma strftime_Ym_month_key `{Host} (t : Z) (dt : datetime) :
  fromtimestamp t = Ok dt -> 1000 <= year dt ->
  strftime_Ym dt = month_key dt.
Proof.
  intros Ht Hy. apply fromtimestamp_year in Ht.
  unfold strftime_Ym, month_key. rewrite strftime_Y_spec by lia.
  reflexivity.
Qed.

(** Texts appended under one key stay under that key. *)
Lemma dict_append_same_key (k : pystr) (texts : list pystr) :
  forall vs : list pystr,
    fold_left (fun d text => dict_append d k text) texts [(k, vs)]
    = [(k, vs ++ texts)].
Proof.
  induction texts as [|x texts IH]; intros vs; cbn [fold_left].
  - now rewrite app_nil_r.
  - cbn [dict_append]. rewrite pystr_eqb_refl, IH, <- app_assoc.
    reflexivity.
Qed.

Lemma dict_append_first_key (k : pystr) (texts : list pystr) :
  fold_left (fun d text => dict_append d k text) texts []
  = match texts with
    | [] => []
    | _ :: _ => [(k, texts)]
    end.
Proof.
  destruct texts as [|x texts]; [reflexivity|].
  cbn [fold_left dict_append]. apply (dict_append_same_key k texts [x]).
Qed.

Lemma has_timestamp_nonzero (c : conversation) (t : Z) :
  create_time c = Has t -> t <> 0 -> has_timestamp c = true.
Proof.
  intros Hc Ht. unfold has_timestamp. rewrite Hc. cbn [get].
  destruct (Z.eqb_spec t 0); [contradiction | reflexivity].
Qed.

(** C8, as the code has it. Two conversations with non-zero timestamps of
    the same local year (from 1000 on) and month, at least one of them
    with a non-empty user text, give exactly one month entry; its
    conversation count is the number of distinct [conversation_id] values
    of the two: 2 when they differ, 1 when they are equal or both
    missing. *)
Theorem monthly_focus_same_month `{Host} :
  forall (c1 c2 : conversation) (t1 t2 : Z) (d1 d2 : datetime),
    create_time c1 = Has t1 -> create_time c2 = Has t2 ->
    t1 <> 0 -> t2 <> 0 ->
    fromtimestamp t1 = Ok d1 -> fromtimestamp t2 = Ok d2 ->
    year d1 = year d2 -> month d1 = month d2 -> 1000 <= year d1 ->
    user_texts c1 ++ user_texts c2 <> [] ->
    monthly_focus_of [c1; c2]
    = Ok [ {| Monthly.month := month_key d1;
              Monthly.top_keywords :=
                firstn 3 (month_keywords
                            (join (py " ") (user_texts c1 ++ user_texts c2)));
              Monthly.conversation_count :=
                if id_eqb (get (conversation_id c1))
                          (get (conversation_id c2))
                then 1%nat else 2%nat |} ].
Proof.
  intros c1 c2 t1 t2 d1 d2 Hc1 Hc2 Hn1 Hn2 Hd1 Hd2 Hy Hm Hy1000 Htexts.
  assert (Hk : month_key d2 = month_key d1)
    by (unfold month_key; now rewrite Hy, Hm).
  assert (Hs1 : strftime_Ym d1 = month_key d1)
    by (eapply strftime_Ym_month_key; eassumption).
  assert (Hs2 : strftime_Ym d2 = month_key d1).
  { rewrite <- Hk. eapply strftime_Ym_month_key; [eassumption | lia]. }
  assert (Hgroup :
            foldM monthly_step [] [c1; c2]
            = Ok [(month_key d1, user_texts c1 ++ user_texts c2)]).
  { cbn [foldM]. unfold monthly_step.
    rewrite (has_timestamp_nonzero c1 t1 Hc1 Hn1),
            (has_timestamp_nonzero c2 t2 Hc2 Hn2).
    cbn [negb]. rewrite Hc1, Hc2. cbn [get fromtimestamp_value].
    rewrite Hd1. cbn [bind]. rewrite Hd2. cbn [bind]. rewrite Hk.
    rewrite dict_append_first_key.
    destruct (user_texts c1) as [|x xs] eqn:E1.
    - rewrite dict_append_first_key. cbn [app] in *.
      destruct (user_texts c2); [contradiction | reflexivity].
    - rewrite dict_append_same_key. reflexivity. }
  unfold monthly_focus_of. rewrite Hgroup. cbn [bind].
  cbn [sorted_items fold_left insert_by_key foldM].
  unfold monthly_topic. cbn [fst snd].
  unfold month_ids. cbn [foldM]. rewrite Hc1, Hc2.
  cbn [get_default fromtimestamp_value].
  rewrite Hd1. cbn [bind]. rewrite Hs1, pystr_eqb_refl.
  rewrite Hd2. cbn [bind]. rewrite Hs2, pystr_eqb_refl.
  cbn [app distinct existsb].
  destruct (id_eqb (get (conversation_id c1)) (get (conversation_id c2)));
    reflexivity.
Qed.

(** ** The whole run *)

Section Run.
Context `{Host} `{OtherPasses}.

Ltac run_step :=
  cbn [new_analyzer set_summary conversations summary empty_report bind
       summary_stats brain_activity_heatmap keywords deep_dive_index
       directors_ratio linguistic_profile marathon_session monthly_focus
       politeness_score persona_badge].

(** The report of a run in which no pass raises. *)
Lemma run_all_report (convs : list conversation)
  (s : SummaryStats.t) (h : Heatmap.t) (m : option Marathon.t)
  (mf : list Monthly.t) :
  summary_stats_of convs = Ok s ->
  brain_activity_heatmap_of convs = Ok h ->
  marathon_session_of convs = Ok m ->
  monthly_focus_of convs = Ok mf ->
  run_all_analyses (new_analyzer convs)
  = Ok {| summary_stats := Some s;
          brain_activity_heatmap := Some h;
          keywords := Some (keywords_of (flat_map user_texts convs));
          deep_dive_index := Some (deep_dive_index_of convs);
          directors_ratio := Some (directors_ratio_of s);
          linguistic_profile :=
            Some (linguistic_profile_of
                    (flat_map (fun conv =>
                                 map extract_text_from_message
                                     (filter is_user (visited conv))) convs));
          marathon_session := Some m;
          monthly_focus := Some mf;
          politeness_score := Some (politeness_score_of convs);
          persona_badge := Some (persona_badge_of (Heatmap.heatmap_data h)) |}.
Proof.
  intros Hs Hh Hm Hmf.
  unfold run_all_analyses, analyze_summary_stats. run_step.
  rewrite Hs. run_step.
  unfold analyze_brain_activity_heatmap. run_step. rewrite Hh. run_step.
  unfold analyze_directors_ratio, analyze_deep_dive_index, analyze_keywords.
  run_step.
  unfold analyze_marathon_session, analyze_linguistic_profile. run_step.
  rewrite Hm. run_step.
  unfold analyze_monthly_focus. run_step.
  rewrite Hmf. run_step. reflexivity.
Qed.

(** An exception of the monthly pass ends the run. *)
Lemma run_all_raises_monthly (convs : list conversation)
  (s : SummaryStats.t) (h : Heatmap.t) (m : option Marathon.t) (e : exn) :
  summary_stats_of convs = Ok s ->
  brain_activity_heatmap_of convs = Ok h ->
  marathon_session_of convs = Ok m ->
  monthly_focus_of convs = Raise e ->
  run_all_analyses (new_analyzer convs) = Raise e.
Proof.
  intros Hs Hh Hm Hmf.
  unfold run_all_analyses, analyze_summary_stats. run_step.
  rewrite Hs. run_step.
  unfold analyze_brain_activity_heatmap. run_step. rewrite Hh. run_step.
  unfold analyze_directors_ratio, analyze_deep_dive_index, analyze_keywords.
  run_step.
  unfold analyze_marathon_session, analyze_linguistic_profile. run_step.
  rewrite Hm. run_step.
  unfold analyze_monthly_focus. run_step.
  rewrite Hmf. reflexivity.
Qed.

(** The loop over the messages of one conversation. *)
Lemma stats_messages (ms : list message) :
  forall st,
    let st' := fold_left stats_message ms st in
    total_user_chars st'
    = (total_user_chars st + characters (filter is_user ms))%nat
    /\ total_messages st'
       = (total_messages st + List.length (filter is_user ms))%nat
    /\ total_assistant_chars st'
       = (total_assistant_chars st
          + characters (filter (fun m => negb (is_user m)
                                         && role_is m (py "assistant")) ms))%nat.
Proof.
  unfold characters.
  induction ms as [|m ms IH]; intros st; cbn [fold_left filter].
  - cbn. unfold py_sum. cbn. lia.
  - destruct (IH (stats_message st m)) as (Hu & Hn & Ha).
    cbn zeta. rewrite Hu, Hn, Ha. unfold stats_message, is_user.
    destruct (role_is m (py "user")); cbn [negb andb].
    + cbn [total_user_chars total_messages total_assistant_chars map
           List.length]. rewrite py_sum_cons. lia.
    + destruct (role_is m (py "assistant"));
        cbn [total_user_chars total_messages total_assistant_chars map
             List.length]; rewrite ?py_sum_cons; lia.
Qed.

Lemma characters_app (a b : list message) :
  characters (a ++ b) = (characters a + characters b)%nat.
Proof.
  unfold characters. induction a as [|m a IH]; cbn [app map].
  - unfold py_sum at 2. cbn. lia.
  - rewrite !py_sum_cons, IH. lia.
Qed.

(** The loop of the basic statistics returns when the timestamps fit, and
    its totals are those of the user and assistant messages. *)
Lemma stats_loop_totals (convs : list conversation) :
  forallb timestamp_in_range convs = true ->
  forall st,
    exists st',
      foldM stats_conversation st convs = Ok st'
      /\ total_user_chars st'
         = (total_user_chars st + characters (user_messages convs))%nat
      /\ total_messages st'
         = (total_messages st + List.length (user_messages convs))%nat
      /\ total_assistant_chars st'
         = (total_assistant_chars st
            + characters (assistant_messages convs))%nat.
Proof.
  unfold user_messages, assistant_messages.
  induction convs as [|c convs IH]; intros Hr st; cbn [foldM flat_map].
  - exists st. split; [reflexivity|]. cbn. unfold characters, py_sum. cbn.
    lia.
  - cbn [forallb] in Hr. apply andb_prop in Hr as [Hc Hr].
    unfold stats_conversation at 1.
    assert (Ht : exists st1,
               stats_time st c = Ok st1
               /\ total_user_chars st1 = total_user_chars st
               /\ total_messages st1 = total_messages st
               /\ total_assistant_chars st1 = total_assistant_chars st).
    { unfold stats_time. unfold timestamp_in_range in Hc.
      destruct (has_timestamp c) eqn:Ets; cbn [negb orb] in Hc.
      - unfold has_timestamp in Ets.
        destruct (get (create_time c)) as [t|]; [|discriminate].
        cbn [fromtimestamp_value].
        destruct (fromtimestamp t) as [dt|]; [|discriminate].
        cbn [bind]. eexists. split; [reflexivity|]. cbn. auto.
      - exists st. auto. }
    destruct Ht as (st1 & Ht & Hu1 & Hn1 & Ha1). rewrite Ht. cbn [bind].
    destruct (stats_messages (visited c) st1) as (Hu2 & Hn2 & Ha2).
    destruct (IH Hr (fold_left stats_message (visited c) st1))
      as (st' & Hf & Hu & Hn & Ha).
    exists st'. split; [exact Hf|].
    rewrite !filter_app, !characters_app, length_app. lia.
Qed.

Lemma summary_stats_totals (convs : list conversation) :
  forallb timestamp_in_range convs = true ->
  exists s : SummaryStats.t,
    summary_stats_of convs = Ok s
    /\ SummaryStats.total_conversations s = List.length convs
    /\ SummaryStats.total_messages s = List.length (user_messages convs)
    /\ SummaryStats.total_user_characters s
       = characters (user_messages convs)
    /\ SummaryStats.total_assistant_characters s
       = characters (assistant_messages convs).
Proof.
  intros Hr. destruct (stats_loop_totals convs Hr stats_init)
    as (st & Hf & Hu & Hn & Ha).
  unfold summary_stats_of. rewrite Hf. cbn [bind].
  eexists. split; [reflexivity|]. cbn. auto.
Qed.

Lemma heatmap_returns (convs : list conversation) :
  forallb timestamp_in_range convs = true ->
  exists h : Heatmap.t, brain_activity_heatmap_of convs = Ok h.
Proof.
  intros Hr.
  destruct (heatmap_loop convs Hr [] (Forall_nil _)) as (data & Hf & _).
  unfold brain_activity_heatmap_of. rewrite Hf. cbn [bind].
  eexists. reflexivity.
Qed.

Lemma marathon_returns (convs : list conversation) :
  forallb timestamp_in_range convs = true ->
  exists m : option Marathon.t, marathon_session_of convs = Ok m.
Proof.
  intros Hr. unfold marathon_session_of.
  destruct (marathon_loop convs)
    as [(Hn & _) | (i & c & Hi & Hs & _)].
  - rewrite Hn. eexists. reflexivity.
  - rewrite Hs. rewrite forallb_forall in Hr.
    specialize (Hr c (nth_error_In _ _ Hi)).
    unfold marathon_date, timestamp_in_range in *.
    destruct (has_timestamp c) eqn:Ets; cbn [negb orb] in Hr.
    + unfold has_timestamp in Ets.
      destruct (get (create_time c)) as [t|]; [|discriminate].
      cbn [fromtimestamp_value].
      destruct (fromtimestamp t) as [dt|]; [|discriminate].
      cbn [bind]. eexists. reflexivity.
    + cbn [bind]. eexists. reflexivity.
Qed.

(** Mid-November 2023 is a date in every time zone. *)
Lemma fromtimestamp_2023 :
  exists dt : datetime, fromtimestamp 1700000000 = Ok dt.
Proof.
  unfold fromtimestamp.
  pose proof (utcoffset_bound 1700000000) as Hb.
  set (l := 1700000000 + utcoffset 1700000000).
  assert (Hl : 1699913600 < l < 1700086400) by (subst l; lia).
  clearbody l.
  assert (Hd : l / 86400 = 19674 \/ l / 86400 = 19675 \/ l / 86400 = 19676)
    by (Z.div_mod_to_equations; lia).
  destruct Hd as [-> | [-> | ->]];
    [ change (civil_from_days 19674) with (2023, 11, 13)
    | change (civil_from_days 19675) with (2023, 11, 14)
    | change (civil_from_days 19676) with (2023, 11, 15) ];
    cbv iota beta;
    change ((1 <=? 2023) && (2023 <=? 9999)) with true;
    cbv iota; eexists; reflexivity.
Qed.

(** The epoch is a date in every time zone. *)
Lemma fromtimestamp_epoch :
  exists dt : datetime, fromtimestamp 0 = Ok dt.
Proof.
  unfold fromtimestamp.
  pose proof (utcoffset_bound 0) as Hb.
  set (l := 0 + utcoffset 0).
  assert (Hl : -86400 < l < 86400) by (subst l; lia).
  clearbody l.
  assert (Hd : l / 86400 = -1 \/ l / 86400 = 0)
    by (Z.div_mod_to_equations; lia).
  destruct Hd as [-> | ->];
    [ change (civil_from_days (-1)) with (1969, 12, 31)
    | change (civil_from_days 0) with (1970, 1, 1) ];
    cbv iota beta;
    [ change ((1 <=? 1969) && (1969 <=? 9999)) with true
    | change ((1 <=? 1970) && (1970 <=? 9999)) with true ];
    cbv iota; eexists; reflexivity.
Qed.

(** The monthly pass returns when the timestamps fit and none is null. *)
Lemma monthly_focus_returns (convs : list conversation) :
  forallb timestamp_in_range convs = true ->
  forallb (fun c => negb (timestamp_null c)) convs = true ->
  exists mf : list Monthly.t, monthly_focus_of convs = Ok mf.
Proof.
  intros Hr Hnn. unfold monthly_focus_of.
  assert (Hgroup : forall l,
             forallb timestamp_in_range l = true ->
             forall mt, exists mt', foldM monthly_step mt l = Ok mt').
  { clear. induction l as [|c l IH]; intros Hr mt; cbn [foldM].
    - eexists. reflexivity.
    - cbn [forallb] in Hr. apply andb_prop in Hr as [Hc Hr].
      unfold monthly_step at 1. unfold timestamp_in_range in Hc.
      destruct (has_timestamp c) eqn:Ets; cbn [negb orb] in *.
      + unfold has_timestamp in Ets.
        destruct (get (create_time c)) as [t|]; [|discriminate].
        cbn [fromtimestamp_value].
        destruct (fromtimestamp t) as [dt|]; [|discriminate].
        cbn [bind]. apply IH. exact Hr.
      + cbn [bind]. apply IH. exact Hr. }
  destruct (Hgroup convs Hr []) as (mt & Hmt). rewrite Hmt. cbn [bind].
  assert (Hids : forall m l,
             forallb timestamp_in_range l = true ->
             forallb (fun c => negb (timestamp_null c)) l = true ->
             forall ids, exists ids',
               foldM (fun ids conv =>
                        dt <- fromtimestamp_value
                                (get_default (create_time conv) 0) ;;
                        Ok (if pystr_eqb (strftime_Ym dt) m
                            then ids ++ [get (conversation_id conv)]
                            else ids)) ids l = Ok ids').
  { clear. intros m. induction l as [|c l IH]; intros Hr Hnn ids; cbn [foldM].
    - eexists. reflexivity.
    - cbn [forallb] in Hr, Hnn.
      apply andb_prop in Hr as [Hc Hr]. apply andb_prop in Hnn as [Hn Hnn].
      assert (Hdt : exists dt,
                 fromtimestamp_value (get_default (create_time c) 0) = Ok dt).
      { unfold timestamp_in_range, has_timestamp in Hc.
        unfold timestamp_null in Hn.
        destruct (create_time c) as [ | | t]; [ | discriminate | ];
          cbn [get_default get fromtimestamp_value] in *.
        - apply fromtimestamp_epoch.
        - destruct (Z.eqb_spec t 0) as [E | Ht]; cbn [negb orb] in Hc.
          + rewrite E. apply fromtimestamp_epoch.
          + destruct (fromtimestamp t) as [dt|]; [|discriminate].
            eexists. reflexivity. }
      destruct Hdt as [dt Hdt]. rewrite Hdt. cbn [bind]. apply IH; assumption. }
  generalize (@nil Monthly.t).
  induction (sorted_items mt) as [|item items IH]; intros acc; cbn [foldM].
  - eexists. reflexivity.
  - unfold monthly_topic at 1. unfold month_ids.
    destruct (Hids (fst item) convs Hr Hnn []) as (ids & Hi). rewrite Hi.
    cbn [bind]. apply IH.
Qed.


(** C2, at the failing archive. The monthly pass groups the first
    conversation under its month, then recounts the conversations of that
    month and converts the null [create_time] of the second: [TypeError],
    which nothing catches, so the run ends without the last three keys. *)
Theorem null_timestamp_aborts_run :
  monthly_focus_of null_timestamp_archive = Raise TypeError
  /\ run_all_analyses (new_analyzer null_timestamp_archive) = Raise TypeError.
Proof.
  destruct fromtimestamp_2023 as [dt Hdt].
  assert (Hm : monthly_focus_of null_timestamp_archive = Raise TypeError).
  { unfold monthly_focus_of, null_timestamp_archive. cbn [foldM].
    unfold monthly_step.
    cbn [has_timestamp get create_time negb Z.eqb fromtimestamp_value].
    rewrite Hdt. cbn [bind].
    match goal with
    | |- context [user_texts ?c] => change (user_texts c) with [py "hi"]
    end.
    cbn [fold_left dict_append bind sorted_items insert_by_key foldM].
    unfold monthly_topic, month_ids.
    cbn [foldM fst snd create_time get_default fromtimestamp_value].
    rewrite Hdt. cbn [bind]. reflexivity. }
  split; [exact Hm|].
  assert (Hr : forallb timestamp_in_range null_timestamp_archive = true).
  { unfold null_timestamp_archive, timestamp_in_range.
    cbn [forallb has_timestamp get create_time negb Z.eqb].
    rewrite Hdt. reflexivity. }
  destruct (summary_stats_totals _ Hr) as (s & Hs & _).
  destruct (heatmap_returns _ Hr) as (h & Hh).
  destruct (marathon_returns _ Hr) as (m & Hma).
  exact (run_all_raises_monthly _ s h m TypeError Hs Hh Hma Hm).
Qed.

(** ** Scenario A *)

(** C1, as the code has it. For one conversation with a timestamp, a user
    message of text "请帮忙, thanks" and an assistant message of text "你好",
    the run returns a report with 1 conversation, 1 user message, 11 user
    characters (the text has 11 code points), 2 assistant characters, the
    please, help and thank-you counts all 1, the ratio round(2/11, 2) =
    0.18 and the co-creator label. *)
Theorem scenario_a_report :
  forall (id ttl : field pystr) (t : Z) (dt : datetime)
         (n1 n2 : pystr) (m1 m2 : message),
    fromtimestamp t = Ok dt ->
    pystr_eqb n1 root_id = false -> pystr_eqb n2 root_id = false ->
    role m1 = Some (py "user") ->
    extract_text_from_message m1 = py "请帮忙, thanks" ->
    role m2 = Some (py "assistant") ->
    extract_text_from_message m2 = py "你好" ->
    exists (rep : report) (s : SummaryStats.t) (d : Ratio.t)
           (p : Politeness.t),
      run_all_analyses
        (new_analyzer (two_message_archive id ttl t n1 n2 m1 m2)) = Ok rep
      /\ summary_stats rep = Some s
      /\ directors_ratio rep = Some d
      /\ politeness_score rep = Some p
      /\ SummaryStats.total_conversations s = 1%nat
      /\ SummaryStats.total_messages s = 1%nat
      /\ SummaryStats.total_user_characters s = 11%nat
      /\ SummaryStats.total_assistant_characters s = 2%nat
      /\ Politeness.please_count p = 1%nat
      /\ Politeness.help_count p = 1%nat
      /\ Politeness.thank_you_count p = 1%nat
      /\ Ratio.ratio d = PyFloat 0.18
      /\ Ratio.persona_type d = py "创作者".
Proof.
  intros id ttl t dt n1 n2 m1 m2 Hdt Hn1 Hn2 Hr1 He1 Hr2 He2.
  set (archive := two_message_archive id ttl t n1 n2 m1 m2).
  assert (Hu1 : is_user m1 = true)
    by (unfold is_user, role_is; rewrite Hr1; apply pystr_eqb_refl).
  assert (Hu2 : is_user m2 = false)
    by (unfold is_user, role_is; rewrite Hr2; vm_compute; reflexivity).
  assert (Ha2 : role_is m2 (py "assistant") = true)
    by (unfold role_is; rewrite Hr2; apply pystr_eqb_refl).
  assert (Hv : flat_map visited archive = [m1; m2]).
  { unfold archive, two_message_archive, visited.
    cbn [flat_map mapping fst snd node_message]. rewrite Hn1, Hn2.
    reflexivity. }
  assert (Hum : user_messages archive = [m1]).
  { unfold user_messages. rewrite Hv. cbn [filter].
    now rewrite Hu1, Hu2. }
  assert (Ham : assistant_messages archive = [m2]).
  { unfold assistant_messages. rewrite Hv. cbn [filter].
    now rewrite Hu1, Hu2, Ha2. }
  assert (Hrange : forallb timestamp_in_range archive = true).
  { unfold archive, two_message_archive, timestamp_in_range.
    cbn [forallb has_timestamp get create_time]. rewrite Hdt.
    destruct (t =? 0); reflexivity. }
  assert (Hnn : forallb (fun c => negb (timestamp_null c)) archive = true)
    by reflexivity.
  destruct (summary_stats_totals _ Hrange) as (s & Hs & Hc & Hn & Hu & Ha).
  destruct (heatmap_returns _ Hrange) as (h & Hh).
  destruct (marathon_returns _ Hrange) as (m & Hma).
  destruct (monthly_focus_returns _ Hrange Hnn) as (mf & Hmf).
  rewrite Hum in Hn, Hu. rewrite Ham in Ha.
  assert (Hu' : SummaryStats.total_user_characters s = 11%nat).
  { rewrite Hu. unfold characters. cbn [map]. rewrite He1.
    vm_compute. reflexivity. }
  assert (Ha' : SummaryStats.total_assistant_characters s = 2%nat).
  { rewrite Ha. unfold characters. cbn [map]. rewrite He2.
    vm_compute. reflexivity. }
  eexists. exists s, (directors_ratio_of s), (politeness_score_of archive).
  split; [exact (run_all_report _ s h m mf Hs Hh Hma Hmf)|].
  cbn [summary_stats directors_ratio politeness_score].
  repeat (split; [first [reflexivity | assumption]|]).
  assert (Hpc : polite_counts_of archive
                = {| please := 1; thank_you := 1; help := 1;
                     polite_total_messages := 1 |}).
  { unfold polite_counts_of.
    assert (Hvc : forall c, archive = [c] -> visited c = [m1; m2]).
    { intros c Hc'. rewrite Hc' in Hv. cbn [flat_map] in Hv.
      now rewrite app_nil_r in Hv. }
    unfold archive in *. unfold two_message_archive in *.
    cbn [fold_left]. rewrite (Hvc _ eq_refl). cbn [fold_left].
    unfold polite_message at 1. change (role_is m2 (py "user"))
      with (is_user m2). rewrite Hu2. cbn [negb].
    pose proof (polite_message_user
                  {| please := 0; thank_you := 0; help := 0;
                     polite_total_messages := 0 |} m1 Hu1) as Hstep.
    rewrite He1 in Hstep.
    rewrite lower_fixed in Hstep by (vm_compute; reflexivity).
    cbv zeta in Hstep. destruct Hstep as (Hp & Ht & Hh' & Hn').
    destruct (polite_message _ m1) as [a b c n]. cbn in Hp, Ht, Hh', Hn'.
    vm_compute in Hp, Ht, Hh'. congruence. }
  unfold politeness_score_of. rewrite Hpc.
  cbn [Politeness.please_count Politeness.help_count
       Politeness.thank_you_count please help thank_you].
  repeat (split; [reflexivity|]).
  unfold directors_ratio_of. rewrite Hu', Ha'.
  cbn [Ratio.ratio Ratio.persona_type]. split; vm_compute; reflexivity.
Qed.

End Run.

(** ** Evaluations on concrete archives (UTC host) *)

(** C1 as stated fails: the user text has 11 code points, not 14, and the
    ratio is round(2/11, 2) = 0.18, not 0.14. *)
Lemma scenario_a_has_11_user_characters :
  exists (rep : report) (s : SummaryStats.t) (d : Ratio.t),
    run_all_analyses (new_analyzer scenario_a_archive) = Ok rep
    /\ summary_stats rep = Some s
    /\ directors_ratio rep = Some d
    /\ SummaryStats.total_user_characters s = 11%nat
    /\ SummaryStats.total_user_characters s <> 14%nat
    /\ Ratio.ratio d = PyFloat 0.18
    /\ Ratio.ratio d <> PyFloat 0.14.
Proof.
  eexists. eexists. eexists.
  split; [vm_compute; reflexivity|].
  split; [reflexivity|]. split; [reflexivity|].
  repeat split; try reflexivity; vm_compute; discriminate.
Qed.

Lemma scenario_a_report_witness :
  exists rep : report,
    run_all_analyses (new_analyzer scenario_a_archive) = Ok rep.
Proof.
  assert (Hdt : fromtimestamp 1700000000
                = Ok {| year := 2023; month := 11; day := 14;
                        hour := 22; minute := 13; second := 20 |})
    by (vm_compute; reflexivity).
  assert (Hn1 : pystr_eqb (py "n1") root_id = false)
    by (vm_compute; reflexivity).
  assert (Hn2 : pystr_eqb (py "n2") root_id = false)
    by (vm_compute; reflexivity).
  assert (He1 : extract_text_from_message
                  (text_message (py "user") (py "请帮忙, thanks"))
                = py "请帮忙, thanks") by (vm_compute; reflexivity).
  assert (He2 : extract_text_from_message
                  (text_message (py "assistant") (py "你好"))
                = py "你好") by (vm_compute; reflexivity).
  pose proof (scenario_a_report
                (Has (py "a")) (Has (py "A")) 1700000000 _
                (py "n1") (py "n2")
                (text_message (py "user") (py "请帮忙, thanks"))
                (text_message (py "assistant") (py "你好"))
                Hdt Hn1 Hn2 eq_refl He1 eq_refl He2) as Hreport.
  destruct Hreport as (rep & s & d & p & Hrun & _).
  exists rep. exact Hrun.
Defined.

(** C4 as stated fails: a conversation created at the epoch has a
    non-null timestamp and no cell of the heatmap. *)
Lemma epoch_conversation_has_no_cell :
  exists h : Heatmap.t,
    brain_activity_heatmap_of epoch_archive = Ok h
    /\ total_count (Heatmap.heatmap_data h) = 0%nat
    /\ List.length (filter timestamp_not_null epoch_archive) = 1%nat
    /\ total_count (Heatmap.heatmap_data h)
       <> List.length (filter timestamp_not_null epoch_archive).
Proof.
  eexists. split; [vm_compute; reflexivity|].
  repeat split; try reflexivity. vm_compute. discriminate.
Qed.

Lemma heatmap_conserves_counts_witness :
  exists h : Heatmap.t,
    brain_activity_heatmap_of (scenario_a_archive ++ epoch_archive) = Ok h
    /\ total_count (Heatmap.heatmap_data h) = 1%nat
    /\ total_count (Heatmap.hour_distribution h) = 1%nat
    /\ total_count (Heatmap.weekday_distribution h) = 1%nat.
Proof.
  assert (Hrange : forallb timestamp_in_range
                           (scenario_a_archive ++ epoch_archive) = true)
    by (vm_compute; reflexivity).
  pose proof (heatmap_conserves_counts
                (scenario_a_archive ++ epoch_archive) Hrange) as Hcons.
  destruct Hcons as (h & Hrun & Hc & Hh & Hw).
  exists h. split; [exact Hrun|]. split; [exact Hc|].
  split; [exact Hh | exact Hw].
Defined.


Lemma politeness_checks_are_independent_witness :
  please (polite_message
            {| please := 0; thank_you := 0; help := 0;
               polite_total_messages := 0 |}
            (text_message (py "user") (py "Please 请")))
  = 2%nat.
Proof.
  refine (proj1 (proj2 (proj2 (proj2 (proj2
            (politeness_checks_are_independent
               {| please := 0; thank_you := 0; help := 0;
                  polite_total_messages := 0 |}
               (text_message (py "user") (py "Please 请")) _))))) _ _);
    vm_compute; reflexivity.
Defined.

(** C8 as stated fails: two conversations of one month without user
    messages give no month entry, and two with a user text but without
    ids give an entry that counts 1. *)
Lemma same_month_without_entry_or_with_count_1 :
  monthly_focus_of silent_pair = Ok []
  /\ exists e : Monthly.t,
       monthly_focus_of anonymous_pair = Ok [e]
       /\ Monthly.conversation_count e = 1%nat.
Proof.
  split; [vm_compute; reflexivity|].
  eexists. split; [vm_compute; reflexivity|]. reflexivity.
Qed.

Lemma monthly_focus_same_month_witness :
  exists e : Monthly.t,
    monthly_focus_of named_pair = Ok [e]
    /\ Monthly.conversation_count e = 2%nat.
Proof.
  eexists. split.
  - refine (monthly_focus_same_month
              (dated (Has (py "a")) 1700000000 [py "hello"])
              (dated (Has (py "b")) 1700086400 [])
              1700000000 1700086400
              {| year := 2023; month := 11; day := 14;
                 hour := 22; minute := 13; second := 20 |}
              {| year := 2023; month := 11; day := 15;
                 hour := 22; minute := 13; second := 20 |}
              eq_refl eq_refl _ _ _ _ eq_refl eq_refl _ _);
      try (vm_compute; reflexivity); try (vm_compute; discriminate).
  - reflexivity.
Defined.


(** * Further properties of the passes *)

(** ** The report of a run does not depend on what the report held *)

Section Frame.
Context `{Host} `{OtherPasses}.

Ltac frame_step :=
  cbn [new_analyzer set_summary conversations summary empty_report bind
       summary_stats brain_activity_heatmap keywords deep_dive_index
       directors_ratio linguistic_profile marathon_session monthly_focus
       politeness_score persona_badge].

(** X2. Every pass overwrites its key and reads only keys written earlier
    in the same run: the outcome of [run_all_analyses] is the same whatever
    the report held before, so a second run on the same analyzer object
    gives the report (or the exception) of the first. *)
Theorem run_all_ignores_previous_report :
  forall (convs : list conversation) (r r' : report),
    run_all_analyses {| conversations := convs; summary := r |}
    = run_all_analyses {| conversations := convs; summary := r' |}.
Proof.
  intros convs r r'.
  unfold run_all_analyses, analyze_summary_stats. frame_step.
  destruct (summary_stats_of convs) as [s|e]; frame_step; [|reflexivity].
  unfold analyze_brain_activity_heatmap. frame_step.
  destruct (brain_activity_heatmap_of convs) as [h|e]; frame_step;
    [|reflexivity].
  unfold analyze_directors_ratio, analyze_deep_dive_index, analyze_keywords.
  frame_step.
  unfold analyze_marathon_session, analyze_linguistic_profile. frame_step.
  destruct (marathon_session_of convs) as [m|e]; frame_step; [|reflexivity].
  unfold analyze_monthly_focus. frame_step.
  destruct (monthly_focus_of convs) as [mf|e]; frame_step; [|reflexivity].
  reflexivity.
Qed.

End Frame.

(** ** Politeness: a sum over the bag of messages *)

Section PolitenessBag.
Context `{Host}.

(** A message adds its own counts to the counters. *)
Lemma polite_message_adds (pc : polite_counts) (m : message) :
  polite_message pc m
  = add_polite_counts pc (polite_message no_polite_counts m).
Proof.
  unfold polite_message, add_polite_counts, no_polite_counts.
  destruct pc as [a b c n].
  destruct (role_is m (py "user")); cbn [negb].
  - set (text := lower (extract_text_from_message m)).
    destruct (contains (py "please") text), (contains (py "请") text),
      (contains (py "thank you") text || contains (py "thanks") text),
      (contains (py "谢谢") text || contains (py "感谢") text),
      (contains (py "help") text),
      (contains (py "帮忙") text || contains (py "帮") text
       || contains (py "救命") text);
      cbn [add_please add_thank_you add_help please thank_you help
           polite_total_messages];
      f_equal; lia.
  - cbn [please thank_you help polite_total_messages]. f_equal; lia.
Qed.

Lemma add_polite_counts_swap (pc a b : polite_counts) :
  add_polite_counts (add_polite_counts pc a) b
  = add_polite_counts (add_polite_counts pc b) a.
Proof.
  unfold add_polite_counts. cbn [please thank_you help polite_total_messages].
  f_equal; lia.
Qed.

Lemma polite_message_commutes (pc : polite_counts) (a b : message) :
  polite_message (polite_message pc a) b
  = polite_message (polite_message pc b) a.
Proof.
  rewrite (polite_message_adds (polite_message pc a) b).
  rewrite (polite_message_adds pc a).
  rewrite (polite_message_adds (polite_message pc b) a).
  rewrite (polite_message_adds pc b).
  apply add_polite_counts_swap.
Qed.

Lemma polite_fold_permutation (ms ms' : list message) :
  Permutation ms ms' ->
  forall pc, fold_left polite_message ms pc = fold_left polite_message ms' pc.
Proof.
  induction 1 as [ | x l l' _ IH | x y l | l l' l'' _ IH1 _ IH2];
    intros pc; cbn [fold_left].
  - reflexivity.
  - apply IH.
  - now rewrite polite_message_commutes.
  - now rewrite IH1.
Qed.

(** The two nested loops are one loop over the visited messages. *)
Lemma polite_counts_flat (convs : list conversation) :
  forall pc,
    fold_left (fun pc conv => fold_left polite_message (visited conv) pc)
              convs pc
    = fold_left polite_message (flat_map visited convs) pc.
Proof.
  induction convs as [|c convs IH]; intros pc; cbn [fold_left flat_map];
    [reflexivity|].
  now rewrite fold_left_app, IH.
Qed.

Lemma polite_fold_adds (ms : list message) :
  forall pc,
    fold_left polite_message ms pc
    = add_polite_counts pc (fold_left polite_message ms no_polite_counts).
Proof.
  induction ms as [|m ms IH]; intros pc; cbn [fold_left].
  - unfold add_polite_counts, no_polite_counts. destruct pc.
    cbn [please thank_you help polite_total_messages]. f_equal; lia.
  - rewrite (IH (polite_message pc m)),
            (IH (polite_message no_polite_counts m)).
    rewrite (polite_message_adds pc m).
    unfold add_polite_counts.
    cbn [please thank_you help polite_total_messages]. f_equal; lia.
Qed.

(** X3. The politeness pass sees a bag of messages: two archives whose
    visited messages are the same up to order (conversations reordered,
    nodes reordered inside a mapping, messages moved between
    conversations) get the same politeness record. *)
Theorem politeness_is_order_independent :
  forall a b : list conversation,
    Permutation (flat_map visited a) (flat_map visited b) ->
    politeness_score_of a = politeness_score_of b.
Proof.
  intros a b Hperm. unfold politeness_score_of.
  assert (Hpc : polite_counts_of a = polite_counts_of b).
  { unfold polite_counts_of. rewrite !polite_counts_flat.
    now apply polite_fold_permutation. }
  now rewrite Hpc.
Qed.

(** X4. The politeness counters of two archives put end to end are the
    sums of their counters: please, thank-you, help, their total and the
    number of user messages all add up. *)
Theorem politeness_counts_add_up :
  forall a b : list conversation,
    let r := politeness_score_of (a ++ b) in
    let ra := politeness_score_of a in
    let rb := politeness_score_of b in
    Politeness.please_count r
    = (Politeness.please_count ra + Politeness.please_count rb)%nat
    /\ Politeness.thank_you_count r
       = (Politeness.thank_you_count ra + Politeness.thank_you_count rb)%nat
    /\ Politeness.help_count r
       = (Politeness.help_count ra + Politeness.help_count rb)%nat
    /\ Politeness.total_polite_usage r
       = (Politeness.total_polite_usage ra
          + Politeness.total_polite_usage rb)%nat
    /\ Politeness.total_messages r
       = (Politeness.total_messages ra + Politeness.total_messages rb)%nat.
Proof.
  intros a b r ra rb. subst r ra rb. unfold politeness_score_of.
  cbn [Politeness.please_count Politeness.thank_you_count
       Politeness.help_count Politeness.total_polite_usage
       Politeness.total_messages].
  assert (Hpc : polite_counts_of (a ++ b)
                = add_polite_counts (polite_counts_of a)
                                    (polite_counts_of b)).
  { unfold polite_counts_of. rewrite fold_left_app.
    rewrite !polite_counts_flat. apply polite_fold_adds. }
  rewrite Hpc. unfold add_polite_counts.
  cbn [please thank_you help polite_total_messages].
  repeat split; lia.
Qed.

End PolitenessBag.

(** ** Rounding keeps integer bounds *)

Lemma round_half_even_between (q : Q) (a b : Z) :
  (inject_Z a <= q)%Q -> (q <= inject_Z b)%Q ->
  a <= round_half_even q <= b.
Proof.
  destruct q as [n d]. unfold Qle, inject_Z, round_half_even.
  cbn [Qnum Qden]. intros Ha Hb.
  pose proof (Z.div_mod n (Z.pos d) ltac:(lia)) as Hdm.
  pose proof (Z.mod_pos_bound n (Z.pos d) ltac:(lia)) as Hr.
  set (f := n / Z.pos d) in *. set (r := n mod Z.pos d) in *.
  assert (Hfa : a <= f) by nia.
  assert (Hfb : f <= b) by nia.
  assert (Hup : 0 < r -> f + 1 <= b) by (intros Hpos; nia).
  destruct (Z.ltb_spec (2 * r) (Z.pos d)); [lia|].
  destruct (Z.ltb_spec (Z.pos d) (2 * r)); [lia|].
  destruct (Z.even f); lia.
Qed.

(** [round(q, 1)] stays between the integers that bound [q]. *)
Lemma py_round_1_between (q : Q) (a b : Z) :
  (inject_Z a <= q)%Q -> (q <= inject_Z b)%Q ->
  (inject_Z a <= py_round q 1)%Q /\ (py_round q 1 <= inject_Z b)%Q.
Proof.
  intros Ha Hb. unfold py_round. cbn [Pos.of_nat].
  change (Pos.pow 10 1) with 10%positive.
  assert (Ha' : (inject_Z (10 * a) <= q * inject_Z 10)%Q).
  { destruct q as [n d]. unfold Qle, Qmult, inject_Z in *.
    cbn [Qnum Qden] in *. nia. }
  assert (Hb' : (q * inject_Z 10 <= inject_Z (10 * b))%Q).
  { destruct q as [n d]. unfold Qle, Qmult, inject_Z in *.
    cbn [Qnum Qden] in *. nia. }
  pose proof (round_half_even_between _ _ _ Ha' Hb') as [Hlo Hhi].
  set (h := round_half_even (q * inject_Z 10)) in *.
  unfold Qle, inject_Z. cbn [Qnum Qden]. split; lia.
Qed.


(** ** User messages, counted three times *)

Section UserMessages.
Context `{Host}.

Lemma stats_time_totals (st st1 : stats_loop) (c : conversation) :
  stats_time st c = Ok st1 ->
  total_user_chars st1 = total_user_chars st
  /\ total_messages st1 = total_messages st
  /\ total_assistant_chars st1 = total_assistant_chars st.
Proof.
  unfold stats_time. destruct (has_timestamp c).
  - destruct (fromtimestamp_value (get (create_time c))) as [dt|];
      cbn [bind]; [|discriminate].
    intros [= <-]. cbn. auto.
  - intros [= <-]. auto.
Qed.

(** The totals of the basic statistics, whenever the loop returns. *)
Lemma stats_loop_result (convs : list conversation) :
  forall st st',
    foldM stats_conversation st convs = Ok st' ->
    total_user_chars st'
    = (total_user_chars st + characters (user_messages convs))%nat
    /\ total_messages st'
       = (total_messages st + List.length (user_messages convs))%nat
    /\ total_assistant_chars st'
       = (total_assistant_chars st
          + characters (assistant_messages convs))%nat.
Proof.
  unfold user_messages, assistant_messages.
  induction convs as [|c convs IH]; intros st st'; cbn [foldM flat_map].
  - intros [= <-]. cbn. unfold characters, py_sum. cbn. lia.
  - unfold stats_conversation at 1.
    destruct (stats_time st c) as [st1|] eqn:Et; cbn [bind]; [|discriminate].
    intros Hf. apply stats_time_totals in Et as (Hu1 & Hn1 & Ha1).
    destruct (stats_messages (visited c) st1) as (Hu2 & Hn2 & Ha2).
    destruct (IH _ _ Hf) as (Hu & Hn & Ha).
    rewrite !filter_app, !characters_app, length_app.
    rewrite Hu, Hn, Ha, Hu2, Hn2, Ha2, Hu1, Hn1, Ha1.
    repeat split; symmetry; apply Nat.add_assoc.
Qed.

Lemma summary_stats_result (convs : list conversation) (s : SummaryStats.t) :
  summary_stats_of convs = Ok s ->
  SummaryStats.total_conversations s = List.length convs
  /\ SummaryStats.total_messages s = List.length (user_messages convs)
  /\ SummaryStats.total_user_characters s = characters (user_messages convs)
  /\ SummaryStats.total_assistant_characters s
     = characters (assistant_messages convs).
Proof.
  unfold summary_stats_of.
  destruct (foldM stats_conversation stats_init convs) as [st|] eqn:Ef;
    cbn [bind]; [|discriminate].
  intros [= <-].
  destruct (stats_loop_result convs _ _ Ef) as (Hu & Hn & Ha).
  cbn. auto.
Qed.

Lemma polite_fold_messages (ms : list message) :
  forall pc,
    polite_total_messages (fold_left polite_message ms pc)
    = (polite_total_messages pc + List.length (filter is_user ms))%nat.
Proof.
  induction ms as [|m ms IH]; intros pc; cbn [fold_left filter];
    [cbn [List.length]; lia|].
  rewrite IH. unfold polite_message, is_user.
  destruct (role_is m (py "user")); cbn [negb].
  - match goal with
    | |- context [add_help ?b1 (add_thank_you ?b2 (add_please ?b3
                    (add_help ?b4 (add_thank_you ?b5 (add_please ?b6 _)))))] =>
        destruct b1, b2, b3, b4, b5, b6
    end;
      cbn [add_please add_thank_you add_help polite_total_messages
           List.length]; lia.
  - lia.
Qed.

Lemma user_messages_by_conversation (convs : list conversation) :
  List.length (user_messages convs) = py_sum (map user_message_count convs).
Proof.
  unfold user_messages, user_message_count.
  induction convs as [|c convs IH]; cbn [flat_map map]; [reflexivity|].
  rewrite filter_app, length_app, py_sum_cons, IH. reflexivity.
Qed.



End UserMessages.

(** ** Politeness: bounds and tiers *)

Lemma Zpos_of_nat (n : nat) :
  (0 < n)%nat -> Z.pos (Pos.of_nat n) = Z.of_nat n.
Proof.
  intros Hn. destruct n as [|n]; [lia|].
  rewrite <- Pos.of_nat_succ, Zpos_P_of_succ_nat. lia.
Qed.

Section PolitenessBounds.
Context `{Host}.

(** No counter can exceed twice the number of user messages. *)
Lemma polite_fold_bounds (ms : list message) :
  forall pc,
    (please pc <= 2 * polite_total_messages pc)%nat ->
    (thank_you pc <= 2 * polite_total_messages pc)%nat ->
    (help pc <= 2 * polite_total_messages pc)%nat ->
    let pc' := fold_left polite_message ms pc in
    (please pc' <= 2 * polite_total_messages pc')%nat
    /\ (thank_you pc' <= 2 * polite_total_messages pc')%nat
    /\ (help pc' <= 2 * polite_total_messages pc')%nat.
Proof.
  induction ms as [|m ms IH]; intros pc Hp Ht Hh; cbn [fold_left]; [auto|].
  apply IH; unfold polite_message;
    destruct (role_is m (py "user")); cbn [negb]; try assumption;
    match goal with
    | |- context [add_help ?b1 (add_thank_you ?b2 (add_please ?b3
                    (add_help ?b4 (add_thank_you ?b5 (add_please ?b6 _)))))] =>
        destruct b1, b2, b3, b4, b5, b6
    end;
    cbn [add_please add_thank_you add_help please thank_you help
         polite_total_messages]; lia.
Qed.

(** X6. In the politeness record each of the three counts is at most twice
    the number of user messages, the percentage lies between 0 and 600,
    an archive without user messages gets the integer 0, and the
    evaluation is the first text from 50 up, the second from 20 up to 50
    and the third below 20. *)
Theorem politeness_percentage_bounds :
  forall convs : list conversation,
    let r := politeness_score_of convs in
    let v := number_value (Politeness.politeness_percentage r) in
    (Politeness.please_count r <= 2 * Politeness.total_messages r)%nat
    /\ (Politeness.thank_you_count r <= 2 * Politeness.total_messages r)%nat
    /\ (Politeness.help_count r <= 2 * Politeness.total_messages r)%nat
    /\ (0 <= v)%Q /\ (v <= 600)%Q
    /\ (Politeness.total_messages r = 0%nat ->
        Politeness.politeness_percentage r = PyInt 0
        /\ Politeness.total_polite_usage r = 0%nat)
    /\ ((Politeness.evaluation r
         = py "你是个温文尔雅的绅士/淑女，对 AI 非常礼貌"
         /\ (50 <= v)%Q)
        \/ (Politeness.evaluation r = py "你比较有礼貌，偶尔会使用礼貌用语"
            /\ (20 <= v)%Q /\ (v < 50)%Q)
        \/ (Politeness.evaluation r
            = py "你是个雷厉风行的实干家，很少使用礼貌用语"
            /\ (v < 20)%Q)).
Proof.
  intros convs r v. subst v r. unfold politeness_score_of.
  cbn [Politeness.please_count Politeness.thank_you_count
       Politeness.help_count Politeness.total_messages
       Politeness.total_polite_usage Politeness.politeness_percentage
       Politeness.evaluation].
  set (pc := polite_counts_of convs).
  assert (Hb : (please pc <= 2 * polite_total_messages pc)%nat
               /\ (thank_you pc <= 2 * polite_total_messages pc)%nat
               /\ (help pc <= 2 * polite_total_messages pc)%nat).
  { subst pc. unfold polite_counts_of. rewrite polite_counts_flat.
    apply polite_fold_bounds; cbn; lia. }
  destruct Hb as (Hp & Ht & Hh).
  set (pct := if (0 <? polite_total_messages pc)%nat
              then PyFloat (py_round
                              (true_div (please pc + thank_you pc + help pc)
                                        (polite_total_messages pc)
                               * inject_Z 100) 1)
              else PyInt 0).
  assert (Hv : (0 <= number_value pct)%Q /\ (number_value pct <= 600)%Q).
  { subst pct. destruct (Nat.ltb_spec 0 (polite_total_messages pc)) as [Hn|Hn].
    - cbn [number_value].
      apply (py_round_1_between _ 0 600);
        unfold Qle, Qmult, true_div, inject_Z; cbn [Qnum Qden];
        rewrite Pos.mul_1_r, (Zpos_of_nat _ Hn); lia.
    - cbn. unfold Qle. cbn. lia. }
  repeat (split; [first [assumption | apply Hv]|]).
  split.
  - intros Hn. subst pct. rewrite Hn. cbn [Nat.ltb Nat.leb].
    split; [reflexivity | lia].
  - destruct (number_geb pct 50) eqn:E50.
    + left. split; [reflexivity|]. now apply number_geb_spec in E50.
    + apply number_geb_false in E50.
      destruct (number_geb pct 20) eqn:E20.
      * right; left. split; [reflexivity|].
        split; [now apply number_geb_spec in E20 | exact E50].
      * right; right. split; [reflexivity|].
        now apply number_geb_false in E20.
Qed.

End PolitenessBounds.

(** ** Engagement depth: average, maximum and ranking *)

Lemma list_max_positive (l : list nat) :
  list_max (filter (fun t => (0 <? t)%nat) l) = list_max l.
Proof.
  induction l as [|t l IH]; cbn [filter]; [reflexivity|].
  destruct (Nat.ltb_spec 0 t); cbn [list_max fold_right];
    fold (list_max l);
    fold (list_max (filter (fun t => (0 <? t)%nat) l)); rewrite ?IH; lia.
Qed.


Lemma deep_dive_entries (convs : list conversation) :
  forall acc,
    snd (fold_left deep_dive_step convs acc)
    = snd acc ++ map conv_turns_of (classified convs).
Proof.
  unfold classified.
  induction convs as [|c convs IH]; intros acc; cbn [fold_left map filter].
  - now rewrite app_nil_r.
  - rewrite IH. unfold deep_dive_step.
    destruct (0 <? user_message_count c)%nat; cbn [snd map].
    + now rewrite <- app_assoc.
    + reflexivity.
Qed.


(** *** The ranking is a stable sort *)

Lemma insert_by_turns_perm (x : DeepDive.conv_turns)
  (l : list DeepDive.conv_turns) :
  Permutation (x :: l) (insert_by_turns x l).
Proof.
  induction l as [|y l IH]; cbn [insert_by_turns]; [reflexivity|].
  destruct (DeepDive.turns y <? DeepDive.turns x)%nat; [reflexivity|].
  rewrite perm_swap. now apply perm_skip.
Qed.

Lemma sorted_by_turns_snoc (l : list DeepDive.conv_turns)
  (x : DeepDive.conv_turns) :
  sorted_by_turns (l ++ [x]) = insert_by_turns x (sorted_by_turns l).
Proof. unfold sorted_by_turns. now rewrite fold_left_app. Qed.

Lemma sorted_by_turns_perm (l : list DeepDive.conv_turns) :
  Permutation l (sorted_by_turns l).
Proof.
  induction l as [|x l IH] using rev_ind; [reflexivity|].
  rewrite sorted_by_turns_snoc, <- insert_by_turns_perm.
  rewrite Permutation_app_comm. cbn [app]. now apply perm_skip.
Qed.

Lemma insert_by_turns_sorted (x : DeepDive.conv_turns)
  (l : list DeepDive.conv_turns) :
  StronglySorted ranks_before l ->
  StronglySorted ranks_before (insert_by_turns x l).
Proof.
  induction 1 as [|y l Hs IH Hy]; cbn [insert_by_turns].
  - repeat constructor.
  - destruct (Nat.ltb_spec (DeepDive.turns y) (DeepDive.turns x)) as [Hlt|Hge].
    + constructor; [constructor; assumption|].
      constructor; [unfold ranks_before; lia|].
      eapply Forall_impl; [|exact Hy]. unfold ranks_before. intros z Hz. lia.
    + constructor; [exact IH|].
      eapply Permutation_Forall; [apply insert_by_turns_perm|].
      constructor; [exact Hge | exact Hy].
Qed.

Lemma sorted_by_turns_sorted (l : list DeepDive.conv_turns) :
  StronglySorted ranks_before (sorted_by_turns l).
Proof.
  induction l as [|x l IH] using rev_ind; [constructor|].
  rewrite sorted_by_turns_snoc. now apply insert_by_turns_sorted.
Qed.

(** Among entries of equal turns the new one goes last. *)
Lemma insert_by_turns_stable (x : DeepDive.conv_turns)
  (l : list DeepDive.conv_turns) (k : nat) :
  StronglySorted ranks_before l ->
  filter (fun e => (DeepDive.turns e =? k)%nat) (insert_by_turns x l)
  = filter (fun e => (DeepDive.turns e =? k)%nat) (l ++ [x]).
Proof.
  induction 1 as [|y l Hs IH Hy]; cbn [insert_by_turns app]; [reflexivity|].
  destruct (Nat.ltb_spec (DeepDive.turns y) (DeepDive.turns x)) as [Hlt|Hge].
  - cbn [filter]. rewrite filter_app. cbn [filter].
    destruct (Nat.eqb_spec (DeepDive.turns x) k) as [Hx|Hx].
    + assert (Hnone : filter (fun e => (DeepDive.turns e =? k)%nat) l = []).
      { clear - Hy Hlt Hx. induction Hy as [|z l Hz _ IHl]; [reflexivity|].
        cbn [filter]. unfold ranks_before in Hz.
        destruct (Nat.eqb_spec (DeepDive.turns z) k); [lia | exact IHl]. }
      rewrite Hnone.
      destruct (Nat.eqb_spec (DeepDive.turns y) k); [lia | reflexivity].
    + now rewrite app_nil_r.
  - cbn [filter]. rewrite IH. reflexivity.
Qed.

Lemma sorted_by_turns_stable (l : list DeepDive.conv_turns) (k : nat) :
  filter (fun e => (DeepDive.turns e =? k)%nat) (sorted_by_turns l)
  = filter (fun e => (DeepDive.turns e =? k)%nat) l.
Proof.
  induction l as [|x l IH] using rev_ind; [reflexivity|].
  rewrite sorted_by_turns_snoc.
  rewrite insert_by_turns_stable by apply sorted_by_turns_sorted.
  now rewrite !filter_app, IH.
Qed.

(** X8. The ranking of the engagement-depth pass is the first five entries
    of a stable sort of the classified conversations by decreasing turn
    count: a rearrangement of their entries, in non-increasing order of
    turns, entries of equal turns in archive order. *)
Theorem top_deep_conversations_ranked `{Host} :
  forall convs : list conversation,
    let d := deep_dive_index_of convs in
    let entries := map conv_turns_of (classified convs) in
    exists ranking : list DeepDive.conv_turns,
      Permutation entries ranking
      /\ StronglySorted ranks_before ranking
      /\ (forall k : nat,
             filter (fun e => (DeepDive.turns e =? k)%nat) ranking
             = filter (fun e => (DeepDive.turns e =? k)%nat) entries)
      /\ DeepDive.top_deep_conversations d = firstn 5 ranking
      /\ List.length (DeepDive.top_deep_conversations d)
         = Nat.min 5 (DeepDive.total_conversations d).
Proof.
  intros convs d entries. subst d. unfold deep_dive_index_of.
  cbn [DeepDive.top_deep_conversations DeepDive.total_conversations].
  rewrite deep_dive_turn_counts, deep_dive_entries. cbn [fst snd app].
  fold entries. exists (sorted_by_turns entries).
  split; [apply sorted_by_turns_perm|].
  split; [apply sorted_by_turns_sorted|].
  split; [intros k; apply sorted_by_turns_stable|].
  split; [reflexivity|].
  rewrite length_firstn.
  rewrite <- (Permutation_length (sorted_by_turns_perm entries)).
  subst entries. rewrite length_map. unfold classified.
  f_equal. clear. induction convs as [|c convs IH]; [reflexivity|].
  cbn [map filter].
  destruct (0 <? user_message_count c)%nat; cbn [List.length]; now rewrite IH.
Qed.

(** *** The marathon session heads the ranking *)

Lemma insert_by_turns_head (x : DeepDive.conv_turns)
  (l : list DeepDive.conv_turns) :
  hd_error (insert_by_turns x l)
  = match hd_error l with
    | None => Some x
    | Some y =>
        if (DeepDive.turns y <? DeepDive.turns x)%nat then Some x else Some y
    end.
Proof.
  destruct l as [|y l]; cbn [insert_by_turns hd_error]; [reflexivity|].
  destruct (DeepDive.turns y <? DeepDive.turns x)%nat; reflexivity.
Qed.

Lemma marathon_and_ranking (convs : list conversation) :
  let st := fold_left marathon_step convs (O, None) in
  let ranking := sorted_by_turns (map conv_turns_of (classified convs)) in
  match snd st with
  | None => ranking = [] /\ fst st = O
  | Some c =>
      hd_error ranking = Some (conv_turns_of c)
      /\ fst st = user_message_count c
  end.
Proof.
  induction convs as [|x l IH] using rev_ind; cbn zeta.
  - cbn. auto.
  - cbn zeta in IH. rewrite fold_left_app. cbn [fold_left].
    unfold classified in *. rewrite filter_app, map_app. cbn [filter].
    set (st := fold_left marathon_step l (O, None)) in *.
    set (ranking := sorted_by_turns
                      (map conv_turns_of
                           (filter (fun c => (0 <? user_message_count c)%nat)
                                   l))) in *.
    unfold marathon_step.
    destruct (snd st) as [c|] eqn:Es.
    + destruct IH as [Hhd Hfst]. rewrite Hfst.
      destruct (Nat.ltb_spec 0 (user_message_count x)) as [Hx|Hx];
        cbn [map].
      * rewrite sorted_by_turns_snoc. fold ranking.
        rewrite insert_by_turns_head, Hhd.
        change (DeepDive.turns (conv_turns_of c))
          with (user_message_count c).
        change (DeepDive.turns (conv_turns_of x))
          with (user_message_count x).
        destruct (user_message_count c <? user_message_count x)%nat;
          cbn [fst snd]; [auto | rewrite Es; auto].
      * rewrite app_nil_r. fold ranking.
        destruct (Nat.ltb_spec (user_message_count c) (user_message_count x));
          [lia|]. rewrite Es. auto.
    + destruct IH as [Hnil Hfst]. rewrite Hfst.
      destruct (Nat.ltb_spec 0 (user_message_count x)) as [Hx|Hx];
        cbn [map fst snd].
      * rewrite sorted_by_turns_snoc. fold ranking. rewrite Hnil.
        cbn. auto.
      * rewrite app_nil_r. fold ranking. rewrite Es. auto.
Qed.

(** X9. The marathon pass and the engagement-depth pass agree: the
    conversation reported as the marathon session is the first entry of
    the ranking (same conversation id, same turns), and its turn count is
    the maximum of the engagement-depth record. *)
Theorem marathon_heads_ranking `{Host} :
  forall (convs : list conversation) (m : Marathon.t),
    marathon_session_of convs = Ok (Some m) ->
    let d := deep_dive_index_of convs in
    Marathon.turns m = DeepDive.max_turns d
    /\ exists (e : DeepDive.conv_turns) (rest : list DeepDive.conv_turns),
         DeepDive.top_deep_conversations d = e :: rest
         /\ DeepDive.turns e = Marathon.turns m
         /\ DeepDive.conversation_id e = Marathon.conversation_id m.
Proof.
  intros convs m Hm d. subst d. unfold marathon_session_of in Hm.
  pose proof (marathon_and_ranking convs) as Hrank. cbn zeta in Hrank.
  destruct (marathon_loop convs)
    as [(Hn & _) | (i & c & Hi & Hs & Hfst & Hpos & _ & Hle)].
  { rewrite Hn in Hm. discriminate. }
  rewrite Hs in Hm, Hrank. rewrite Hfst in Hm.
  destruct Hrank as [Hhd _].
  destruct (marathon_date c) as [date_str|]; cbn [bind] in Hm;
    [|discriminate].
  injection Hm as <-. unfold deep_dive_index_of.
  cbn [DeepDive.max_turns DeepDive.top_deep_conversations Marathon.turns
       Marathon.conversation_id marathon_entry].
  rewrite deep_dive_turn_counts, deep_dive_entries. cbn [fst snd app].
  split.
  - rewrite list_max_positive. symmetry. apply list_max_attained.
    + apply in_map. eapply nth_error_In. exact Hi.
    + apply Forall_map. exact Hle.
  - destruct (sorted_by_turns (map conv_turns_of (classified convs)))
      as [|e rest]; [discriminate|].
    cbn [hd_error] in Hhd. injection Hhd as ->.
    exists (conv_turns_of c), (firstn 4 rest).
    split; [reflexivity|]. split; reflexivity.
Qed.

(** ** Counters as histograms *)

Section CounterLaws.
Context {K : Type} (eqb : K -> K -> bool).
Hypothesis eqb_spec : forall a b, eqb a b = true <-> a = b.

Lemma eqb_same (k : K) : eqb k k = true.
Proof. apply eqb_spec. reflexivity. Qed.

Lemma counter_get_add_key (d : list (K * nat)) (k : K) (n : nat) (k' : K) :
  counter_get eqb (counter_add eqb d k n) k'
  = (counter_get eqb d k' + (if eqb k k' then n else 0))%nat.
Proof.
  induction d as [|[a v] d IH]; cbn [counter_add counter_get].
  - destruct (eqb k k'); reflexivity.
  - destruct (eqb a k) eqn:E1; cbn [counter_get].
    + apply eqb_spec in E1. subst a. destruct (eqb k k'); lia.
    + destruct (eqb a k') eqn:E2; [|apply IH].
      apply eqb_spec in E2. subst a.
      destruct (eqb k k') eqn:E3; [|lia].
      apply eqb_spec in E3. subst k'. rewrite eqb_same in E1. discriminate.
Qed.

Lemma counter_of_keys (ks : list K) :
  forall d k,
    counter_get eqb (fold_left (fun d k => counter_add eqb d k 1) ks d) k
    = (counter_get eqb d k + occurrences eqb k ks)%nat.
Proof.
  unfold occurrences.
  induction ks as [|a ks IH]; intros d k; cbn [fold_left filter].
  - cbn [List.length]. lia.
  - rewrite IH, counter_get_add_key.
    destruct (eqb a k); cbn [List.length]; lia.
Qed.

Lemma counter_add_in_keys (d : list (K * nat)) (k : K) (n : nat) (x : K) :
  In x (map fst (counter_add eqb d k n)) <-> x = k \/ In x (map fst d).
Proof.
  induction d as [|[a v] d IH]; cbn [counter_add map fst In].
  - intuition.
  - destruct (eqb a k) eqn:E; cbn [map fst In].
    + apply eqb_spec in E. subst a. intuition.
    + rewrite IH. intuition.
Qed.

Lemma counter_add_NoDup (d : list (K * nat)) (k : K) (n : nat) :
  NoDup (map fst d) -> NoDup (map fst (counter_add eqb d k n)).
Proof.
  induction d as [|[a v] d IH]; cbn [counter_add map fst]; intros Hnd.
  - constructor; [intros []|constructor].
  - destruct (eqb a k) eqn:E; cbn [map fst]; [exact Hnd|].
    inversion Hnd as [|? ? Hout Hrest]; subst.
    constructor; [|auto].
    intros Hin. apply counter_add_in_keys in Hin as [-> | Hin]; [|auto].
    rewrite eqb_same in E. discriminate.
Qed.

Lemma counter_add_entries (P : K -> Prop) (d : list (K * nat)) (k : K)
  (n : nat) :
  P k -> (1 <= n)%nat ->
  Forall (fun kn => P (fst kn) /\ (1 <= snd kn)%nat) d ->
  Forall (fun kn => P (fst kn) /\ (1 <= snd kn)%nat) (counter_add eqb d k n).
Proof.
  intros Hk Hn.
  induction d as [|[a v] d IH]; cbn [counter_add]; intros Hd.
  - constructor; [cbn; auto|constructor].
  - inversion Hd as [|? ? [Ha Hv] Hrest]; subst. cbn [fst snd] in *.
    destruct (eqb a k); constructor; cbn [fst snd]; auto.
    split; [assumption|lia].
Qed.

Lemma counter_get_in (d : list (K * nat)) (k : K) (n : nat) :
  NoDup (map fst d) -> In (k, n) d -> counter_get eqb d k = n.
Proof.
  induction d as [|[a v] d IH]; cbn [map fst In counter_get]; intros Hnd Hin;
    [contradiction|].
  inversion Hnd as [|? ? Hout Hrest]; subst.
  destruct Hin as [[= -> ->] | Hin].
  - rewrite eqb_same. reflexivity.
  - destruct (eqb a k) eqn:E; [|auto].
    apply eqb_spec in E. subst a. exfalso. apply Hout.
    change k with (fst (k, n)). apply in_map. exact Hin.
Qed.

Lemma counter_get_keys (d : list (K * nat)) (k : K) :
  (1 <= counter_get eqb d k)%nat -> In k (map fst d).
Proof.
  induction d as [|[a v] d IH]; cbn [counter_get map fst In]; [lia|].
  destruct (eqb a k) eqn:E; [|auto].
  apply eqb_spec in E. auto.
Qed.

Lemma marginal_add (p : K -> bool) (d : list (K * nat)) (k : K) (n : nat) :
  marginal p (counter_add eqb d k n)
  = (marginal p d + (if p k then n else 0))%nat.
Proof.
  unfold marginal.
  induction d as [|[a v] d IH]; cbn [counter_add filter map fst snd].
  - destruct (p k); cbn [map snd]; rewrite ?py_sum_cons;
      change (py_sum []) with O; lia.
  - destruct (eqb a k) eqn:E; cbn [filter fst].
    + apply eqb_spec in E. subst a.
      destruct (p k); cbn [map snd]; rewrite ?py_sum_cons; lia.
    + destruct (p a); cbn [map snd]; rewrite ?py_sum_cons, IH; lia.
Qed.

Lemma marginal_of_keys (p : K -> bool) (ks : list K) :
  forall d,
    marginal p (fold_left (fun d k => counter_add eqb d k 1) ks d)
    = (marginal p d + List.length (filter p ks))%nat.
Proof.
  induction ks as [|a ks IH]; intros d; cbn [fold_left filter].
  - cbn [List.length]. lia.
  - rewrite IH, marginal_add. destruct (p a); cbn [List.length]; lia.
Qed.

Lemma counter_of_keys_NoDup (ks : list K) :
  forall d,
    NoDup (map fst d) ->
    NoDup (map fst (fold_left (fun d k => counter_add eqb d k 1) ks d)).
Proof.
  induction ks as [|a ks IH]; intros d Hd; cbn [fold_left]; [exact Hd|].
  apply IH, counter_add_NoDup, Hd.
Qed.

Lemma counter_of_keys_entries (P : K -> Prop) (ks : list K) :
  Forall P ks ->
  forall d,
    Forall (fun kn => P (fst kn) /\ (1 <= snd kn)%nat) d ->
    Forall (fun kn => P (fst kn) /\ (1 <= snd kn)%nat)
           (fold_left (fun d k => counter_add eqb d k 1) ks d).
Proof.
  induction 1 as [|a ks Ha Hks IH]; intros d Hd; cbn [fold_left];
    [exact Hd|].
  apply IH, counter_add_entries; auto.
Qed.

End CounterLaws.

(** The first item of greatest count is an item, and no count exceeds
    its count. *)
Lemma max_item_greatest {K : Type} (d : list (K * nat)) (k : K) (n : nat) :
  max_item d = Some (k, n) ->
  In (k, n) d /\ Forall (fun kn => (snd kn <= n)%nat) d.
Proof.
  unfold max_item. destruct d as [|x r]; [discriminate|].
  intros [= Hb].
  assert (Hfold : forall r x,
             let b := fold_left (fun best y : K * nat =>
                                   if (snd best <? snd y)%nat then y else best)
                                r x in
             (b = x \/ In b r) /\ (snd x <= snd b)%nat
             /\ Forall (fun y => (snd y <= snd b)%nat) r).
  { clear. induction r as [|a r IH]; intros x; cbn [fold_left].
    - cbn. auto.
    - specialize (IH (if (snd x <? snd a)%nat then a else x)).
      cbn zeta in IH. destruct IH as (Hin & Hle & Hall).
      destruct (Nat.ltb_spec (snd x) (snd a)).
      + split; [|split].
        * right. destruct Hin as [-> | Hin]; [left; reflexivity|right; auto].
        * lia.
        * constructor; assumption.
      + split; [|split].
        * destruct Hin as [-> | Hin]; [left; reflexivity|right; right; auto].
        * exact Hle.
        * constructor; [lia|assumption]. }
  destruct (Hfold r x) as (Hin & Hle & Hall). cbn zeta in *.
  rewrite Hb in *. cbn [snd] in *. split.
  - destruct Hin as [<- | Hin]; [left; reflexivity|right; exact Hin].
  - constructor; assumption.
Qed.

Lemma date_eqb_eq (a b : Z * Z * Z) : date_eqb a b = true <-> a = b.
Proof.
  destruct a as [[y1 m1] d1], b as [[y2 m2] d2]. unfold date_eqb.
  rewrite !andb_true_iff, !Z.eqb_eq. split.
  - intros [[-> ->] ->]. reflexivity.
  - intros [= -> -> ->]. auto.
Qed.

Lemma cell_eqb_eq (a b : Z * Z) : cell_eqb a b = true <-> a = b.
Proof.
  destruct a as [h1 w1], b as [h2 w2]. unfold cell_eqb. cbn [fst snd].
  rewrite andb_true_iff, !Z.eqb_eq. split.
  - intros [-> ->]. reflexivity.
  - intros [= -> ->]. auto.
Qed.

Lemma occurrences_map {A K : Type} (eqb : K -> K -> bool) (f : A -> K)
  (k : K) (l : list A) :
  occurrences eqb k (map f l)
  = List.length (filter (fun a => eqb (f a) k) l).
Proof.
  unfold occurrences.
  induction l as [|a l IH]; cbn [map filter]; [reflexivity|].
  destruct (eqb (f a) k); cbn [List.length]; rewrite IH; reflexivity.
Qed.

Lemma occurrences_in {K : Type} (eqb : K -> K -> bool) (k : K)
  (ks : list K) :
  (forall a b, eqb a b = true <-> a = b) ->
  (1 <= occurrences eqb k ks)%nat <-> In k ks.
Proof.
  intros Hspec. unfold occurrences.
  induction ks as [|a ks IH]; cbn [filter In]; [cbn; lia|].
  destruct (eqb a k) eqn:E; cbn [List.length].
  - apply Hspec in E. split; [auto|lia].
  - rewrite IH. split; [auto|].
    intros [-> | Hin]; [|exact Hin].
    rewrite (proj2 (Hspec k k) eq_refl) in E. discriminate.
Qed.

(** Regrouping the cells by a coordinate files under each value the total
    of the cells that have it. *)
Lemma regroup_get {K : Type} (key : K -> Z) (cells : list (K * nat)) (z : Z) :
  forall d0,
    counter_get Z.eqb
      (fold_left (fun d cell => counter_add Z.eqb d (key (fst cell))
                                            (snd cell)) cells d0) z
    = (counter_get Z.eqb d0 z + marginal (fun k => Z.eqb (key k) z) cells)%nat.
Proof.
  unfold marginal.
  induction cells as [|[k n] cells IH]; intros d0; cbn [fold_left filter].
  - cbn. lia.
  - rewrite IH, (counter_get_add_key Z.eqb Z.eqb_eq). cbn [fst snd].
    destruct (key k =? z); cbn [map snd]; rewrite ?py_sum_cons; lia.
Qed.

Lemma regroup_entries {K : Type} (key : K -> Z) (P : Z -> Prop)
  (cells : list (K * nat)) :
  Forall (fun cell => P (key (fst cell)) /\ (1 <= snd cell)%nat) cells ->
  forall d0,
    NoDup (map fst d0) ->
    Forall (fun e => P (fst e) /\ (1 <= snd e)%nat) d0 ->
    let d := fold_left (fun d cell => counter_add Z.eqb d (key (fst cell))
                                                  (snd cell)) cells d0 in
    NoDup (map fst d) /\ Forall (fun e => P (fst e) /\ (1 <= snd e)%nat) d.
Proof.
  induction 1 as [|[k n] cells [Hk Hn] Hcells IH]; intros d0 Hnd Hd;
    cbn [fold_left]; [auto|].
  cbn [fst snd] in *. apply IH.
  - apply (counter_add_NoDup Z.eqb Z.eqb_eq), Hnd.
  - apply (counter_add_entries Z.eqb P); assumption.
Qed.

Section Histograms.
Context `{Host}.

Lemma fromtimestamp_hour (t : Z) (dt : datetime) :
  fromtimestamp t = Ok dt -> 0 <= hour dt < 24.
Proof.
  unfold fromtimestamp.
  destruct (civil_from_days ((t + utcoffset t) / 86400)) as [[y m] d].
  destruct ((1 <=? y) && (y <=? 9999)); [|discriminate].
  intros [= <-]. cbn [hour].
  pose proof (Z.mod_pos_bound (t + utcoffset t) 86400 ltac:(lia)) as Hs.
  set (s := (t + utcoffset t) mod 86400) in *. clearbody s.
  Z.div_mod_to_equations. lia.
Qed.

Lemma local_times_hours (convs : list conversation) :
  forall dts,
    local_times convs = Ok dts -> Forall (fun dt => 0 <= hour dt < 24) dts.
Proof.
  induction convs as [|c convs IH]; intros dts; cbn [local_times].
  - intros [= <-]. constructor.
  - destruct (has_timestamp c); [|apply IH].
    destruct (get (create_time c)) as [t|]; cbn [fromtimestamp_value bind];
      [|discriminate].
    destruct (fromtimestamp t) as [dt|] eqn:Et; cbn [bind]; [|discriminate].
    destruct (local_times convs) as [rest|]; cbn [bind]; [|discriminate].
    intros [= <-]. constructor; [|apply IH; reflexivity].
    apply (fromtimestamp_hour _ _ Et).
Qed.

Lemma local_times_length (convs : list conversation) :
  forall dts,
    local_times convs = Ok dts ->
    List.length dts = List.length (filter has_timestamp convs).
Proof.
  induction convs as [|c convs IH]; intros dts; cbn [local_times filter].
  - intros [= <-]. reflexivity.
  - destruct (has_timestamp c); [|apply IH].
    destruct (fromtimestamp_value (get (create_time c))) as [dt|];
      cbn [bind]; [|discriminate].
    destruct (local_times convs) as [rest|]; cbn [bind]; [|discriminate].
    intros [= <-]. cbn [List.length]. f_equal. apply IH. reflexivity.
Qed.

Lemma stats_messages_times (ms : list message) :
  forall st,
    let st' := fold_left stats_message ms st in
    timestamps st' = timestamps st
    /\ date_counts st' = date_counts st
    /\ hour_counts st' = hour_counts st.
Proof.
  induction ms as [|m ms IH]; intros st; cbn [fold_left]; [auto|].
  cbn zeta in *. destruct (IH (stats_message st m)) as (Ht & Hd & Hh).
  rewrite Ht, Hd, Hh. unfold stats_message.
  destruct (role_is m (py "user")); [cbn; auto|].
  destruct (role_is m (py "assistant")); cbn; auto.
Qed.

(** The loop of the basic statistics reads the local times in archive
    order, and fails as their conversion fails. *)
Lemma stats_loop_times (convs : list conversation) :
  forall st,
    match foldM stats_conversation st convs, local_times convs with
    | Ok st', Ok dts =>
        timestamps st' = timestamps st ++ dts
        /\ date_counts st'
           = fold_left (fun d k => counter_add date_eqb d k 1)
                       (map date dts) (date_counts st)
        /\ hour_counts st'
           = fold_left (fun d k => counter_add Z.eqb d k 1)
                       (map hour dts) (hour_counts st)
    | Raise e, Raise e' => e = e'
    | _, _ => False
    end.
Proof.
  induction convs as [|c convs IH]; intros st; cbn [foldM local_times].
  - cbn [map fold_left]. rewrite app_nil_r. auto.
  - unfold stats_conversation at 1, stats_time.
    destruct (has_timestamp c).
    + destruct (fromtimestamp_value (get (create_time c))) as [dt|e];
        cbn [bind]; [|reflexivity].
      match goal with
      | |- context [foldM stats_conversation ?s convs] =>
          specialize (IH s);
          destruct (stats_messages_times (visited c)
                      {| total_user_chars := total_user_chars st;
                         total_assistant_chars := total_assistant_chars st;
                         total_messages := total_messages st;
                         timestamps := timestamps st ++ [dt];
                         date_counts :=
                           counter_add date_eqb (date_counts st) (date dt) 1;
                         hour_counts :=
                           counter_add Z.eqb (hour_counts st) (hour dt) 1;
                         weekday_counts :=
                           counter_add Z.eqb (weekday_counts st)
                                       (weekday dt) 1 |})
            as (Ht & Hd & Hh);
          cbn zeta in Ht, Hd, Hh;
          destruct (foldM stats_conversation s convs) as [st'|e]
      end;
        destruct (local_times convs) as [dts|e']; cbn [bind];
        try exact IH.
      destruct IH as (It & Id & Ih).
      rewrite Ht in It. rewrite Hd in Id. rewrite Hh in Ih.
      cbn [timestamps date_counts hour_counts] in It, Id, Ih.
      cbn [map fold_left]. rewrite It, Id, Ih, <- app_assoc. auto.
    + cbn [bind].
      specialize (IH (fold_left stats_message (visited c) st)).
      destruct (stats_messages_times (visited c) st) as (Ht & Hd & Hh).
      cbn zeta in Ht, Hd, Hh.
      destruct (foldM stats_conversation
                  (fold_left stats_message (visited c) st) convs) as [st'|e];
        destruct (local_times convs) as [dts|e']; try exact IH.
      rewrite Ht, Hd, Hh in IH. exact IH.
Qed.

(** The loop of the heatmap pass files the same local times under their
    cells. *)
Lemma heatmap_loop_cells (convs : list conversation) :
  forall data,
    match foldM heatmap_step data convs, local_times convs with
    | Ok data', Ok dts =>
        data' = fold_left (fun d k => counter_add cell_eqb d k 1)
                          (map cell_of dts) data
    | Raise e, Raise e' => e = e'
    | _, _ => False
    end.
Proof.
  induction convs as [|c convs IH]; intros data; cbn [foldM local_times].
  - reflexivity.
  - unfold heatmap_step at 1. destruct (has_timestamp c); cbn [negb bind].
    + destruct (fromtimestamp_value (get (create_time c))) as [dt|e];
        cbn [bind]; [|reflexivity].
      specialize (IH (counter_add cell_eqb data (hour dt, weekday dt) 1)).
      destruct (foldM heatmap_step
                  (counter_add cell_eqb data (hour dt, weekday dt) 1) convs)
        as [data'|e];
        destruct (local_times convs) as [dts|e']; cbn [bind]; exact IH.
    + apply IH.
Qed.

Lemma heatmap_cells (convs : list conversation) (h : Heatmap.t) :
  brain_activity_heatmap_of convs = Ok h ->
  exists dts,
    local_times convs = Ok dts
    /\ Heatmap.heatmap_data h
       = fold_left (fun d k => counter_add cell_eqb d k 1)
                   (map cell_of dts) []
    /\ Heatmap.hour_distribution h
       = fold_left (fun d cell => counter_add Z.eqb d (fst (fst cell))
                                              (snd cell))
                   (Heatmap.heatmap_data h) []
    /\ Heatmap.weekday_distribution h
       = map (fun i =>
                (nth i weekday_names [],
                 counter_get Z.eqb
                   (fold_left (fun d cell =>
                                 counter_add Z.eqb d (snd (fst cell))
                                             (snd cell))
                              (Heatmap.heatmap_data h) [])
                   (Z.of_nat i)))
             (seq 0 7).
Proof.
  unfold brain_activity_heatmap_of.
  pose proof (heatmap_loop_cells convs []) as Hl.
  destruct (foldM heatmap_step [] convs) as [data|e]; cbn [bind];
    [|discriminate].
  destruct (local_times convs) as [dts|e']; [|contradiction].
  intros [= <-]. exists dts.
  cbn [Heatmap.heatmap_data Heatmap.hour_distribution
       Heatmap.weekday_distribution].
  rewrite <- Hl. auto.
Qed.

(** X10. The heatmap is the histogram of the local times of the
    conversations that have a timestamp: each cell counts the conversations
    of its hour and weekday, the per-hour table those of its hour, and the
    weekday table lists Monday to Sunday with the conversations of each
    day. *)
Theorem heatmap_is_histogram :
  forall (convs : list conversation) (h : Heatmap.t),
    brain_activity_heatmap_of convs = Ok h ->
    exists dts : list datetime,
      local_times convs = Ok dts
      /\ List.length dts = List.length (filter has_timestamp convs)
      /\ (forall hh ww,
             counter_get cell_eqb (Heatmap.heatmap_data h) (hh, ww)
             = occurrences cell_eqb (hh, ww) (map cell_of dts))
      /\ (forall hh,
             counter_get Z.eqb (Heatmap.hour_distribution h) hh
             = occurrences Z.eqb hh (map hour dts))
      /\ Heatmap.weekday_distribution h
         = map (fun i => (nth i weekday_names [],
                          occurrences Z.eqb (Z.of_nat i) (map weekday dts)))
               (seq 0 7).
Proof.
  intros convs h Hh.
  destruct (heatmap_cells convs h Hh) as (dts & Hl & Hd & Hhd & Hwd).
  exists dts. split; [exact Hl|].
  split; [apply local_times_length, Hl|].
  split; [|split].
  - intros hh ww. rewrite Hd, (counter_of_keys cell_eqb cell_eqb_eq).
    reflexivity.
  - intros hh. rewrite Hhd, (regroup_get fst), Hd.
    rewrite (marginal_of_keys cell_eqb cell_eqb_eq).
    unfold marginal. cbn [filter map py_sum fold_left counter_get Nat.add].
    rewrite occurrences_map.
    clear. induction dts as [|dt dts IH]; cbn [map filter]; [reflexivity|].
    cbn [cell_of fst]. destruct (hour dt =? hh); cbn [List.length];
      rewrite IH; reflexivity.
  - rewrite Hwd. apply map_ext. intros i. f_equal.
    rewrite (regroup_get snd), Hd.
    rewrite (marginal_of_keys cell_eqb cell_eqb_eq).
    unfold marginal. cbn [filter map py_sum fold_left counter_get Nat.add].
    rewrite occurrences_map.
    clear. induction dts as [|dt dts IH]; cbn [map filter]; [reflexivity|].
    cbn [cell_of snd]. destruct (weekday dt =? Z.of_nat i);
      cbn [List.length]; rewrite IH; reflexivity.
Qed.

(** X11. The heatmap is sparse and well formed: no cell is listed twice,
    every listed cell has an hour from 0 to 23, a weekday from 0 to 6 and
    a count of at least one; the per-hour table lists no hour twice, only
    hours from 0 to 23, and only counts of at least one. *)
Theorem heatmap_cells_well_formed :
  forall (convs : list conversation) (h : Heatmap.t),
    brain_activity_heatmap_of convs = Ok h ->
    NoDup (map fst (Heatmap.heatmap_data h))
    /\ Forall (fun cell => (0 <= fst (fst cell) < 24
                            /\ 0 <= snd (fst cell) < 7)
                           /\ (1 <= snd cell)%nat)
              (Heatmap.heatmap_data h)
    /\ NoDup (map fst (Heatmap.hour_distribution h))
    /\ Forall (fun e => 0 <= fst e < 24 /\ (1 <= snd e)%nat)
              (Heatmap.hour_distribution h).
Proof.
  intros convs h Hh.
  destruct (heatmap_cells convs h Hh) as (dts & Hl & Hd & Hhd & _).
  assert (Hcells :
            Forall (fun cell => (0 <= fst (fst cell) < 24
                                 /\ 0 <= snd (fst cell) < 7)
                                /\ (1 <= snd cell)%nat)
                   (Heatmap.heatmap_data h)).
  { rewrite Hd.
    apply (counter_of_keys_entries cell_eqb
             (fun k => 0 <= fst k < 24 /\ 0 <= snd k < 7));
      [|constructor].
    apply local_times_hours in Hl.
    clear -Hl. induction Hl as [|dt dts Hdt _ IH]; cbn [map];
      constructor; [|exact IH].
    cbn [cell_of fst snd]. split; [exact Hdt|apply weekday_range]. }
  split; [|split; [exact Hcells|]].
  - rewrite Hd. apply (counter_of_keys_NoDup cell_eqb cell_eqb_eq).
    constructor.
  - rewrite Hhd.
    apply (regroup_entries fst (fun z => 0 <= z < 24));
      [|constructor|constructor].
    eapply Forall_impl; [|exact Hcells].
    cbn beta. intros cell [[Hhr _] Hn]. auto.
Qed.

Lemma summary_time_fields (convs : list conversation) (s : SummaryStats.t) :
  summary_stats_of convs = Ok s ->
  exists dts,
    local_times convs = Ok dts
    /\ SummaryStats.total_hours_span s
       = round_number (total_hours_of dts) 1
    /\ SummaryStats.most_active_date s
       = match max_item (fold_left (fun d k => counter_add date_eqb d k 1)
                                   (map date dts) []) with
         | Some (d, n) => (Some (isoformat d), n)
         | None => (None, O)
         end
    /\ SummaryStats.most_active_hour s
       = match max_item (fold_left (fun d k => counter_add Z.eqb d k 1)
                                   (map hour dts) []) with
         | Some (hh, n) => (Some hh, n)
         | None => (None, O)
         end.
Proof.
  unfold summary_stats_of.
  pose proof (stats_loop_times convs stats_init) as Hl.
  destruct (foldM stats_conversation stats_init convs) as [st|e];
    cbn [bind]; [|discriminate].
  destruct (local_times convs) as [dts|e']; [|contradiction].
  destruct Hl as (Ht & Hd & Hh). cbn [stats_init timestamps date_counts
                                       hour_counts app] in Ht, Hd, Hh.
  intros [= <-]. exists dts.
  cbn [SummaryStats.total_hours_span SummaryStats.most_active_date
       SummaryStats.most_active_hour].
  rewrite Ht, Hd, Hh. auto.
Qed.

(** The greatest entry of a histogram of keys. *)
Lemma max_item_of_keys {K : Type} (eqb : K -> K -> bool) (ks : list K) :
  (forall a b, eqb a b = true <-> a = b) ->
  match max_item (fold_left (fun d k => counter_add eqb d k 1) ks []) with
  | None => ks = []
  | Some (k, n) =>
      In k ks /\ n = occurrences eqb k ks
      /\ forall k', (occurrences eqb k' ks <= n)%nat
  end.
Proof.
  intros Hspec.
  set (d := fold_left (fun d k => counter_add eqb d k 1) ks []).
  assert (Hnd : NoDup (map fst d))
    by (apply (counter_of_keys_NoDup eqb Hspec); constructor).
  assert (Hget : forall k, counter_get eqb d k = occurrences eqb k ks)
    by (intros k; unfold d; rewrite (counter_of_keys eqb Hspec); reflexivity).
  destruct (max_item d) as [[k n]|] eqn:Em.
  - apply max_item_greatest in Em as [Hin Hall].
    pose proof (counter_get_in eqb Hspec d k n Hnd Hin) as Hk.
    rewrite Hget in Hk.
    assert (Hpos : Forall (fun kn : K * nat => True /\ (1 <= snd kn)%nat) d).
    { unfold d. apply (counter_of_keys_entries eqb (fun _ => True));
        [|constructor].
      clear. induction ks; constructor; auto. }
    split; [|split; [symmetry; exact Hk|]].
    + apply (occurrences_in eqb k ks Hspec). rewrite Hk.
      rewrite Forall_forall in Hpos. apply (Hpos _ Hin).
    + intros k'. rewrite <- Hget.
      destruct (counter_get eqb d k') as [|v] eqn:Ev; [lia|].
      assert (Hin' : In k' (map fst d))
        by (apply (counter_get_keys eqb Hspec); lia).
      apply in_map_iff in Hin' as ([k2 n2] & Hk2 & Hin2).
      cbn [fst] in Hk2. subst k2.
      rewrite (counter_get_in eqb Hspec d k' n2 Hnd Hin2) in Ev.
      rewrite Forall_forall in Hall. specialize (Hall _ Hin2).
      cbn [snd] in Hall. lia.
  - unfold max_item in Em. destruct d as [|x r] eqn:Ed; [|discriminate].
    destruct ks as [|a ks]; [reflexivity|].
    exfalso.
    pose proof (Hget a) as Ha. cbn [counter_get] in Ha.
    assert (1 <= occurrences eqb a (a :: ks))%nat
      by (apply (occurrences_in eqb a (a :: ks) Hspec); left; reflexivity).
    lia.
Qed.

(** X12. The most active hour and the most active date of the basic
    statistics are modes of the local times: with no timestamp both are
    reported as absent with count zero; otherwise the reported hour (date)
    is the hour (date) of some conversation, its count is the number of
    conversations at that hour (on that date), and no hour (date) has
    more. *)
Theorem most_active_is_a_mode :
  forall (convs : list conversation) (s : SummaryStats.t),
    summary_stats_of convs = Ok s ->
    exists dts : list datetime,
      local_times convs = Ok dts
      /\ match dts with
         | [] =>
             SummaryStats.most_active_hour s = (None, O)
             /\ SummaryStats.most_active_date s = (None, O)
         | _ :: _ =>
             exists (hh : Z) (d : Z * Z * Z),
               SummaryStats.most_active_hour s
               = (Some hh, occurrences Z.eqb hh (map hour dts))
               /\ In hh (map hour dts)
               /\ (forall h', (occurrences Z.eqb h' (map hour dts)
                               <= occurrences Z.eqb hh (map hour dts))%nat)
               /\ SummaryStats.most_active_date s
                  = (Some (isoformat d),
                     occurrences date_eqb d (map date dts))
               /\ In d (map date dts)
               /\ (forall d', (occurrences date_eqb d' (map date dts)
                               <= occurrences date_eqb d (map date dts))%nat)
         end.
Proof.
  intros convs s Hs.
  destruct (summary_time_fields convs s Hs) as (dts & Hl & _ & Hd & Hh).
  exists dts. split; [exact Hl|].
  pose proof (max_item_of_keys Z.eqb (map hour dts) Z.eqb_eq) as Mh.
  pose proof (max_item_of_keys date_eqb (map date dts) date_eqb_eq) as Md.
  destruct dts as [|dt dts].
  - rewrite Hh, Hd. cbn. auto.
  - destruct (max_item (fold_left (fun d k => counter_add Z.eqb d k 1)
                                  (map hour (dt :: dts)) []))
      as [[hh n]|]; [|discriminate].
    destruct (max_item (fold_left (fun d k => counter_add date_eqb d k 1)
                                  (map date (dt :: dts)) []))
      as [[d n']|]; [|discriminate].
    destruct Mh as (Hin & -> & Hmax). destruct Md as (Hin' & -> & Hmax').
    exists hh, d. auto 8.
Qed.





(** X15. The most active hour is the peak of the heatmap's per-hour table:
    the table holds the reported count at the reported hour and nothing
    greater at any hour; when no hour is reported the heatmap has no
    cell. *)
Theorem most_active_hour_is_heatmap_peak :
  forall (convs : list conversation) (s : SummaryStats.t) (h : Heatmap.t),
    summary_stats_of convs = Ok s ->
    brain_activity_heatmap_of convs = Ok h ->
    match SummaryStats.most_active_hour s with
    | (Some hh, n) =>
        counter_get Z.eqb (Heatmap.hour_distribution h) hh = n
        /\ (1 <= n)%nat
        /\ forall h',
             (counter_get Z.eqb (Heatmap.hour_distribution h) h' <= n)%nat
    | (None, n) => n = O /\ Heatmap.heatmap_data h = []
    end.
Proof.
  intros convs s h Hs Hh.
  destruct (summary_time_fields convs s Hs) as (dts & Hl & _ & _ & Hm).
  destruct (heatmap_cells convs h Hh) as (dts' & Hl' & Hd & Hhd & _).
  rewrite Hl in Hl'. injection Hl' as <-.
  assert (Hget : forall hh,
             counter_get Z.eqb (Heatmap.hour_distribution h) hh
             = occurrences Z.eqb hh (map hour dts)).
  { intros hh. rewrite Hhd, (regroup_get fst), Hd.
    rewrite (marginal_of_keys cell_eqb cell_eqb_eq).
    unfold marginal. cbn [filter map py_sum fold_left counter_get Nat.add].
    rewrite occurrences_map.
    clear. induction dts as [|dt dts IH]; cbn [map filter]; [reflexivity|].
    cbn [cell_of fst]. destruct (hour dt =? hh); cbn [List.length];
      rewrite IH; reflexivity. }
  pose proof (max_item_of_keys Z.eqb (map hour dts) Z.eqb_eq) as Mh.
  rewrite Hm.
  destruct (max_item (fold_left (fun d k => counter_add Z.eqb d k 1)
                                (map hour dts) [])) as [[hh n]|].
  - destruct Mh as (Hin & -> & Hmax). rewrite Hget.
    split; [reflexivity|]. split.
    + apply (occurrences_in Z.eqb hh (map hour dts) Z.eqb_eq), Hin.
    + intros h'. rewrite Hget. apply Hmax.
  - split; [reflexivity|].
    destruct dts; [|discriminate]. rewrite Hd. reflexivity.
Qed.

End Histograms.

(** ** The months of the monthly focus *)

Lemma pystr_eqb_eq (a b : pystr) : pystr_eqb a b = true <-> a = b.
Proof.
  revert b. induction a as [|x a IH]; intros [|y b]; cbn [pystr_eqb];
    try (split; [discriminate|discriminate]); [split; reflexivity|].
  rewrite andb_true_iff, Z.eqb_eq, IH. split.
  - intros [-> ->]. reflexivity.
  - intros [= -> ->]. auto.
Qed.

Lemma pystr_ltb_trans (a b c : pystr) :
  pystr_ltb a b = true -> pystr_ltb b c = true -> pystr_ltb a c = true.
Proof.
  revert b c. induction a as [|x a IH]; intros [|y b] [|z c];
    cbn [pystr_ltb]; try discriminate; try reflexivity.
  rewrite !orb_true_iff, !andb_true_iff, !Z.ltb_lt, !Z.eqb_eq.
  intros [Hxy | [Hxy Hab]] [Hyz | [Hyz Hbc]].
  - left. lia.
  - left. lia.
  - left. lia.
  - right. split; [lia|]. apply (IH b c Hab Hbc).
Qed.

Lemma pystr_ltb_irrefl (a : pystr) : pystr_ltb a a = false.
Proof.
  induction a as [|x a IH]; cbn [pystr_ltb]; [reflexivity|].
  rewrite Z.ltb_irrefl, Z.eqb_refl, IH. reflexivity.
Qed.

Lemma pystr_ltb_total (a b : pystr) :
  a <> b -> pystr_ltb a b = false -> pystr_ltb b a = true.
Proof.
  revert b. induction a as [|x a IH]; intros [|y b]; cbn [pystr_ltb];
    try congruence; try discriminate.
  rewrite !orb_false_iff, !orb_true_iff, !andb_true_iff, !Z.ltb_lt,
          !Z.eqb_eq, Z.ltb_ge.
  intros Hne [Hxy Hab].
  destruct (Z.eq_dec x y) as [-> | Hd]; [|left; lia].
  right. split; [reflexivity|].
  rewrite Z.eqb_refl in Hab. cbn [andb] in Hab.
  apply IH; [congruence | exact Hab].
Qed.

Lemma dict_append_in_keys (d : list (pystr * list pystr)) (k v x : pystr) :
  In x (map fst (dict_append d k v)) <-> x = k \/ In x (map fst d).
Proof.
  induction d as [|[a vs] d IH]; cbn [dict_append map fst In].
  - intuition.
  - destruct (pystr_eqb a k) eqn:E; cbn [map fst In].
    + apply pystr_eqb_eq in E. subst a. intuition.
    + rewrite IH. intuition.
Qed.

Lemma dict_append_NoDup (d : list (pystr * list pystr)) (k v : pystr) :
  NoDup (map fst d) -> NoDup (map fst (dict_append d k v)).
Proof.
  induction d as [|[a vs] d IH]; cbn [dict_append map fst]; intros Hnd.
  - constructor; [intros []|constructor].
  - destruct (pystr_eqb a k) eqn:E; cbn [map fst]; [exact Hnd|].
    inversion Hnd as [|? ? Hout Hrest]; subst.
    constructor; [|auto].
    intros Hin. apply dict_append_in_keys in Hin as [-> | Hin]; [|auto].
    rewrite pystr_eqb_refl in E. discriminate.
Qed.

Lemma dict_append_texts (k : pystr) (texts : list pystr) :
  forall d,
    NoDup (map fst d) ->
    let d' := fold_left (fun d text => dict_append d k text) texts d in
    NoDup (map fst d')
    /\ forall x, In x (map fst d')
                 <-> In x (map fst d) \/ (x = k /\ texts <> []).
Proof.
  induction texts as [|t texts IH]; intros d Hnd; cbn [fold_left].
  - cbn zeta. split; [exact Hnd|]. intros x. intuition congruence.
  - destruct (IH (dict_append d k t) (dict_append_NoDup d k t Hnd))
      as [Hnd' Hkeys].
    cbn zeta in *. split; [exact Hnd'|].
    intros x. rewrite Hkeys, dict_append_in_keys. split.
    + intros [[-> | Hin] | [-> _]]; auto; right; split; congruence.
    + intros [Hin | [-> _]]; auto.
Qed.

Section MonthlyFocus.
Context `{Host}.

Lemma monthly_loop_keys (convs : list conversation) :
  forall d d',
    NoDup (map fst d) ->
    foldM monthly_step d convs = Ok d' ->
    NoDup (map fst d')
    /\ forall m, In m (map fst d')
                 <-> In m (map fst d) \/ month_with_text convs m.
Proof.
  unfold month_with_text.
  induction convs as [|c convs IH]; intros d d' Hnd; cbn [foldM].
  - intros [= <-]. split; [exact Hnd|].
    intros m. split; [auto|]. intros [Hin | (c & dt & [] & _)]. exact Hin.
  - unfold monthly_step at 1.
    destruct (has_timestamp c) eqn:Ets; cbn [negb bind].
    + destruct (fromtimestamp_value (get (create_time c))) as [dt|] eqn:Edt;
        cbn [bind]; [|discriminate].
      intros Hf.
      destruct (dict_append_texts (month_key dt) (user_texts c) d Hnd)
        as [Hnd1 Hk1]. cbn zeta in Hnd1, Hk1.
      destruct (IH _ _ Hnd1 Hf) as [Hnd' Hk']. split; [exact Hnd'|].
      intros m. rewrite Hk', Hk1. split.
      * intros [[Hin | [-> Hne]] | (c' & dt' & Hin & Hrest)].
        -- left. exact Hin.
        -- right. exists c, dt. cbn [In]. auto 6.
        -- right. exists c', dt'. cbn [In]. auto.
      * intros [Hin | (c' & dt' & [<- | Hin] & Hts & Hdt & Hm & Hne)].
        -- auto.
        -- rewrite Edt in Hdt. injection Hdt as <-. auto.
        -- right. exists c', dt'. auto 6.
    + intros Hf. destruct (IH _ _ Hnd Hf) as [Hnd' Hk'].
      split; [exact Hnd'|]. intros m. rewrite Hk'. split.
      * intros [Hin | (c' & dt' & Hin & Hrest)]; [auto|].
        right. exists c', dt'. cbn [In]. auto.
      * intros [Hin | (c' & dt' & [<- | Hin] & Hts & Hrest)]; [auto| |].
        -- rewrite Ets in Hts. discriminate.
        -- right. exists c', dt'. auto.
Qed.

Lemma insert_by_key_perm (x : pystr * list pystr)
  (l : list (pystr * list pystr)) :
  Permutation (x :: l) (insert_by_key x l).
Proof.
  induction l as [|y l IH]; cbn [insert_by_key]; [reflexivity|].
  destruct (pystr_ltb (fst x) (fst y)); [reflexivity|].
  rewrite perm_swap. constructor. exact IH.
Qed.

Lemma insert_by_key_sorted (x : pystr * list pystr)
  (l : list (pystr * list pystr)) :
  ~ In (fst x) (map fst l) ->
  StronglySorted by_month l -> StronglySorted by_month (insert_by_key x l).
Proof.
  induction l as [|y l IH]; cbn [insert_by_key map In]; intros Hout Hs.
  - constructor; constructor.
  - inversion Hs as [|? ? Hsl Hall]; subst.
    destruct (pystr_ltb (fst x) (fst y)) eqn:E.
    + constructor; [exact Hs|].
      constructor; [exact E|].
      eapply Forall_impl; [|exact Hall].
      intros z Hz. unfold by_month in *.
      apply (pystr_ltb_trans _ _ _ E Hz).
    + constructor; [apply IH; tauto|].
      assert (Hyx : by_month y x).
      { unfold by_month. apply pystr_ltb_total; [|exact E].
        intros Heq. apply Hout. left. symmetry. exact Heq. }
      rewrite Forall_forall in *. intros z Hz.
      apply (Permutation_in _ (Permutation_sym (insert_by_key_perm x l)))
        in Hz.
      destruct Hz as [<- | Hz]; [exact Hyx | apply Hall, Hz].
Qed.

Lemma sorted_items_sorted (d : list (pystr * list pystr)) :
  NoDup (map fst d) ->
  StronglySorted by_month (sorted_items d)
  /\ Permutation d (sorted_items d).
Proof.
  unfold sorted_items.
  assert (Hgen : forall d acc,
             NoDup (map fst (acc ++ d)) ->
             StronglySorted by_month acc ->
             StronglySorted by_month
               (fold_left (fun acc x => insert_by_key x acc) d acc)
             /\ Permutation (acc ++ d)
                  (fold_left (fun acc x => insert_by_key x acc) d acc)).
  { clear. induction d as [|x d IH]; intros acc Hnd Hs; cbn [fold_left].
    - rewrite app_nil_r. split; [exact Hs|reflexivity].
    - assert (Hperm : Permutation (acc ++ x :: d)
                                  (insert_by_key x acc ++ d)).
      { rewrite <- insert_by_key_perm. cbn [app].
        symmetry. apply Permutation_middle. }
      assert (Hout : ~ In (fst x) (map fst acc)).
      { rewrite map_app in Hnd. cbn [map] in Hnd.
        apply NoDup_remove_2 in Hnd. intros Hin. apply Hnd.
        apply in_or_app. left. exact Hin. }
      destruct (IH (insert_by_key x acc)) as [Hs' Hp'].
      + eapply Permutation_NoDup; [|exact Hnd].
        apply Permutation_map. exact Hperm.
      + apply insert_by_key_sorted; assumption.
      + split; [exact Hs'|]. rewrite Hperm. exact Hp'. }
  intros Hnd. apply (Hgen d []); [exact Hnd|constructor].
Qed.

Lemma monthly_topics_months (convs : list conversation)
  (items : list (pystr * list pystr)) :
  forall acc l,
    foldM (monthly_topic convs) acc items = Ok l ->
    map Monthly.month l = map Monthly.month acc ++ map fst items.
Proof.
  induction items as [|item items IH]; intros acc l; cbn [foldM].
  - intros [= <-]. cbn [map]. now rewrite app_nil_r.
  - unfold monthly_topic at 1.
    destruct (month_ids convs (fst item)) as [ids|]; cbn [bind];
      [|discriminate].
    intros Hf. rewrite (IH _ _ Hf), map_app. cbn [map Monthly.month].
    rewrite <- app_assoc. reflexivity.
Qed.

Lemma monthly_focus_months (convs : list conversation) (l : list Monthly.t) :
  monthly_focus_of convs = Ok l ->
  StronglySorted (fun a b => pystr_ltb a b = true) (map Monthly.month l)
  /\ forall m, In m (map Monthly.month l) <-> month_with_text convs m.
Proof.
  unfold monthly_focus_of.
  destruct (foldM monthly_step [] convs) as [d|] eqn:Ed; cbn [bind];
    [|discriminate].
  intros Hf. apply monthly_topics_months in Hf. cbn [map app] in Hf.
  destruct (monthly_loop_keys convs [] d (NoDup_nil _) Ed) as [Hnd Hkeys].
  destruct (sorted_items_sorted d Hnd) as [Hs Hp].
  rewrite Hf. split.
  - clear -Hs. induction Hs as [|x l Hsl IH Hall]; cbn [map];
      constructor; [exact IH|].
    rewrite Forall_forall in *. intros k Hk.
    apply in_map_iff in Hk as (y & <- & Hy). apply (Hall y Hy).
  - intros m. rewrite <- (Permutation_map fst Hp) at 1.
    rewrite Hkeys. cbn [map In]. tauto.
Qed.

(** X16. The monthly focus lists its months in strictly increasing order
    of their labels, so no month is listed twice. *)
Theorem monthly_focus_months_ascend :
  forall (convs : list conversation) (l : list Monthly.t),
    monthly_focus_of convs = Ok l ->
    StronglySorted (fun a b => pystr_ltb a b = true) (map Monthly.month l)
    /\ NoDup (map Monthly.month l).
Proof.
  intros convs l Hl.
  destruct (monthly_focus_months convs l Hl) as [Hs _].
  split; [exact Hs|].
  induction Hs as [|k ks Hsk IH Hall]; constructor; [|exact IH].
  intros Hin. rewrite Forall_forall in Hall. specialize (Hall k Hin).
  rewrite pystr_ltb_irrefl in Hall. discriminate.
Qed.

(** X17. A month is listed in the monthly focus exactly when some
    conversation with a timestamp falls in that month (year, a dash and
    the two-digit month of its local time) and has a user message with a
    non-empty text. *)
Theorem monthly_focus_lists_months_with_text :
  forall (convs : list conversation) (l : list Monthly.t),
    monthly_focus_of convs = Ok l ->
    forall m : pystr,
      In m (map Monthly.month l) <-> month_with_text convs m.
Proof.
  intros convs l Hl. apply (monthly_focus_months convs l Hl).
Qed.

End MonthlyFocus.

(** ** The persona badge *)

Lemma gt_share_fifth (x n : nat) :
  gt_share x n 0.2 = true <-> (n < 5 * x)%nat.
Proof.
  unfold gt_share. rewrite negb_true_iff, <- not_true_iff_false, Qle_bool_iff.
  unfold Qle, Qmult, inject_Z. cbn [Qnum Qden]. lia.
Qed.

Lemma gt_share_three_twentieths (x n : nat) :
  gt_share x n 0.15 = true <-> (3 * n < 20 * x)%nat.
Proof.
  unfold gt_share. rewrite negb_true_iff, <- not_true_iff_false, Qle_bool_iff.
  unfold Qle, Qmult, inject_Z. cbn [Qnum Qden]. lia.
Qed.

Lemma gt_share_three_tenths (x n : nat) :
  gt_share x n 0.3 = true <-> (3 * n < 10 * x)%nat.
Proof.
  unfold gt_share. rewrite negb_true_iff, <- not_true_iff_false, Qle_bool_iff.
  unfold Qle, Qmult, inject_Z. cbn [Qnum Qden]. lia.
Qed.

Lemma py_sum_filter_le {K : Type} (p : K * nat -> bool)
  (d : list (K * nat)) :
  (py_sum (map snd (filter p d)) <= py_sum (map snd d))%nat.
Proof.
  induction d as [|x d IH]; cbn [filter map]; [lia|].
  destruct (p x); cbn [map]; rewrite ?py_sum_cons; lia.
Qed.

Lemma py_sum_member {K : Type} (x : K * nat) (d : list (K * nat)) :
  In x d -> (snd x <= py_sum (map snd d))%nat.
Proof.
  induction d as [|y d IH]; cbn [In map]; [contradiction|].
  rewrite py_sum_cons. intros [-> | Hin]; [lia|].
  specialize (IH Hin). lia.
Qed.

Lemma persona_badge_fields (data : list (Z * Z * nat)) (p : PersonaBadge.t) :
  persona_badge_from_heatmap data = Some p ->
  PersonaBadge.late_night_count p
  = py_sum (map snd (filter is_late_night data))
  /\ PersonaBadge.early_morning_count p
     = py_sum (map snd (filter is_early_morning data))
  /\ PersonaBadge.weekend_count p
     = py_sum (map snd (filter is_weekend data))
  /\ PersonaBadge.badges p
     = badges_of (PersonaBadge.late_night_count p)
                 (PersonaBadge.early_morning_count p)
                 (PersonaBadge.weekend_count p) (total_count data)
  /\ memorable_moment_of data = Some (PersonaBadge.memorable_moment p).
Proof.
  unfold persona_badge_from_heatmap.
  destruct (memorable_moment_of data) as [mm|]; [|discriminate].
  intros [= <-]. cbn. auto.
Qed.

Lemma py_index_weekday_names (w : Z) :
  0 <= w < 7 -> exists name, py_index weekday_names w = Some name.
Proof.
  intros Hw.
  assert (Hcases : w = 0 \/ w = 1 \/ w = 2 \/ w = 3 \/ w = 4 \/ w = 5
                   \/ w = 6) by lia.
  destruct Hcases as [-> | [-> | [-> | [-> | [-> | [-> | ->]]]]]];
    eexists; reflexivity.
Qed.

(** X19. The badges follow the shares of the heatmap total: the night badge
    is given exactly when the cells of hours 1 to 5 hold more than a fifth
    of the total, the morning badge when the cells of hours 5 to 7 hold
    more than 15 percent, the weekend badge when the cells of weekdays 5
    and up hold more than 30 percent, and the default badge exactly when
    none of these holds; there are between one and three badges, no name
    twice, and none of the three counts exceeds the total. *)
Theorem persona_badges_by_share :
  forall (data : list (Z * Z * nat)) (p : PersonaBadge.t),
    persona_badge_from_heatmap data = Some p ->
    let total := total_count data in
    let late := PersonaBadge.late_night_count p in
    let early := PersonaBadge.early_morning_count p in
    let weekend := PersonaBadge.weekend_count p in
    let names := map Badge.name (PersonaBadge.badges p) in
    (late <= total /\ early <= total /\ weekend <= total)%nat
    /\ (In (py "深夜哲学家") names <-> (total < 5 * late)%nat)
    /\ (In (py "晨间实干家") names <-> (3 * total < 20 * early)%nat)
    /\ (In (py "全勤卷王") names <-> (3 * total < 10 * weekend)%nat)
    /\ (In (py "规律型用户") names
        <-> (5 * late <= total /\ 20 * early <= 3 * total
             /\ 10 * weekend <= 3 * total)%nat)
    /\ NoDup names
    /\ (1 <= List.length names <= 3)%nat.
Proof.
  intros data p Hp total late early weekend names.
  destruct (persona_badge_fields data p Hp) as (Hl & He & Hw & Hb & _).
  subst names. rewrite Hb. fold total late early weekend.
  split.
  { subst late early weekend total. rewrite Hl, He, Hw.
    unfold total_count. auto using py_sum_filter_le. }
  pose proof (gt_share_fifth late total) as H1.
  pose proof (gt_share_three_twentieths early total) as H2.
  pose proof (gt_share_three_tenths weekend total) as H3.
  unfold badges_of.
  assert (N12 : py "深夜哲学家" <> py "晨间实干家")
    by (intros E; vm_compute in E; discriminate).
  assert (N13 : py "深夜哲学家" <> py "全勤卷王")
    by (intros E; vm_compute in E; discriminate).
  assert (N10 : py "深夜哲学家" <> py "规律型用户")
    by (intros E; vm_compute in E; discriminate).
  assert (N23 : py "晨间实干家" <> py "全勤卷王")
    by (intros E; vm_compute in E; discriminate).
  assert (N20 : py "晨间实干家" <> py "规律型用户")
    by (intros E; vm_compute in E; discriminate).
  assert (N30 : py "全勤卷王" <> py "规律型用户")
    by (intros E; vm_compute in E; discriminate).
  clearbody total late early weekend.
  destruct (gt_share late total 0.2);
    destruct (gt_share early total 0.15);
    destruct (gt_share weekend total 0.3);
    repeat match goal with
           | S : true = true <-> _ |- _ =>
               apply proj1 in S; specialize (S eq_refl)
           | S : false = true <-> ?P |- _ =>
               apply proj2 in S;
               assert (~ P) by (intros HP; discriminate (S HP)); clear S
           end;
    cbn [app map Badge.name late_night_badge early_morning_badge
         weekend_badge default_badge In List.length];
    set (n1 := py "深夜哲学家") in *; set (n2 := py "晨间实干家") in *;
    set (n3 := py "全勤卷王") in *; set (n0 := py "规律型用户") in *;
    clearbody n1 n2 n3 n0;
    repeat match goal with
           | |- _ /\ _ => split
           | |- NoDup _ =>
               repeat (constructor; cbn [In]; try intuition congruence)
           end;
    try lia;
    try (split; [intros; intuition (try congruence; try lia)
                |intros; intuition (try congruence; try lia)]).
Qed.

(** X20. The memorable moment is the busiest late-night cell: it is absent
    exactly when the heatmap has no cell of hours 1 to 5; otherwise it is a
    cell of the heatmap with an hour from 1 to 5, named by its weekday,
    whose count no late-night cell exceeds and which the late-night count
    includes. *)
Theorem memorable_moment_is_late_night_peak :
  forall (data : list (Z * Z * nat)) (p : PersonaBadge.t),
    persona_badge_from_heatmap data = Some p ->
    match PersonaBadge.memorable_moment p with
    | None => filter is_late_night data = []
    | Some mm =>
        exists w : Z,
          In (Moment.hour mm, w, Moment.count mm) data
          /\ 1 <= Moment.hour mm <= 5
          /\ py_index weekday_names w = Some (Moment.weekday mm)
          /\ (forall cell, In cell data -> is_late_night cell = true ->
                           (snd cell <= Moment.count mm)%nat)
          /\ (Moment.count mm <= PersonaBadge.late_night_count p)%nat
    end.
Proof.
  intros data p Hp.
  destruct (persona_badge_fields data p Hp) as (Hl & _ & _ & _ & Hm).
  unfold memorable_moment_of in Hm.
  destruct (max_item (filter is_late_night data)) as [[[h w] n]|] eqn:Emax.
  - apply max_item_greatest in Emax as [Hin Hall].
    cbn [fst snd] in Hm.
    destruct (py_index weekday_names w) as [name|] eqn:Ename;
      [|discriminate].
    injection Hm as <-. cbn [Moment.hour Moment.count Moment.weekday].
    exists w. pose proof Hin as Hin'. apply filter_In in Hin' as [Hdata Hlate].
    split; [exact Hdata|]. split.
    + unfold is_late_night in Hlate. cbn [fst] in Hlate.
      apply andb_prop in Hlate as [Hlo Hhi].
      apply Z.leb_le in Hlo. apply Z.leb_le in Hhi. lia.
    + split; [exact Ename|]. split.
      * intros cell Hc Hlc. rewrite Forall_forall in Hall.
        apply (Hall cell). apply filter_In. auto.
      * rewrite Hl.
        apply (py_sum_member (h, w, n) (filter is_late_night data) Hin).
  - injection Hm as <-. unfold max_item in Emax.
    destruct (filter is_late_night data); [reflexivity|discriminate].
Qed.

Section PersonaAfterHeatmap.
Context `{Host}.

Lemma marginal_of_cells (p : Z * Z -> bool) (dts : list datetime) :
  marginal p (fold_left (fun d k => counter_add cell_eqb d k 1)
                        (map cell_of dts) [])
  = List.length (filter (fun dt => p (cell_of dt)) dts).
Proof.
  rewrite (marginal_of_keys cell_eqb cell_eqb_eq).
  unfold marginal. cbn [filter map py_sum fold_left Nat.add].
  induction dts as [|dt dts IH]; cbn [map filter]; [reflexivity|].
  destruct (p (cell_of dt)); cbn [List.length]; rewrite IH; reflexivity.
Qed.

(** X18. After the heatmap pass the persona pass cannot fail, and its three
    counts are numbers of conversations: those whose local time has an hour
    from 1 to 5, an hour from 5 to 7, and a weekday of Saturday or
    Sunday. *)
Theorem persona_badge_counts_conversations :
  forall (convs : list conversation) (h : Heatmap.t),
    brain_activity_heatmap_of convs = Ok h ->
    exists (p : PersonaBadge.t) (dts : list datetime),
      persona_badge_from_heatmap (Heatmap.heatmap_data h) = Some p
      /\ local_times convs = Ok dts
      /\ PersonaBadge.late_night_count p
         = List.length
             (filter (fun dt => (1 <=? hour dt) && (hour dt <=? 5)) dts)
      /\ PersonaBadge.early_morning_count p
         = List.length
             (filter (fun dt => (5 <=? hour dt) && (hour dt <? 8)) dts)
      /\ PersonaBadge.weekend_count p
         = List.length (filter (fun dt => 5 <=? weekday dt) dts).
Proof.
  intros convs h Hh.
  destruct (heatmap_cells convs h Hh) as (dts & Hl & Hd & _).
  assert (Hweek : Forall (fun cell : Z * Z * nat => 0 <= snd (fst cell) < 7)
                         (Heatmap.heatmap_data h)).
  { rewrite Hd.
    assert (Hent : Forall (fun kn : Z * Z * nat =>
                             0 <= snd (fst kn) < 7 /\ (1 <= snd kn)%nat)
                          (fold_left
                             (fun d k => counter_add cell_eqb d k 1)
                             (map cell_of dts) [])).
    { apply (counter_of_keys_entries cell_eqb (fun k => 0 <= snd k < 7));
        [|constructor].
      clear. induction dts as [|dt dts IH]; cbn [map]; constructor;
        [apply weekday_range | exact IH]. }
    eapply Forall_impl; [|exact Hent]. cbn beta. tauto. }
  assert (Hmm : exists mm, memorable_moment_of (Heatmap.heatmap_data h)
                           = Some mm).
  { unfold memorable_moment_of.
    destruct (max_item (filter is_late_night (Heatmap.heatmap_data h)))
      as [[[hh w] n]|] eqn:Emax; [|eexists; reflexivity].
    apply max_item_greatest in Emax as [Hin _].
    apply filter_In in Hin as [Hin _].
    rewrite Forall_forall in Hweek. specialize (Hweek _ Hin).
    cbn [fst snd] in *.
    destruct (py_index_weekday_names w Hweek) as [name ->].
    eexists. reflexivity. }
  destruct Hmm as [mm Hmm].
  unfold persona_badge_from_heatmap. rewrite Hmm.
  eexists. exists dts. split; [reflexivity|]. split; [exact Hl|].
  cbn [PersonaBadge.late_night_count PersonaBadge.early_morning_count
       PersonaBadge.weekend_count].
  rewrite Hd.
  split; [|split].
  - apply (marginal_of_cells (fun k => (1 <=? fst k) && (fst k <=? 5))).
  - apply (marginal_of_cells (fun k => (5 <=? fst k) && (fst k <? 8))).
  - apply (marginal_of_cells (fun k => 5 <=? snd k)).
Qed.

End PersonaAfterHeatmap.

(** ** The linguistic profile *)

Lemma fold_left_flat_map {A B S : Type} (f : S -> B -> S) (g : A -> list B)
  (l : list A) :
  forall s,
    fold_left (fun s x => fold_left f (g x) s) l s
    = fold_left f (flat_map g l) s.
Proof.
  induction l as [|x l IH]; intros s; cbn [fold_left flat_map];
    [reflexivity|].
  now rewrite fold_left_app, IH.
Qed.


Section LinguisticProfileLaws.
Context `{Host} `{LanguageBackend}.

Lemma profile_message_step (d : list (pystr * nat)) (n : nat) (m : message) :
  profile_message (d, n) m
  = if analyzed m
    then (counter_add pystr_eqb d
            (language_of n (extract_text_from_message m)) 1,
          (n + 1)%nat)
    else (d, n).
Proof.
  unfold profile_message, analyzed, is_user. cbn [fst snd].
  destruct (role_is m (py "user")); cbn [negb andb]; [|reflexivity].
  destruct (pystr_eqb (extract_text_from_message m) []
            || (List.length (strip (extract_text_from_message m)) <? 5)%nat);
    reflexivity.
Qed.

(** The loop of the pass: one count per analyzed message. *)
Lemma profile_loop (ms : list message) :
  forall d n,
    let st := fold_left profile_message ms (d, n) in
    snd st = (n + List.length (filter analyzed ms))%nat
    /\ total_count (fst st)
       = (total_count d + List.length (filter analyzed ms))%nat
    /\ (NoDup (map fst d) -> NoDup (map fst (fst st)))
    /\ (Forall (fun kn : pystr * nat => True /\ (1 <= snd kn)%nat) d ->
        Forall (fun kn : pystr * nat => True /\ (1 <= snd kn)%nat) (fst st)).
Proof.
  induction ms as [|m ms IH]; intros d n; cbn [fold_left filter].
  - cbn [fst snd List.length]. repeat split; auto; lia.
  - rewrite profile_message_step. destruct (analyzed m).
    + specialize (IH (counter_add pystr_eqb d
                        (language_of n (extract_text_from_message m)) 1)
                     (n + 1)%nat).
      cbn zeta in *. destruct IH as (Hn & Ht & Hnd & Hpos).
      rewrite Hn, Ht, counter_add_total. cbn [List.length].
      repeat split; try lia.
      * intros Hd. apply Hnd, (counter_add_NoDup pystr_eqb pystr_eqb_eq), Hd.
      * intros Hd. apply Hpos.
        apply (counter_add_entries pystr_eqb (fun _ => True)); auto.
    + apply IH.
Qed.

Lemma profile_state (convs : list conversation) :
  let st := fold_left (fun st conv =>
                         fold_left profile_message (visited conv) st)
                      convs ([], O) in
  snd st = List.length (analyzed_texts convs)
  /\ total_count (fst st) = snd st
  /\ NoDup (map fst (fst st))
  /\ Forall (fun kn : pystr * nat => (1 <= snd kn)%nat) (fst st).
Proof.
  cbn zeta. rewrite (fold_left_flat_map profile_message visited).
  destruct (profile_loop (flat_map visited convs) [] O)
    as (Hn & Ht & Hnd & Hpos). cbn zeta in *.
  unfold analyzed_texts. rewrite length_map, Hn, Ht.
  change (total_count (@nil (pystr * nat))) with O.
  repeat split; try lia.
  - apply Hnd. constructor.
  - eapply Forall_impl; [|apply Hpos; constructor]. cbn beta. tauto.
Qed.

Lemma analyzed_are_user_messages (ms : list message) :
  (List.length (filter analyzed ms) <= List.length (filter is_user ms))%nat.
Proof.
  induction ms as [|m ms IH]; cbn [filter]; [lia|].
  unfold analyzed at 1.
  destruct (is_user m); cbn [andb]; [|exact IH].
  destruct (negb _); cbn [List.length]; lia.
Qed.

(** X21. The linguistic profile counts every analyzed message once: the
    number of analyzed messages is the number of user messages whose text
    is not empty and keeps at least five characters when stripped, the
    language counts add up to it, it is at most the number of user
    messages, no language is listed twice and every listed language has a
    count of at least one. *)
Theorem linguistic_counts_add_up :
  forall convs : list conversation,
    let p := linguistic_profile_from convs in
    LinguisticProfile.total_messages_analyzed p
    = List.length (analyzed_texts convs)
    /\ total_count (LinguisticProfile.language_counts p)
       = LinguisticProfile.total_messages_analyzed p
    /\ (LinguisticProfile.total_messages_analyzed p
        <= py_sum (map user_message_count convs))%nat
    /\ NoDup (map fst (LinguisticProfile.language_counts p))
    /\ Forall (fun kn => (1 <= snd kn)%nat)
              (LinguisticProfile.language_counts p).
Proof.
  intros convs p. subst p. unfold linguistic_profile_from.
  cbn [LinguisticProfile.total_messages_analyzed
       LinguisticProfile.language_counts].
  destruct (profile_state convs) as (Hn & Ht & Hnd & Hpos). cbn zeta in *.
  repeat split; try assumption.
  rewrite Hn. unfold analyzed_texts. rewrite length_map.
  etransitivity; [apply analyzed_are_user_messages|].
  clear. unfold user_message_count.
  induction convs as [|c convs IH]; cbn [flat_map map]; [reflexivity|].
  rewrite filter_app, length_app, py_sum_cons. lia.
Qed.

(** X22. The primary language is a mode of the language counts: when no
    message is analyzed it is the word [unknown] and the tables are empty;
    otherwise it is a listed language whose count no other count
    exceeds. *)
Theorem primary_language_is_a_mode :
  forall convs : list conversation,
    let p := linguistic_profile_from convs in
    match LinguisticProfile.total_messages_analyzed p with
    | O =>
        LinguisticProfile.primary_language p = py "unknown"
        /\ LinguisticProfile.language_counts p = []
        /\ LinguisticProfile.language_percentages p = []
        /\ LinguisticProfile.language_display p = []
    | S _ =>
        exists n : nat,
          In (LinguisticProfile.primary_language p, n)
             (LinguisticProfile.language_counts p)
          /\ (1 <= n)%nat
          /\ Forall (fun kn => (snd kn <= n)%nat)
                    (LinguisticProfile.language_counts p)
    end.
Proof.
  intros convs p. subst p. unfold linguistic_profile_from.
  cbn [LinguisticProfile.total_messages_analyzed
       LinguisticProfile.language_counts LinguisticProfile.primary_language
       LinguisticProfile.language_percentages
       LinguisticProfile.language_display].
  destruct (profile_state convs) as (_ & Ht & _ & Hpos). cbn zeta in *.
  set (st := fold_left _ convs ([], O)) in *.
  destruct (snd st) as [|n] eqn:En.
  - destruct (fst st) as [|[k c] d] eqn:Ed; [cbn; auto|].
    exfalso. rewrite total_count_cons in Ht.
    inversion Hpos as [|? ? Hc _]; subst. cbn [snd] in Hc. lia.
  - destruct (max_item (fst st)) as [[k c]|] eqn:Em.
    + apply max_item_greatest in Em as [Hin Hall]. cbn [fst].
      exists c. split; [exact Hin|]. split; [|exact Hall].
      rewrite Forall_forall in Hpos. apply (Hpos _ Hin).
    + exfalso. unfold max_item in Em.
      destruct (fst st); [|discriminate].
      change (total_count (@nil (pystr * nat))) with O in Ht. lia.
Qed.

Lemma heuristic_language_mostly_cjk (text : pystr) :
  heuristic_language text = if mostly_cjk text then py "zh" else py "en".
Proof.
  unfold heuristic_language, mostly_cjk.
  set (c := List.length (filter is_cjk text)).
  set (l := List.length text).
  assert (Hiff : Qle_bool (true_div c l) 0.3 = true
                 <-> (10 * c <= 3 * l)%nat \/ (l = 0 /\ c = 0)%nat).
  { rewrite Qle_bool_iff. unfold true_div, Qle. cbn [Qnum Qden].
    destruct l as [|l'] eqn:El.
    - assert (c = 0)%nat.
      { subst c. apply length_zero_iff_nil in El. rewrite El. reflexivity. }
      subst. cbn. split; [auto|lia].
    - rewrite Zpos_of_nat by lia. lia. }
  destruct (Nat.ltb_spec (3 * l) (10 * c)) as [Hlt|Hge].
  - assert (E : Qle_bool (true_div c l) 0.3 = false).
    { apply not_true_iff_false. intros Ht. apply Hiff in Ht. lia. }
    rewrite E. reflexivity.
  - assert (E : Qle_bool (true_div c l) 0.3 = true) by (apply Hiff; lia).
    rewrite E. reflexivity.
Qed.

Lemma heuristic_loop (ms : list message) :
  (langdetect_available = true -> forall n text, detect n text = None) ->
  forall d n,
    let st := fold_left profile_message ms (d, n) in
    let texts := map extract_text_from_message (filter analyzed ms) in
    (forall k, In k (map fst (fst st)) ->
               In k (map fst d) \/ k = py "zh" \/ k = py "en")
    /\ counter_get pystr_eqb (fst st) (py "zh")
       = (counter_get pystr_eqb d (py "zh")
          + List.length (filter mostly_cjk texts))%nat
    /\ counter_get pystr_eqb (fst st) (py "en")
       = (counter_get pystr_eqb d (py "en")
          + List.length (filter (fun t => negb (mostly_cjk t)) texts))%nat.
Proof.
  intros Hdet.
  assert (Hlang : forall n text,
             language_of n text
             = if mostly_cjk text then py "zh" else py "en").
  { intros n text. unfold language_of.
    destruct langdetect_available;
      [rewrite Hdet by reflexivity|]; apply heuristic_language_mostly_cjk. }
  assert (Hze : pystr_eqb (py "zh") (py "en") = false)
    by (vm_compute; reflexivity).
  assert (Hez : pystr_eqb (py "en") (py "zh") = false)
    by (vm_compute; reflexivity).
  induction ms as [|m ms IH]; intros d n; cbn [fold_left filter].
  - cbn [fst map filter List.length]. repeat split; auto; lia.
  - rewrite profile_message_step. destruct (analyzed m); [|apply IH].
    specialize (IH (counter_add pystr_eqb d
                      (language_of n (extract_text_from_message m)) 1)
                   (n + 1)%nat).
    cbn zeta in *. destruct IH as (Hk & Hz & He).
    split; [|split].
    + intros k Hin. apply Hk in Hin as [Hin | Hin]; [|auto].
      apply (counter_add_in_keys pystr_eqb pystr_eqb_eq) in Hin
        as [-> | Hin]; [|auto].
      rewrite Hlang.
      destruct (mostly_cjk (extract_text_from_message m)); auto.
    + rewrite Hz, (counter_get_add_key pystr_eqb pystr_eqb_eq), Hlang.
      cbn [map filter].
      destruct (mostly_cjk (extract_text_from_message m));
        cbn [List.length]; rewrite ?pystr_eqb_refl, ?Hez; lia.
    + rewrite He, (counter_get_add_key pystr_eqb pystr_eqb_eq), Hlang.
      cbn [map filter].
      destruct (mostly_cjk (extract_text_from_message m));
        cbn [negb List.length]; rewrite ?pystr_eqb_refl, ?Hze; lia.
Qed.

(** X23. Without a working detector (not installed, or raising on every
    call) the profile knows the two languages [zh] and [en] only: a message
    counts as [zh] exactly when more than three tenths of its characters
    are CJK ideographs, and as [en] otherwise. *)
Theorem heuristic_profile_is_zh_or_en :
  forall convs : list conversation,
    (langdetect_available = true -> forall n text, detect n text = None) ->
    let p := linguistic_profile_from convs in
    let texts := analyzed_texts convs in
    (forall k, In k (map fst (LinguisticProfile.language_counts p)) ->
               k = py "zh" \/ k = py "en")
    /\ counter_get pystr_eqb (LinguisticProfile.language_counts p) (py "zh")
       = List.length (filter mostly_cjk texts)
    /\ counter_get pystr_eqb (LinguisticProfile.language_counts p) (py "en")
       = List.length (filter (fun t => negb (mostly_cjk t)) texts).
Proof.
  intros convs Hdet p texts. subst p texts. unfold linguistic_profile_from.
  cbn [LinguisticProfile.language_counts].
  rewrite (fold_left_flat_map profile_message visited).
  destruct (heuristic_loop (flat_map visited convs) Hdet [] O)
    as (Hk & Hz & He). cbn zeta in *.
  unfold analyzed_texts. rewrite Hz, He. cbn [counter_get Nat.add].
  split; [|auto].
  intros k Hin. apply Hk in Hin as [[] | Hin]. exact Hin.
Qed.


End LinguisticProfileLaws.

(** ** The keywords *)

Section SortedDesc.
Context {A : Type} (key : A -> Z).

Lemma insert_desc_perm (x : A) (l : list A) :
  Permutation (x :: l) (insert_desc key x l).
Proof.
  induction l as [|y l IH]; cbn [insert_desc]; [reflexivity|].
  destruct (key y <? key x); [reflexivity|].
  rewrite perm_swap. now apply perm_skip.
Qed.

Lemma sorted_desc_snoc (l : list A) (x : A) :
  sorted_desc key (l ++ [x]) = insert_desc key x (sorted_desc key l).
Proof. unfold sorted_desc. now rewrite fold_left_app. Qed.

Lemma sorted_desc_perm (l : list A) : Permutation l (sorted_desc key l).
Proof.
  induction l as [|x l IH] using rev_ind; [reflexivity|].
  rewrite sorted_desc_snoc, <- insert_desc_perm.
  rewrite Permutation_app_comm. cbn [app]. now apply perm_skip.
Qed.

Lemma insert_desc_sorted (x : A) (l : list A) :
  StronglySorted (fun a b => key b <= key a) l ->
  StronglySorted (fun a b => key b <= key a) (insert_desc key x l).
Proof.
  induction 1 as [|y l Hs IH Hy]; cbn [insert_desc].
  - repeat constructor.
  - destruct (Z.ltb_spec (key y) (key x)) as [Hlt|Hge].
    + constructor; [constructor; assumption|].
      constructor; [lia|].
      eapply Forall_impl; [|exact Hy]. cbn beta. intros z Hz. lia.
    + constructor; [exact IH|].
      eapply Permutation_Forall; [apply insert_desc_perm|].
      constructor; [exact Hge | exact Hy].
Qed.

Lemma sorted_desc_sorted (l : list A) :
  StronglySorted (fun a b => key b <= key a) (sorted_desc key l).
Proof.
  induction l as [|x l IH] using rev_ind; [constructor|].
  rewrite sorted_desc_snoc. now apply insert_desc_sorted.
Qed.

(** Among elements of equal key the new one goes last. *)
Lemma insert_desc_stable (x : A) (l : list A) (k : Z) :
  StronglySorted (fun a b => key b <= key a) l ->
  filter (fun e => key e =? k) (insert_desc key x l)
  = filter (fun e => key e =? k) (l ++ [x]).
Proof.
  induction 1 as [|y l Hs IH Hy]; cbn [insert_desc app]; [reflexivity|].
  destruct (Z.ltb_spec (key y) (key x)) as [Hlt|Hge].
  - cbn [filter]. rewrite filter_app. cbn [filter].
    destruct (Z.eqb_spec (key x) k) as [Hx|Hx].
    + assert (Hnone : filter (fun e => key e =? k) l = []).
      { clear - Hy Hlt Hx. induction Hy as [|z l Hz _ IHl]; [reflexivity|].
        cbn [filter]. destruct (Z.eqb_spec (key z) k); [lia | exact IHl]. }
      rewrite Hnone.
      destruct (Z.eqb_spec (key y) k); [lia | reflexivity].
    + now rewrite app_nil_r.
  - cbn [filter]. rewrite IH. reflexivity.
Qed.

Lemma sorted_desc_stable (l : list A) (k : Z) :
  filter (fun e => key e =? k) (sorted_desc key l)
  = filter (fun e => key e =? k) l.
Proof.
  induction l as [|x l IH] using rev_ind; [reflexivity|].
  rewrite sorted_desc_snoc.
  rewrite insert_desc_stable by apply sorted_desc_sorted.
  now rewrite !filter_app, IH.
Qed.

End SortedDesc.

Lemma firstn_member {A : Type} (n : nat) (l : list A) (x : A) :
  In x (firstn n l) -> In x l.
Proof.
  revert l. induction n as [|n IH]; intros [|y l]; cbn [firstn In];
    try contradiction.
  intros [-> | Hin]; [left; reflexivity|right; apply IH, Hin].
Qed.

Lemma most_common_In (n : nat) (c : list (pystr * nat)) (x : pystr * nat) :
  In x (most_common n c) -> In x c.
Proof.
  unfold most_common. intros Hin. apply firstn_member in Hin.
  eapply Permutation_in; [symmetry; apply sorted_desc_perm | exact Hin].
Qed.

Lemma distinct_words_length (ws : list pystr) :
  (List.length (distinct_words ws) <= List.length ws)%nat.
Proof.
  induction ws as [|w ws IH]; cbn [distinct_words List.length]; [lia|].
  destruct (existsb (pystr_eqb w) ws); cbn [List.length]; lia.
Qed.

Lemma distinct_words_nil (ws : list pystr) :
  distinct_words ws = [] -> ws = [].
Proof.
  induction ws as [|w ws IH]; cbn [distinct_words]; [reflexivity|].
  destruct (existsb (pystr_eqb w) ws) eqn:E; [|discriminate].
  intros Hd. rewrite (IH Hd) in E. discriminate.
Qed.

(** The counter of a list of words: each listed once, with the number of
    its occurrences. *)
Lemma Counter_items (P : pystr -> Prop) (ws : list pystr) :
  Forall P ws ->
  NoDup (map fst (Counter ws))
  /\ forall item, In item (Counter ws) ->
                  P (fst item)
                  /\ (1 <= snd item)%nat
                  /\ snd item = occurrences pystr_eqb (fst item) ws.
Proof.
  intros HP. unfold Counter.
  assert (Hnd : NoDup (map fst (fold_left
                                  (fun d x => counter_add pystr_eqb d x 1)
                                  ws [])))
    by (apply (counter_of_keys_NoDup pystr_eqb pystr_eqb_eq); constructor).
  split; [exact Hnd|].
  intros [w n] Hin. cbn [fst snd].
  pose proof (counter_of_keys_entries pystr_eqb P ws HP [] (Forall_nil _))
    as Hent.
  rewrite Forall_forall in Hent. destruct (Hent _ Hin) as [Hw Hn].
  cbn [fst snd] in *. split; [exact Hw|]. split; [exact Hn|].
  rewrite <- (counter_get_in pystr_eqb pystr_eqb_eq _ w n Hnd Hin).
  rewrite (counter_of_keys pystr_eqb pystr_eqb_eq). reflexivity.
Qed.

Lemma forallb_snoc {A : Type} (p : A -> bool) (l : list A) (x : A) :
  forallb p (l ++ [x]) = forallb p l && p x.
Proof. rewrite forallb_app. cbn [forallb]. now rewrite andb_true_r. Qed.

(** Every match of the ideograph pattern has two to four ideographs. *)
Lemma cjk_words_shape (s : pystr) :
  forall cur,
    (List.length cur < 4)%nat -> forallb is_cjk cur = true ->
    Forall (fun w => (2 <= List.length w <= 4)%nat
                     /\ forallb is_cjk w = true)
           (cjk_words cur s).
Proof.
  assert (Hword : forall cur,
             (List.length cur < 4)%nat -> forallb is_cjk cur = true ->
             Forall (fun w => (2 <= List.length w <= 4)%nat
                              /\ forallb is_cjk w = true)
                    (cjk_word_of cur)).
  { intros cur Hlen Hall. unfold cjk_word_of.
    destruct (Nat.leb_spec 2 (List.length cur)); constructor;
      [split; [lia|exact Hall]|constructor]. }
  induction s as [|c s IH]; intros cur Hlen Hall; cbn [cjk_words].
  - apply Hword; assumption.
  - destruct (is_cjk c) eqn:Ec.
    + assert (Hall' : forallb is_cjk (cur ++ [c]) = true)
        by (rewrite forallb_snoc, Hall, Ec; reflexivity).
      assert (Hlen' : List.length (cur ++ [c]) = S (List.length cur))
        by (rewrite length_app; cbn [List.length]; lia).
      destruct (Nat.eqb_spec (List.length (cur ++ [c])) 4) as [H4|H4].
      * constructor; [split; [lia|exact Hall']|].
        apply IH; [cbn; lia|reflexivity].
      * apply IH; [lia|exact Hall'].
    + apply Forall_app. split; [apply Hword; assumption|].
      apply IH; [cbn; lia|reflexivity].
Qed.

Section KeywordLaws.
Context `{Host} `{KeywordBackend}.

Lemma latin_words_shape (s : pystr) :
  Forall (fun w => (3 <= List.length w)%nat
                   /\ forallb is_ascii_letter w = true)
         (latin_words s).
Proof.
  unfold latin_words. rewrite Forall_forall. intros w Hin.
  apply filter_In in Hin as [_ Hw]. apply andb_prop in Hw as [Hl Hn].
  apply Nat.leb_le in Hn. auto.
Qed.

(** X25. The top keywords are the first thirty of a stable sort of the
    candidates by decreasing frequency: a rearrangement of the candidates,
    in non-increasing order of frequency, candidates of equal frequency in
    the order they were found; the number of unique keywords counts words
    of all candidates, is at most their number, and is zero exactly when
    there is no top keyword. *)
Theorem top_keywords_ranked :
  forall all_text : list pystr,
    let k := keywords_from all_text in
    let candidates := keyword_candidates all_text in
    exists ranking : list Keyword.t,
      Permutation candidates ranking
      /\ StronglySorted
           (fun a b => Keyword.frequency b <= Keyword.frequency a) ranking
      /\ (forall f : Z,
             filter (fun e => Keyword.frequency e =? f) ranking
             = filter (fun e => Keyword.frequency e =? f) candidates)
      /\ Keywords.top_keywords k = firstn 30 ranking
      /\ List.length (Keywords.top_keywords k)
         = Nat.min 30 (List.length candidates)
      /\ (Keywords.total_unique_keywords k <= List.length candidates)%nat
      /\ (Keywords.total_unique_keywords k = 0%nat
          <-> Keywords.top_keywords k = []).
Proof.
  intros all_text k candidates. subst k. unfold keywords_from.
  cbn [Keywords.top_keywords Keywords.total_unique_keywords].
  fold candidates.
  exists (sorted_desc Keyword.frequency candidates).
  pose proof (sorted_desc_perm Keyword.frequency candidates) as Hperm.
  split; [exact Hperm|].
  split; [apply sorted_desc_sorted|].
  split; [intros f; apply sorted_desc_stable|].
  split; [reflexivity|].
  split; [rewrite length_firstn, <- (Permutation_length Hperm);
          reflexivity|].
  split.
  - etransitivity; [apply distinct_words_length|].
    rewrite length_map, <- (Permutation_length Hperm). reflexivity.
  - set (ranking := sorted_desc Keyword.frequency candidates) in *.
    split.
    + intros Hz. apply length_zero_iff_nil in Hz.
      apply distinct_words_nil in Hz. apply map_eq_nil in Hz.
      rewrite Hz. reflexivity.
    + intros Hnil. destruct ranking as [|x r]; [reflexivity|].
      cbn [firstn] in Hnil. discriminate.
Qed.

Lemma jieba_keywords_shape (text : pystr) :
  Forall (fun e => Keyword.language e = py "zh"
                   /\ (2 <= List.length (Keyword.word e))%nat)
         (jieba_keywords text).
Proof.
  unfold jieba_keywords. rewrite Forall_forall. intros e Hin.
  apply in_map_iff in Hin as (tag & <- & Hin).
  apply filter_In in Hin as [_ Hlen]. apply Nat.ltb_lt in Hlen.
  cbn [Keyword.language Keyword.word]. split; [reflexivity|lia].
Qed.

Lemma counted_keywords_shape (P : pystr -> Prop) (lang : pystr)
  (ws : list pystr) :
  Forall P ws ->
  Forall (fun e => Keyword.language e = lang
                   /\ P (Keyword.word e)
                   /\ 1 <= Keyword.frequency e
                   /\ Keyword.frequency e
                      = Z.of_nat (occurrences pystr_eqb (Keyword.word e) ws))
         (map (keyword_of lang) (most_common 20 (Counter ws))).
Proof.
  intros HP. rewrite Forall_forall. intros e Hin.
  apply in_map_iff in Hin as (item & <- & Hin).
  apply most_common_In in Hin.
  destruct (Counter_items P ws HP) as [_ Hitems].
  destruct (Hitems item Hin) as (Hw & Hn & Hocc).
  cbn [keyword_of Keyword.language Keyword.word Keyword.frequency].
  split; [reflexivity|]. split; [exact Hw|]. split; [lia|].
  rewrite Hocc. reflexivity.
Qed.

Lemma nltk_keywords_shape (text : pystr) :
  Forall (fun e => Keyword.language e = py "en"
                   /\ (3 <= List.length (Keyword.word e))%nat
                   /\ 1 <= Keyword.frequency e)
         (nltk_keywords text).
Proof.
  unfold nltk_keywords.
  destruct (word_tokenize (lower text)) as [tokens|]; [|constructor].
  destruct stop_words as [stop|]; [|constructor].
  eapply Forall_impl;
    [|apply (counted_keywords_shape
               (fun t => (3 <= List.length t)%nat) (py "en"))].
  - cbn beta. intros e (Hl & Hw & Hf & _). auto.
  - rewrite Forall_forall. intros t Hin.
    apply filter_In in Hin as [_ Ht].
    apply andb_prop in Ht as [Ht _]. apply andb_prop in Ht as [_ Ht].
    apply Nat.ltb_lt in Ht. lia.
Qed.

Lemma regex_keywords_shape (text : pystr) :
  Forall (fun e =>
            (Keyword.language e = py "zh"
             /\ (2 <= List.length (Keyword.word e) <= 4)%nat
             /\ forallb is_cjk (Keyword.word e) = true
             /\ Keyword.frequency e
                = Z.of_nat (occurrences pystr_eqb (Keyword.word e)
                                        (cjk_words [] text))
             \/ Keyword.language e = py "en"
                /\ (3 <= List.length (Keyword.word e))%nat
                /\ forallb is_ascii_letter (Keyword.word e) = true
                /\ Keyword.frequency e
                   = Z.of_nat (occurrences pystr_eqb (Keyword.word e)
                                           (latin_words (lower text))))
            /\ 1 <= Keyword.frequency e)
         (regex_keywords text).
Proof.
  unfold regex_keywords. apply Forall_app. split.
  - eapply Forall_impl;
      [|apply (counted_keywords_shape
                 (fun w => (2 <= List.length w <= 4)%nat
                           /\ forallb is_cjk w = true) (py "zh"));
        apply cjk_words_shape; [cbn; lia|reflexivity]].
    cbn beta. intros e (Hl & [Hlen Hc] & Hf & Hocc). split; [|exact Hf].
    left. auto.
  - eapply Forall_impl;
      [|apply (counted_keywords_shape
                 (fun w => (3 <= List.length w)%nat
                           /\ forallb is_ascii_letter w = true) (py "en"));
        apply latin_words_shape].
    cbn beta. intros e (Hl & [Hlen Hc] & Hf & Hocc). split; [|exact Hf].
    right. auto.
Qed.

Lemma top_keywords_Forall (P : Keyword.t -> Prop) (all_text : list pystr) :
  Forall P (keyword_candidates all_text) ->
  Forall P (Keywords.top_keywords (keywords_from all_text)).
Proof.
  intros HP. unfold keywords_from. cbn [Keywords.top_keywords].
  rewrite Forall_forall in *. intros e Hin. apply firstn_member in Hin.
  apply HP.
  eapply Permutation_in; [symmetry; apply sorted_desc_perm | exact Hin].
Qed.

(** X26. No keyword is a single character: every top keyword is filed
    under [zh] or [en]; a [zh] keyword has two characters or more, an [en]
    keyword three or more and a frequency of at least one. *)
Theorem keywords_are_no_single_characters :
  forall all_text : list pystr,
    Forall (fun e =>
              Keyword.language e = py "zh"
              /\ (2 <= List.length (Keyword.word e))%nat
              \/ Keyword.language e = py "en"
                 /\ (3 <= List.length (Keyword.word e))%nat
                 /\ 1 <= Keyword.frequency e)
           (Keywords.top_keywords (keywords_from all_text)).
Proof.
  intros all_text. apply top_keywords_Forall.
  unfold keyword_candidates. cbn zeta.
  set (text := join (py " ") all_text).
  assert (Hj : Forall (fun e =>
                         Keyword.language e = py "zh"
                         /\ (2 <= List.length (Keyword.word e))%nat
                         \/ Keyword.language e = py "en"
                            /\ (3 <= List.length (Keyword.word e))%nat
                            /\ 1 <= Keyword.frequency e)
                      (jieba_keywords text)).
  { eapply Forall_impl; [|apply jieba_keywords_shape]. cbn beta. auto. }
  assert (Hn : Forall (fun e =>
                         Keyword.language e = py "zh"
                         /\ (2 <= List.length (Keyword.word e))%nat
                         \/ Keyword.language e = py "en"
                            /\ (3 <= List.length (Keyword.word e))%nat
                            /\ 1 <= Keyword.frequency e)
                      (nltk_keywords text)).
  { eapply Forall_impl; [|apply nltk_keywords_shape]. cbn beta. auto. }
  assert (Hr : Forall (fun e =>
                         Keyword.language e = py "zh"
                         /\ (2 <= List.length (Keyword.word e))%nat
                         \/ Keyword.language e = py "en"
                            /\ (3 <= List.length (Keyword.word e))%nat
                            /\ 1 <= Keyword.frequency e)
                      (regex_keywords text)).
  { eapply Forall_impl; [|apply regex_keywords_shape]. cbn beta.
    intros e [[(Hl & Hlen & _) | (Hl & Hlen & _)] Hf];
      [left; split; [exact Hl|lia] | right; auto]. }
  set (k1 := if jieba_available then [] ++ jieba_keywords text else []).
  set (k2 := if nltk_available then k1 ++ nltk_keywords text else k1).
  assert (H1 : Forall (fun e =>
                         Keyword.language e = py "zh"
                         /\ (2 <= List.length (Keyword.word e))%nat
                         \/ Keyword.language e = py "en"
                            /\ (3 <= List.length (Keyword.word e))%nat
                            /\ 1 <= Keyword.frequency e) k1)
    by (subst k1; destruct jieba_available; [exact Hj|constructor]).
  assert (H2 : Forall (fun e =>
                         Keyword.language e = py "zh"
                         /\ (2 <= List.length (Keyword.word e))%nat
                         \/ Keyword.language e = py "en"
                            /\ (3 <= List.length (Keyword.word e))%nat
                            /\ 1 <= Keyword.frequency e) k2)
    by (subst k2; destruct nltk_available;
        [apply Forall_app; split; assumption|exact H1]).
  destruct k2; [exact Hr|exact H2].
Qed.

(** X27. Without the two segmenters the keywords are the matches of the
    two patterns: a [zh] keyword is two to four CJK ideographs, an [en]
    keyword three or more Basic Latin letters, and the frequency of each
    is the number of its matches in the joined user texts (lower-cased
    for [en]). *)
Theorem regex_keywords_count_matches :
  forall all_text : list pystr,
    jieba_available = false -> nltk_available = false ->
    let text := join (py " ") all_text in
    Forall (fun e =>
              (Keyword.language e = py "zh"
               /\ (2 <= List.length (Keyword.word e) <= 4)%nat
               /\ forallb is_cjk (Keyword.word e) = true
               /\ Keyword.frequency e
                  = Z.of_nat (occurrences pystr_eqb (Keyword.word e)
                                          (cjk_words [] text))
               \/ Keyword.language e = py "en"
                  /\ (3 <= List.length (Keyword.word e))%nat
                  /\ forallb is_ascii_letter (Keyword.word e) = true
                  /\ Keyword.frequency e
                     = Z.of_nat (occurrences pystr_eqb (Keyword.word e)
                                             (latin_words (lower text))))
              /\ 1 <= Keyword.frequency e)
           (Keywords.top_keywords (keywords_from all_text)).
Proof.
  intros all_text Hj Hn text. apply top_keywords_Forall.
  unfold keyword_candidates. cbn zeta. rewrite Hj, Hn.
  apply regex_keywords_shape.
Qed.

End KeywordLaws.

(** ** What stops a run *)


Section Stops.
Context `{Host} `{OtherPasses}.










End Stops.

(** ** Archives put end to end *)

Section Concatenation.
Context `{Host}.

Lemma local_times_app (a b : list conversation) :
  local_times (a ++ b)
  = (da <- local_times a ;; db <- local_times b ;; Ok (da ++ db)).
Proof.
  induction a as [|c a IH]; cbn [app local_times bind].
  - destruct (local_times b); reflexivity.
  - destruct (has_timestamp c); [|exact IH].
    destruct (fromtimestamp_value (get (create_time c))) as [dt|e];
      cbn [bind]; [|reflexivity].
    rewrite IH. destruct (local_times a) as [da|e]; cbn [bind];
      [|reflexivity].
    destruct (local_times b) as [db|e]; reflexivity.
Qed.

Lemma summary_stats_local_times (convs : list conversation) :
  match summary_stats_of convs, local_times convs with
  | Ok _, Ok _ => True
  | Raise e, Raise e' => e = e'
  | _, _ => False
  end.
Proof.
  unfold summary_stats_of.
  pose proof (stats_loop_times convs stats_init) as Hl.
  destruct (foldM stats_conversation stats_init convs) as [st|e];
    destruct (local_times convs) as [dts|e']; cbn [bind]; auto.
Qed.

Lemma heatmap_local_times (convs : list conversation) :
  match brain_activity_heatmap_of convs, local_times convs with
  | Ok _, Ok _ => True
  | Raise e, Raise e' => e = e'
  | _, _ => False
  end.
Proof.
  unfold brain_activity_heatmap_of.
  pose proof (heatmap_loop_cells convs []) as Hl.
  destruct (foldM heatmap_step [] convs) as [data|e];
    destruct (local_times convs) as [dts|e']; cbn [bind]; auto.
Qed.

Lemma occurrences_app {K : Type} (eqb : K -> K -> bool) (k : K)
  (xs ys : list K) :
  occurrences eqb k (xs ++ ys)
  = (occurrences eqb k xs + occurrences eqb k ys)%nat.
Proof. unfold occurrences. now rewrite filter_app, length_app. Qed.

Lemma heatmap_cell_counts (convs : list conversation) (h : Heatmap.t)
  (dts : list datetime) :
  brain_activity_heatmap_of convs = Ok h ->
  local_times convs = Ok dts ->
  forall cell,
    counter_get cell_eqb (Heatmap.heatmap_data h) cell
    = occurrences cell_eqb cell (map cell_of dts).
Proof.
  intros Hh Hl cell.
  destruct (heatmap_cells convs h Hh) as (dts' & Hl' & Hd & _).
  rewrite Hl in Hl'. injection Hl' as <-.
  rewrite Hd, (counter_of_keys cell_eqb cell_eqb_eq). reflexivity.
Qed.

(** X29. Two archives that the basic statistics accept give, put end to
    end, an archive that the basic statistics and the heatmap accept; its
    conversation, message and character totals are the sums of the totals
    of the two, and each cell of its heatmap holds the sum of the counts
    of that cell in the two heatmaps. *)
Theorem archives_add_up :
  forall (a b : list conversation) (sa sb : SummaryStats.t),
    summary_stats_of a = Ok sa ->
    summary_stats_of b = Ok sb ->
    exists (s : SummaryStats.t) (ha hb h : Heatmap.t),
      summary_stats_of (a ++ b) = Ok s
      /\ brain_activity_heatmap_of a = Ok ha
      /\ brain_activity_heatmap_of b = Ok hb
      /\ brain_activity_heatmap_of (a ++ b) = Ok h
      /\ SummaryStats.total_conversations s
         = (SummaryStats.total_conversations sa
            + SummaryStats.total_conversations sb)%nat
      /\ SummaryStats.total_messages s
         = (SummaryStats.total_messages sa
            + SummaryStats.total_messages sb)%nat
      /\ SummaryStats.total_user_characters s
         = (SummaryStats.total_user_characters sa
            + SummaryStats.total_user_characters sb)%nat
      /\ SummaryStats.total_assistant_characters s
         = (SummaryStats.total_assistant_characters sa
            + SummaryStats.total_assistant_characters sb)%nat
      /\ forall cell : Z * Z,
           counter_get cell_eqb (Heatmap.heatmap_data h) cell
           = (counter_get cell_eqb (Heatmap.heatmap_data ha) cell
              + counter_get cell_eqb (Heatmap.heatmap_data hb) cell)%nat.
Proof.
  intros a b sa sb Hsa Hsb.
  pose proof (summary_stats_local_times a) as Hla. rewrite Hsa in Hla.
  pose proof (summary_stats_local_times b) as Hlb. rewrite Hsb in Hlb.
  destruct (local_times a) as [da|] eqn:Eda; [|contradiction].
  destruct (local_times b) as [db|] eqn:Edb; [|contradiction].
  assert (Eab : local_times (a ++ b) = Ok (da ++ db))
    by (rewrite local_times_app, Eda, Edb; reflexivity).
  pose proof (summary_stats_local_times (a ++ b)) as Hs. rewrite Eab in Hs.
  destruct (summary_stats_of (a ++ b)) as [s|] eqn:Es; [|contradiction].
  pose proof (heatmap_local_times a) as Hha. rewrite Eda in Hha.
  destruct (brain_activity_heatmap_of a) as [ha|] eqn:Eha; [|contradiction].
  pose proof (heatmap_local_times b) as Hhb. rewrite Edb in Hhb.
  destruct (brain_activity_heatmap_of b) as [hb|] eqn:Ehb; [|contradiction].
  pose proof (heatmap_local_times (a ++ b)) as Hh. rewrite Eab in Hh.
  destruct (brain_activity_heatmap_of (a ++ b)) as [h|] eqn:Eh;
    [|contradiction].
  exists s, ha, hb, h.
  repeat (split; [reflexivity|]).
  destruct (summary_stats_result a sa Hsa) as (Hca & Hna & Hua & Haa).
  destruct (summary_stats_result b sb Hsb) as (Hcb & Hnb & Hub & Hab).
  destruct (summary_stats_result (a ++ b) s Es) as (Hc & Hn & Hu & Ha).
  assert (Hum : user_messages (a ++ b) = user_messages a ++ user_messages b)
    by (unfold user_messages; rewrite flat_map_app, filter_app; reflexivity).
  assert (Ham : assistant_messages (a ++ b)
                = assistant_messages a ++ assistant_messages b)
    by (unfold assistant_messages; rewrite flat_map_app, filter_app;
        reflexivity).
  rewrite Hc, Hn, Hu, Ha, Hca, Hna, Hua, Haa, Hcb, Hnb, Hub, Hab.
  rewrite Hum, Ham, !characters_app, !length_app.
  repeat (split; [reflexivity|]).
  intros cell.
  rewrite (heatmap_cell_counts _ _ _ Eh Eab),
          (heatmap_cell_counts _ _ _ Eha Eda),
          (heatmap_cell_counts _ _ _ Ehb Edb).
  rewrite map_app. apply occurrences_app.
Qed.

End Concatenation.

(** ** An archive without user messages *)

Lemma py_sum_zero (l : list nat) :
  py_sum l = 0%nat <-> Forall (fun t => t = 0%nat) l.
Proof.
  induction l as [|t l IH]; [split; [constructor|reflexivity]|].
  rewrite py_sum_cons. split.
  - intros Hs. constructor; [lia|]. apply IH. lia.
  - intros Hall. inversion Hall as [|? ? Ht Hl]; subst.
    apply IH in Hl. lia.
Qed.

Section NoUserMessage.
Context `{Host} `{LanguageBackend}.

Lemma user_texts_are_user_messages (c : conversation) :
  user_texts c <> [] -> (0 < user_message_count c)%nat.
Proof.
  unfold user_texts, user_message_count.
  destruct (filter is_user (visited c)); cbn [map filter List.length];
    [congruence|lia].
Qed.

(** X30. An archive without user messages looks the same to every pass:
    the marathon pass reports no session exactly when no conversation has
    a user message, which is exactly when the engagement-depth pass
    classifies no conversation and when the politeness pass counts no
    message; then the linguistic profile analyzes no message and the
    monthly focus, when it returns, lists no month. *)
Theorem no_user_message_in_every_pass :
  forall convs : list conversation,
    let n := py_sum (map user_message_count convs) in
    (n = 0%nat <-> marathon_session_of convs = Ok None)
    /\ (n = 0%nat
        <-> DeepDive.total_conversations (deep_dive_index_of convs) = 0%nat)
    /\ (n = 0%nat
        <-> Politeness.total_messages (politeness_score_of convs) = 0%nat)
    /\ (n = 0%nat ->
        LinguisticProfile.total_messages_analyzed
          (linguistic_profile_from convs) = 0%nat
        /\ forall l, monthly_focus_of convs = Ok l -> l = []).
Proof.
  intros convs n.
  assert (Hzero : n = 0%nat
                  <-> Forall (fun c => user_message_count c = 0%nat) convs).
  { subst n. rewrite py_sum_zero, Forall_map. reflexivity. }
  split; [|split; [|split]].
  - rewrite Hzero. unfold marathon_session_of.
    destruct (marathon_loop convs)
      as [(Hn & _ & Hall) | (i & c & Hi & Hs & _ & Hpos & _)];
      cbn zeta in *.
    + rewrite Hn. split; [reflexivity|intros _; exact Hall].
    + rewrite Hs. split.
      * intros Hall. rewrite Forall_forall in Hall.
        specialize (Hall c (nth_error_In _ _ Hi)). lia.
      * destruct (marathon_date c); cbn [bind]; discriminate.
  - rewrite Hzero. unfold deep_dive_index_of.
    cbn [DeepDive.total_conversations].
    rewrite deep_dive_turn_counts. cbn [fst app].
    clear. induction convs as [|c convs IH]; cbn [map filter].
    + split; [reflexivity|constructor].
    + destruct (Nat.ltb_spec 0 (user_message_count c)) as [Hpos|Hz];
        cbn [List.length].
      * split; [|discriminate].
        intros Hall. inversion Hall; subst. lia.
      * rewrite <- IH. split.
        -- intros Hall. inversion Hall; subst. assumption.
        -- intros Hall. constructor; [lia|exact Hall].
  - assert (Hp : Politeness.total_messages (politeness_score_of convs) = n).
    { unfold politeness_score_of. cbn [Politeness.total_messages].
      unfold polite_counts_of.
      rewrite polite_counts_flat, polite_fold_messages.
      cbn [polite_total_messages Nat.add].
      apply user_messages_by_conversation. }
    rewrite Hp. reflexivity.
  - intros Hn. split.
    + unfold linguistic_profile_from.
      cbn [LinguisticProfile.total_messages_analyzed].
      destruct (profile_state convs) as (Ha & _). cbn zeta in Ha.
      rewrite Ha. unfold analyzed_texts. rewrite length_map.
      pose proof (analyzed_are_user_messages (flat_map visited convs)) as Hle.
      pose proof (user_messages_by_conversation convs) as Hum.
      unfold user_messages in Hum. fold n in Hum. lia.
    + intros l Hl.
      destruct (monthly_focus_months convs l Hl) as [_ Hmonths].
      destruct l as [|x l]; [reflexivity|]. exfalso.
      destruct (proj1 (Hmonths (Monthly.month x)) (or_introl eq_refl))
        as (c & dt & Hin & _ & _ & _ & Htexts).
      apply user_texts_are_user_messages in Htexts.
      apply Hzero in Hn. rewrite Forall_forall in Hn.
      specialize (Hn c Hin). lia.
Qed.

End NoUserMessage.

(** ** Evaluations of the further properties (UTC host) *)

Lemma politeness_is_order_independent_witness :
  politeness_score_of (scenario_a_archive ++ named_pair)
  = politeness_score_of (named_pair ++ scenario_a_archive).
Proof.
  assert (Hperm : Permutation
                    (flat_map visited (scenario_a_archive ++ named_pair))
                    (flat_map visited (named_pair ++ scenario_a_archive))).
  { rewrite !flat_map_app. apply Permutation_app_comm. }
  exact (politeness_is_order_independent _ _ Hperm).
Defined.


Lemma marathon_heads_ranking_witness :
  exists m : Marathon.t,
    marathon_session_of named_pair = Ok (Some m)
    /\ Marathon.turns m = DeepDive.max_turns (deep_dive_index_of named_pair).
Proof.
  assert (Hm : exists m, marathon_session_of named_pair = Ok (Some m))
    by (eexists; vm_compute; reflexivity).
  destruct Hm as [m Hm]. exists m. split; [exact Hm|].
  pose proof (marathon_heads_ranking named_pair m Hm) as Hhead.
  cbv zeta in Hhead. destruct Hhead as [Hturns _]. exact Hturns.
Defined.

Lemma heatmap_is_histogram_witness :
  exists (h : Heatmap.t) (dts : list datetime),
    brain_activity_heatmap_of named_pair = Ok h
    /\ local_times named_pair = Ok dts
    /\ counter_get Z.eqb (Heatmap.hour_distribution h) 22
       = occurrences Z.eqb 22 (map hour dts).
Proof.
  assert (Hh : exists h, brain_activity_heatmap_of named_pair = Ok h)
    by (eexists; vm_compute; reflexivity).
  destruct Hh as [h Hh].
  pose proof (heatmap_is_histogram named_pair h Hh) as Hhist.
  destruct Hhist as (dts & Hl & _ & _ & Hhours & _).
  exists h, dts. split; [exact Hh|]. split; [exact Hl|]. apply Hhours.
Defined.

Lemma heatmap_cells_well_formed_witness :
  exists h : Heatmap.t,
    brain_activity_heatmap_of named_pair = Ok h
    /\ NoDup (map fst (Heatmap.heatmap_data h))
    /\ NoDup (map fst (Heatmap.hour_distribution h)).
Proof.
  assert (Hh : exists h, brain_activity_heatmap_of named_pair = Ok h)
    by (eexists; vm_compute; reflexivity).
  destruct Hh as [h Hh]. exists h. split; [exact Hh|].
  pose proof (heatmap_cells_well_formed named_pair h Hh) as Hwf.
  destruct Hwf as (Hcells & _ & Hhours & _).
  split; [exact Hcells | exact Hhours].
Defined.

Lemma most_active_is_a_mode_witness :
  exists (s : SummaryStats.t) (dts : list datetime),
    summary_stats_of named_pair = Ok s
    /\ local_times named_pair = Ok dts
    /\ match dts with
       | [] => SummaryStats.most_active_hour s = (None, O)
       | _ :: _ =>
           exists hh : Z,
             SummaryStats.most_active_hour s
             = (Some hh, occurrences Z.eqb hh (map hour dts))
       end.
Proof.
  assert (Hs : exists s, summary_stats_of named_pair = Ok s)
    by (eexists; vm_compute; reflexivity).
  destruct Hs as [s Hs].
  pose proof (most_active_is_a_mode named_pair s Hs) as Hmode.
  destruct Hmode as (dts & Hl & Hmode).
  exists s, dts. split; [exact Hs|]. split; [exact Hl|].
  destruct dts as [|dt dts].
  - destruct Hmode as [Hhour _]. exact Hhour.
  - destruct Hmode as (hh & d & Hhour & _). exists hh. exact Hhour.
Defined.


Lemma most_active_hour_is_heatmap_peak_witness :
  exists (s : SummaryStats.t) (h : Heatmap.t),
    summary_stats_of named_pair = Ok s
    /\ brain_activity_heatmap_of named_pair = Ok h
    /\ match SummaryStats.most_active_hour s with
       | (Some hh, n) =>
           counter_get Z.eqb (Heatmap.hour_distribution h) hh = n
       | (None, n) => n = O
       end.
Proof.
  assert (Hs : exists s, summary_stats_of named_pair = Ok s)
    by (eexists; vm_compute; reflexivity).
  assert (Hh : exists h, brain_activity_heatmap_of named_pair = Ok h)
    by (eexists; vm_compute; reflexivity).
  destruct Hs as [s Hs]. destruct Hh as [h Hh].
  exists s, h. split; [exact Hs|]. split; [exact Hh|].
  pose proof (most_active_hour_is_heatmap_peak named_pair s h Hs Hh) as Hpeak.
  destruct (SummaryStats.most_active_hour s) as [[hh|] n].
  - destruct Hpeak as [Hcount _]. exact Hcount.
  - destruct Hpeak as [Hzero _]. exact Hzero.
Defined.

Lemma monthly_focus_months_ascend_witness :
  exists l : list Monthly.t,
    monthly_focus_of named_pair = Ok l
    /\ NoDup (map Monthly.month l).
Proof.
  assert (Hl : exists l, monthly_focus_of named_pair = Ok l)
    by (eexists; vm_compute; reflexivity).
  destruct Hl as [l Hl]. exists l. split; [exact Hl|].
  pose proof (monthly_focus_months_ascend named_pair l Hl) as Hasc.
  destruct Hasc as [_ Hnd]. exact Hnd.
Defined.

Lemma monthly_focus_lists_months_with_text_witness :
  exists l : list Monthly.t,
    monthly_focus_of named_pair = Ok l
    /\ (In (py "2023-11") (map Monthly.month l)
        <-> month_with_text named_pair (py "2023-11")).
Proof.
  assert (Hl : exists l, monthly_focus_of named_pair = Ok l)
    by (eexists; vm_compute; reflexivity).
  destruct Hl as [l Hl]. exists l. split; [exact Hl|].
  exact (monthly_focus_lists_months_with_text named_pair l Hl
           (py "2023-11")).
Defined.

Lemma persona_badge_counts_conversations_witness :
  exists (h : Heatmap.t) (p : PersonaBadge.t),
    brain_activity_heatmap_of named_pair = Ok h
    /\ persona_badge_from_heatmap (Heatmap.heatmap_data h) = Some p.
Proof.
  assert (Hh : exists h, brain_activity_heatmap_of named_pair = Ok h)
    by (eexists; vm_compute; reflexivity).
  destruct Hh as [h Hh].
  pose proof (persona_badge_counts_conversations named_pair h Hh) as Hbadge.
  destruct Hbadge as (p & dts & Hp & _).
  exists h, p. split; [exact Hh | exact Hp].
Defined.

Lemma persona_badges_by_share_witness :
  exists p : PersonaBadge.t,
    persona_badge_from_heatmap [(2, 1, 3%nat); (9, 5, 1%nat)] = Some p
    /\ In (py "深夜哲学家") (map Badge.name (PersonaBadge.badges p)).
Proof.
  assert (Hp : exists p,
             persona_badge_from_heatmap [(2, 1, 3%nat); (9, 5, 1%nat)]
             = Some p)
    by (eexists; vm_compute; reflexivity).
  destruct Hp as [p Hp]. exists p. split; [exact Hp|].
  pose proof (persona_badges_by_share _ p Hp) as Hshare.
  cbv zeta in Hshare.
  destruct Hshare as (_ & Hnight & _).
  apply Hnight.
  destruct (persona_badge_fields _ p Hp) as (Hl & _).
  rewrite Hl. vm_compute. lia.
Defined.

Lemma memorable_moment_is_late_night_peak_witness :
  exists p : PersonaBadge.t,
    persona_badge_from_heatmap [(2, 1, 3%nat); (9, 5, 1%nat)] = Some p
    /\ match PersonaBadge.memorable_moment p with
       | None => True
       | Some mm => 1 <= Moment.hour mm <= 5
       end.
Proof.
  assert (Hp : exists p,
             persona_badge_from_heatmap [(2, 1, 3%nat); (9, 5, 1%nat)]
             = Some p)
    by (eexists; vm_compute; reflexivity).
  destruct Hp as [p Hp]. exists p. split; [exact Hp|].
  pose proof (memorable_moment_is_late_night_peak _ p Hp) as Hpeak.
  destruct (PersonaBadge.memorable_moment p) as [mm|]; [|exact I].
  destruct Hpeak as (w & _ & Hhour & _). exact Hhour.
Defined.

Lemma heuristic_profile_is_zh_or_en_witness :
  counter_get pystr_eqb
    (LinguisticProfile.language_counts
       (linguistic_profile_from scenario_a_archive))
    (py "zh")
  = List.length (filter mostly_cjk (analyzed_texts scenario_a_archive)).
Proof.
  assert (Hdet : langdetect_available = true ->
                 forall n text, detect n text = None)
    by (intros _ n text; reflexivity).
  pose proof (heuristic_profile_is_zh_or_en scenario_a_archive Hdet)
    as Hprofile.
  cbv zeta in Hprofile. destruct Hprofile as (_ & Hzh & _). exact Hzh.
Defined.

Lemma regex_keywords_count_matches_witness :
  Forall (fun e => 1 <= Keyword.frequency e)
         (Keywords.top_keywords
            (keywords_from [py "你好世界你 hello"; py "hello 你好"])).
Proof.
  assert (Hjieba : jieba_available = false) by reflexivity.
  assert (Hnltk : nltk_available = false) by reflexivity.
  pose proof (regex_keywords_count_matches
                [py "你好世界你 hello"; py "hello 你好"] Hjieba Hnltk)
    as Hmatches.
  cbv zeta in Hmatches.
  eapply Forall_impl; [|exact Hmatches].
  intros e [_ Hfrequency]. exact Hfrequency.
Defined.


Lemma archives_add_up_witness :
  exists sa sb s : SummaryStats.t,
    summary_stats_of scenario_a_archive = Ok sa
    /\ summary_stats_of named_pair = Ok sb
    /\ summary_stats_of (scenario_a_archive ++ named_pair) = Ok s
    /\ SummaryStats.total_messages s
       = (SummaryStats.total_messages sa
          + SummaryStats.total_messages sb)%nat.
Proof.
  assert (Hsa : exists sa, summary_stats_of scenario_a_archive = Ok sa)
    by (eexists; vm_compute; reflexivity).
  assert (Hsb : exists sb, summary_stats_of named_pair = Ok sb)
    by (eexists; vm_compute; reflexivity).
  destruct Hsa as [sa Hsa]. destruct Hsb as [sb Hsb].
  pose proof (archives_add_up scenario_a_archive named_pair sa sb Hsa Hsb)
    as Hsum.
  destruct Hsum as (s & ha & hb & h & Hs & _ & _ & _ & _ & Hmessages & _).
  exists sa, sb, s.
  split; [exact Hsa|]. split; [exact Hsb|]. split; [exact Hs|].
  exact Hmessages.
Defined.
